(** * The FHIR resource manager (resourceManager.ts) over a model of its table

    [FHIRResourceManager] stores FHIR resources in one DynamoDB table and
    offers create / read / update / delete / search.  This development
    embeds the class method by method and settles the properties the
    specification states about versioning, history, soft deletion, search
    and error reporting.

    Modelling choices, all local to this file:
    - A JavaScript string is the [string] of the UTF-8 bytes of its text,
      compared bytewise as DynamoDB compares sort keys.  Where the code
      counts or cuts a string ([length], [substring]) the model counts and
      cuts UTF-16 code units over those bytes.
    - A JavaScript number that holds an integer is a [Z]; [None] in
      [option Z] stands for NaN.  Integers are exact (the 2^53 precision
      limit of doubles is outside the model).
    - A resource follows the [FHIRResource] interface: the declared members
      are typed fields, the index signature is a finite map of JSON values.
    - The table is a finite map from the primary key (PK, SK) to the other
      attributes of the item.
    - The table service is modelled by the meaning of the five commands the
      class sends.  A call to [send] may be rejected by the service; the
      world carries the list of rejections still to come.  A query is
      checked by the service before it is run ([query_valid]); the text of
      the message of a rejected query and the size limit of a result page
      are outside the model.
    - The clock and the uuid generator are arguments of the methods.
    - What the class writes to the console is omitted.

    The Lambda handler in front of the class (index.ts) and the logger
    (logger.ts) are embedded after the class: the handler in the same monad,
    with [JSON.parse] as an argument and the value it serialises as the
    response body; the logger as the function from its environment and its
    arguments to the entry it prints. *)

From Stdlib Require Import ZArith Ascii String Decimal DecimalString DecimalPos.
From stdpp Require Import gmap strings list fin_maps sorting.

Local Open Scope Z_scope.

(** ** Strings and numbers as JavaScript has them *)

Module Js.

(** Value of a character as a digit in the given radix (10 or 16). *)
Definition digit_value (radix : Z) (c : ascii) : option Z :=
  let n := Z.of_N (Ascii.N_of_ascii c) in
  if (48 <=? n) && (n <=? 57) then Some (n - 48)
  else if (radix =? 16) && (97 <=? n) && (n <=? 102) then Some (n - 87)
  else if (radix =? 16) && (65 <=? n) && (n <=? 70) then Some (n - 55)
  else None.

(** The longest run of digits at the head of [s], read most significant
    digit first; [acc] is the value read so far, [None] before any digit. *)
Fixpoint parse_digits (radix : Z) (s : string) (acc : option Z) : option Z :=
  match s with
  | EmptyString => acc
  | String c s' =>
      match digit_value radix c with
      | Some d => parse_digits radix s' (Some (radix * default 0 acc + d))
      | None => acc
      end
  end.

Definition byte (c : ascii) : N := Ascii.N_of_ascii c.

(** The white space [parseInt] skips: TAB, LF, VT, FF, CR and the space in
    one byte, and in UTF-8 the no-break space U+00A0 and the three-byte
    characters U+1680, U+2000 to U+200A, U+2028, U+2029, U+202F, U+205F,
    U+3000 and U+FEFF. *)
Definition space_lead (c : ascii) : bool :=
  ((byte c =? 194) || (byte c =? 225) || (byte c =? 226) || (byte c =? 227)
   || (byte c =? 239))%N.

Definition space_2 (c1 c2 : ascii) : bool :=
  ((byte c1 =? 194) && (byte c2 =? 160))%N.

Definition space_3 (c1 c2 c3 : ascii) : bool :=
  (((byte c1 =? 225) && (byte c2 =? 154) && (byte c3 =? 128))
   || ((byte c1 =? 226) && (byte c2 =? 128)
       && (((128 <=? byte c3) && (byte c3 <=? 138))
           || (byte c3 =? 168) || (byte c3 =? 169) || (byte c3 =? 175)))
   || ((byte c1 =? 226) && (byte c2 =? 129) && (byte c3 =? 159))
   || ((byte c1 =? 227) && (byte c2 =? 128) && (byte c3 =? 128))
   || ((byte c1 =? 239) && (byte c2 =? 187) && (byte c3 =? 191)))%N.

Fixpoint skip_space (s : string) : string :=
  match s with
  | EmptyString => EmptyString
  | String c s1 =>
      if Ascii.is_space c then skip_space s1
      else if space_lead c then
        match s1 with
        | String c2 s2 =>
            if space_2 c c2 then skip_space s2
            else match s2 with
                 | String c3 s3 => if space_3 c c2 c3 then skip_space s3 else s
                 | EmptyString => s
                 end
        | EmptyString => s
        end
      else s
  end.

(** After the sign: an optional 0x / 0X prefix selects radix 16. *)
Definition parse_magnitude (s : string) : option Z :=
  match s with
  | String "0" (String "x" s') => parse_digits 16 s' None
  | String "0" (String "X" s') => parse_digits 16 s' None
  | _ => parse_digits 10 s None
  end.

(** [parseInt(s)] with no radix argument; [NaN] is [None]. *)
Definition parseInt (s : string) : option Z :=
  match skip_space s with
  | String "-" s' => Z.opp <$> parse_magnitude s'
  | String "+" s' => parse_magnitude s'
  | s' => parse_magnitude s'
  end.

(** [parseInt(undefined)] is NaN. *)
Definition parseInt_opt (s : option string) : option Z := s ≫= parseInt.

(** [String(n)] for an integral number or NaN. *)
Definition String_of_number (n : option Z) : string :=
  match n with
  | Some z => NilEmpty.string_of_int (Z.to_int z)
  | None => "NaN"
  end.

(** [n || d] on numbers: NaN and 0 are falsy. *)
Definition number_or (n : option Z) (d : Z) : Z :=
  match n with
  | Some z => if z =? 0 then d else z
  | None => d
  end.

(** Truthiness of an optional string: [undefined] and [""] are falsy. *)
Definition truthy (s : option string) : bool :=
  match s with
  | Some s' => negb (String.eqb s' "")
  | None => false
  end.

(** [s.split('/')[1]]: the text between the first and the second slash. *)
Fixpoint after_slash (s : string) : option string :=
  match s with
  | EmptyString => None
  | String c s' => if Ascii.eqb c "/" then Some s' else after_slash s'
  end.

Fixpoint until_slash (s : string) : string :=
  match s with
  | EmptyString => EmptyString
  | String c s' => if Ascii.eqb c "/" then EmptyString else String c (until_slash s')
  end.

Definition split_slash_1 (s : string) : option string :=
  until_slash <$> after_slash s.

Fixpoint drop_chars (n : nat) (s : string) : string :=
  match n, s with
  | S n', String _ s' => drop_chars n' s'
  | _, _ => s
  end.

(** [s.replace(pat, rep)] with a string pattern: first occurrence only. *)
Fixpoint replace (pat rep s : string) : string :=
  if String.prefix pat s then rep +:+ drop_chars (String.length pat) s
  else match s with
       | EmptyString => EmptyString
       | String c s' => String c (replace pat rep s')
       end.

(** An optional string inside a template literal. *)
Definition template (s : option string) : string := default "undefined" s.

(** The UTF-16 code units a byte of UTF-8 text stands for: the first byte
    of a character of one, two or three bytes is one unit, the first byte of
    a character of four bytes is two (a surrogate pair), and the bytes that
    continue a character are none. *)
Definition units (c : ascii) : nat :=
  if (byte c <? 128)%N then 1%nat
  else if (byte c <? 192)%N then 0%nat
  else if (byte c <? 240)%N then 1%nat
  else 2%nat.

(** [s.length] *)
Fixpoint length (s : string) : nat :=
  match s with
  | EmptyString => 0%nat
  | String c s' => (units c + length s')%nat
  end.

(** The first unit of the character of four bytes that starts with [c] and
    goes on in [s']: its high surrogate, written as the three bytes the
    UTF-8 scheme gives that code. *)
Definition high_surrogate (c : ascii) (s' : string) : string :=
  let w := (byte c mod 8)%N in
  let x := match s' with String b _ => (byte b mod 64)%N | _ => 0%N end in
  let y := match s' with String _ (String b _) => (byte b mod 64)%N | _ => 0%N end in
  let hi := (55232 + w * 256 + x * 4 + y / 16)%N in
  String (Ascii.ascii_of_N 237)
    (String (Ascii.ascii_of_N (128 + (hi / 64) mod 64))
       (String (Ascii.ascii_of_N (128 + hi mod 64)) EmptyString)).

(** [s.substring(0, n)]: the first [n] code units.  A cut between the two
    units of a character of four bytes keeps its high surrogate. *)
Fixpoint substring_0 (n : nat) (s : string) : string :=
  match s with
  | EmptyString => EmptyString
  | String c s' =>
      match units c, n with
      | O, _ => String c (substring_0 n s')
      | _, O => EmptyString
      | 1%nat, S n' => String c (substring_0 n' s')
      | _, 1%nat => high_surrogate c s'
      | _, S (S n'') => String c (substring_0 n'' s')
      end
  end.

End Js.


(** ** Data model *)

(** A JSON value, for the members of a resource the interface leaves open. *)
#[warnings="-register-all"] Inductive json :=
| JNull
| JBool (b : bool)
| JNum (z : Z)
| JStr (s : string)
| JArr (l : list json)
| JObj (o : gmap string json).

(** [meta] of [FHIRResource]: three optional members. *)
Record Meta := mkMeta {
  meta_versionId : option string;
  meta_lastUpdated : option string;
  meta_profile : option (list string) }.

(** [interface FHIRResource]: [resourceType], [id?], [meta?] and the index
    signature [[key: string]: any] ([res_rest]).  A request body may lack
    [resourceType], so that member is optional here too. *)
Record FHIRResource := mkResource {
  res_resourceType : option string;
  res_id : option string;
  res_meta : option Meta;
  res_rest : gmap string json }.

Record BundleEntry := mkEntry {
  entry_resource : FHIRResource;
  fullUrl : string }.

(** [interface FHIRBundle]; [resourceType] is the constant 'Bundle'. *)
Record FHIRBundle := mkBundle {
  bundle_id : string;
  bundle_type : string;
  bundle_total : Z;
  bundle_entry : list BundleEntry }.

(** The attributes of a table item other than its key (PK, SK).  Only the
    three attributes every write of the class sets are mandatory ones here;
    the update command of the service creates an item with just these when
    the key is new. *)
Record Item := mkItem {
  item_resourceType : option string;
  item_resourceId : option string;
  item_lastUpdated : option string;
  item_versionId : option string;
  item_resource : FHIRResource;
  GSI1PK : option string;
  GSI1SK : option string;
  GSI2PK : option string;
  GSI2SK : option string;
  deleted : option bool }.

(** A thrown value: the members of an Error object the class reads. *)
Record Exn := mkExn {
  exn_name : string;
  exn_message : string;
  statusCode : option Z }.

(** What a rejected [send] of the SDK carries: a service exception has a
    name and a message and no [statusCode] member. *)
Record SdkError := mkSdkError {
  sdk_name : string;
  sdk_message : string }.

(** The world a method runs in: the table, and for each coming call of
    [send] whether the service rejects it ([Some e]) or serves it ([None]);
    past the end of the list every call is served. *)
Record World := mkWorld {
  table : gmap (string * string) Item;
  faults : list (option SdkError) }.

(** ** Throwing, catching and sequencing *)

Definition M (A : Type) : Type := World → (Exn + A) * World.

Definition ret {A} (a : A) : M A := λ w, (inr a, w).

Definition bind {A B} (m : M A) (f : A → M B) : M B := λ w,
  match m w with
  | (inr a, w') => f a w'
  | (inl e, w') => (inl e, w')
  end.

Notation "'let!' x := m 'in' k" := (bind m (λ x, k))
  (at level 10, x pattern, m at level 100, k at level 200,
   format "'[' 'let!'  x  :=  m  'in'  '/' k ']'").

Definition throw {A} (e : Exn) : M A := λ w, (inl e, w).

(** An expression that evaluates to a value or throws. *)
Definition lift {A} (r : Exn + A) : M A := λ w, (r, w).

Definition try_catch {A} (body : M A) (handler : Exn → M A) : M A := λ w,
  match body w with
  | (inl e, w') => handler e w'
  | r => r
  end.

(** [new Error(msg)] *)
Definition Error (msg : string) : Exn := mkExn "Error" msg None.

(** [new Error(msg)] with [statusCode = 404] attached. *)
Definition Error404 (msg : string) : Exn := mkExn "Error" msg (Some 404).

Definition TypeError (msg : string) : Exn := mkExn "TypeError" msg None.

Definition exn_of_sdk (e : SdkError) : Exn := mkExn (sdk_name e) (sdk_message e) None.

(** ** The table service

    [send cmd] first learns whether the service rejects the call. *)

Definition send_begin : M unit := λ w,
  match faults w with
  | Some e :: fs => (inl (exn_of_sdk e), mkWorld (table w) fs)
  | None :: fs => (inr (), mkWorld (table w) fs)
  | [] => (inr (), w)
  end.

(** [GetCommand {Key}] : [result.Item] *)
Definition send_Get (key : string * string) : M (option Item) :=
  let! _ := send_begin in λ w, (inr (table w !! key), w).

(** [PutCommand {Item}], with [ConditionExpression:
    'attribute_not_exists(PK)'] when [cond] is set: the condition fails when
    an item with the key of [Item] is stored. *)
Definition send_Put (key : string * string) (it : Item) (cond : bool) : M unit :=
  let! _ := send_begin in λ w,
    if cond && bool_decide (is_Some (table w !! key))
    then (inl (mkExn "ConditionalCheckFailedException" "The conditional request failed" None), w)
    else (inr (), mkWorld (<[key := it]> (table w)) (faults w)).

(** [UpdateCommand {Key, UpdateExpression: 'SET #resource = :resource,
    #lastUpdated = :lastUpdated, #versionId = :versionId'}]: the three
    attributes are set on the stored item, all others are kept; an item is
    created when the key is new. *)
Definition set_pointer (resource : FHIRResource) (lastUpdated versionId : option string)
    (old : option Item) : Item :=
  match old with
  | Some it =>
      mkItem (item_resourceType it) (item_resourceId it) lastUpdated versionId resource
             (GSI1PK it) (GSI1SK it) (GSI2PK it) (GSI2SK it) (deleted it)
  | None => mkItem None None lastUpdated versionId resource None None None None None
  end.

Definition send_Update (key : string * string) (resource : FHIRResource)
    (lastUpdated versionId : option string) : M unit :=
  let! _ := send_begin in λ w,
    (inr (), mkWorld (<[key := set_pointer resource lastUpdated versionId (table w !! key)]> (table w))
                     (faults w)).

Inductive Index := GSI1 | GSI2.

#[export] Instance Index_eq_dec : EqDecision Index.
Proof. solve_decision. Defined.

(** A member of [ExpressionAttributeValues]. *)
Inductive AttributeValue :=
| AvString (s : string)
| AvBool (b : bool).

(** The key condition expressions the class writes:
    ['<PK of the index> = :p'], followed or not by
    [' AND begins_with(<SK of the index>, :q)'].  [kc_index] is the index
    whose key attributes the text names, [kc_partition] and
    [kc_begins_with] are the names of the two values. *)
Record KeyCondition := mkKeyCondition {
  kc_index : Index;
  kc_partition : string;
  kc_begins_with : option string }.

(** The filter expression the class writes:
    ['attribute_not_exists(deleted) OR deleted = :d']; [filter_value] is the
    name of the value. *)
Record Filter := mkFilter {
  filter_value : string }.

(** The query object of [searchResources]. *)
Record QueryInput := mkQuery {
  IndexName : Index;
  KeyConditionExpression : KeyCondition;
  ExpressionAttributeValues : gmap string AttributeValue;
  FilterExpression : Filter;
  Limit : Z;
  ScanIndexForward : bool }.

Record QueryOutput := mkQueryOutput {
  Items : list Item;
  Count : Z }.

Definition index_pk (ix : Index) (it : Item) : option string :=
  match ix with GSI1 => GSI1PK it | GSI2 => GSI2PK it end.

Definition index_sk (ix : Index) (it : Item) : option string :=
  match ix with GSI1 => GSI1SK it | GSI2 => GSI2SK it end.

Definition string_value (q : QueryInput) (name : string) : option string :=
  match ExpressionAttributeValues q !! name with
  | Some (AvString s) => Some s
  | _ => None
  end.

(** The names of values the two expressions of a query use. *)
Definition used_values (q : QueryInput) : list string :=
  kc_partition (KeyConditionExpression q)
  :: option_list (kc_begins_with (KeyConditionExpression q))
  ++ [filter_value (FilterExpression q)].

(** What the service checks before it runs a query: [Limit] is at least 1,
    the key condition is on the keys of the index queried, every value an
    expression uses is supplied, the values compared with keys are strings,
    and every value supplied is used by an expression. *)
Definition query_valid (q : QueryInput) : bool :=
  (1 <=? Limit q)
  && bool_decide (kc_index (KeyConditionExpression q) = IndexName q)
  && bool_decide (is_Some (string_value q (kc_partition (KeyConditionExpression q))))
  && match kc_begins_with (KeyConditionExpression q) with
     | Some name => bool_decide (is_Some (string_value q name))
     | None => true
     end
  && bool_decide (is_Some (ExpressionAttributeValues q !! filter_value (FilterExpression q)))
  && bool_decide (dom (ExpressionAttributeValues q) ⊆@{gset string} list_to_set (used_values q)).

(** An item is in an index when it has both key attributes of the index. *)
Definition key_condition (q : QueryInput) (it : Item) : bool :=
  match index_pk (IndexName q) it, index_sk (IndexName q) it with
  | Some pk, Some sk =>
      match string_value q (kc_partition (KeyConditionExpression q)) with
      | Some v => String.eqb pk v
      | None => false
      end &&
      match kc_begins_with (KeyConditionExpression q) with
      | Some name =>
          match string_value q name with
          | Some pre => String.prefix pre sk
          | None => false
          end
      | None => true
      end
  | _, _ => false
  end.

(** [attribute_not_exists(deleted) OR deleted = :d] on an item. *)
Definition filter_expression (q : QueryInput) (it : Item) : bool :=
  match deleted it with
  | None => true
  | Some d =>
      match ExpressionAttributeValues q !! filter_value (FilterExpression q) with
      | Some (AvBool b) => Bool.eqb d b
      | _ => false
      end
  end.

Definition sort_key (ix : Index) (it : Item) : string := default "" (index_sk ix it).

(** Order of a scan: by sort key, ascending when [forward] and descending
    otherwise.  Items with equal sort keys come in no specified order. *)
Definition scan_order (ix : Index) (forward : bool) (a b : Item) : Prop :=
  if forward then String.le (sort_key ix a) (sort_key ix b)
  else String.le (sort_key ix b) (sort_key ix a).

#[export] Instance scan_order_dec ix forward : RelDecision (scan_order ix forward).
Proof. intros a b. unfold scan_order. destruct forward; apply _. Defined.

(** [QueryCommand] on a query the service accepts: the items of the index
    under the key condition, in scan order; [Limit] bounds the items read,
    the filter applies to those. *)
Definition run_query (q : QueryInput) (t : gmap (string * string) Item) : QueryOutput :=
  let matching := filter (λ it, key_condition q it = true) (snd <$> map_to_list t) in
  let scanned := merge_sort (scan_order (IndexName q) (ScanIndexForward q)) matching in
  let page := take (Z.to_nat (Limit q)) scanned in
  let items := filter (λ it, filter_expression q it = true) page in
  mkQueryOutput items (Z.of_nat (length items)).

(** The exception of the service for a request it does not accept.  The
    text of its message is not modelled. *)
Definition ValidationException : Exn :=
  mkExn "ValidationException" "The request is not valid" None.

Definition send_Query (q : QueryInput) : M QueryOutput :=
  let! _ := send_begin in λ w,
    if query_valid q then (inr (run_query q (table w)), w)
    else (inl ValidationException, w).

(** ** The class [FHIRResourceManager] *)

Definition validTypes : list string :=
  ["Patient"; "Encounter"; "Practitioner"; "DocumentReference"; "Observation"; "Condition"].

Definition validateResourceType (resourceType : string) : bool :=
  bool_decide (resourceType ∈ validTypes).

Definition buildPrimaryKey (resourceType id : string) : string * string :=
  ("RESOURCE#" +:+ resourceType +:+ "#" +:+ id, "v1").

(** [addMetadata(resource, isUpdate, existingVersionId)]; [now] is the value
    of [getCurrentTimestamp()]. *)
Definition addMetadata (now : string) (resource : FHIRResource) (isUpdate : bool)
    (existingVersionId : option string) : FHIRResource :=
  let currentTime := now in
  let versionId :=
    if isUpdate && Js.truthy existingVersionId
    then Js.String_of_number (Z.succ <$> Js.parseInt_opt existingVersionId)
    else "1" in
  mkResource (res_resourceType resource) (res_id resource)
    (Some (mkMeta (Some versionId) (Some currentTime)
       (Some (match res_meta resource ≫= meta_profile with
              | Some profile => profile
              | None => ["http://hl7.org/fhir/StructureDefinition/"
                           +:+ Js.template (res_resourceType resource)]
              end))))
    (res_rest resource).

(** [resource.subject?.reference?.split('/')[1]]: [inr None] is
    [undefined]; calling [split] on a [reference] that is neither nullish
    nor a string throws. *)
Definition subject_reference_id (resource : FHIRResource) : Exn + option string :=
  match res_rest resource !! "subject" with
  | Some (JObj subject) =>
      match subject !! "reference" with
      | None | Some JNull => inr None
      | Some (JStr reference) => inr (Js.split_slash_1 reference)
      | Some _ => inl (TypeError "resource.subject?.reference?.split is not a function")
      end
  | _ => inr None
  end.

(** The text after [PATIENT#] in [GSI2PK]:
    [resourceType === 'Patient' ? id : ...split('/')[1] || 'unknown']. *)
Definition owner_id (resourceType resourceId : string) (resource : FHIRResource) : Exn + string :=
  if String.eqb resourceType "Patient" then inr resourceId
  else match subject_reference_id resource with
       | inl e => inl e
       | inr part => inr (if Js.truthy part then default "" part else "unknown")
       end.

(** [resource.resourceType && resource.resourceType !== resourceType] *)
Definition type_mismatch (resourceType : string) (resource : FHIRResource) : bool :=
  Js.truthy (res_resourceType resource) &&
  negb (bool_decide (res_resourceType resource = Some resourceType)).

Definition versionId_of (r : FHIRResource) : option string := res_meta r ≫= meta_versionId.
Definition lastUpdated_of (r : FHIRResource) : option string := res_meta r ≫= meta_lastUpdated.

(** [createResource(resourceType, resource)]; [resource = None] is a body
    that is not an object, [uuid] is what [generateResourceId()] yields. *)
Definition createResource (resourceType : string) (resource : option FHIRResource)
    (now uuid : string) : M FHIRResource :=
  if negb (validateResourceType resourceType)
  then throw (Error ("Unsupported resource type: " +:+ resourceType))
  else match resource with
  | None => throw (Error "Invalid resource: must be an object")
  | Some resource =>
    if type_mismatch resourceType resource
    then throw (Error ("Resource type mismatch: expected " +:+ resourceType +:+ ", got "
                         +:+ Js.template (res_resourceType resource)))
    else
    let resourceId := if Js.truthy (res_id resource) then default "" (res_id resource) else uuid in
    let resourceWithMetadata :=
      addMetadata now (mkResource (Some resourceType) (Some resourceId)
                         (res_meta resource) (res_rest resource)) false None in
    let '(PK, SK) := buildPrimaryKey resourceType resourceId in
    let! owner := lift (owner_id resourceType resourceId resource) in
    let dynamoItem :=
      mkItem (Some resourceType) (Some resourceId)
        (lastUpdated_of resourceWithMetadata) (versionId_of resourceWithMetadata)
        resourceWithMetadata
        (Some ("RESOURCE_TYPE#" +:+ resourceType))
        (Some ("CREATED#" +:+ Js.template (lastUpdated_of resourceWithMetadata)))
        (Some ("PATIENT#" +:+ owner))
        (Some ("RESOURCE#" +:+ resourceType +:+ "#" +:+ resourceId))
        None in
    try_catch
      (let! _ := send_Put (PK, SK) dynamoItem true in
       ret resourceWithMetadata)
      (λ error,
        if String.eqb (exn_name error) "ConditionalCheckFailedException"
        then throw (Error ("Resource " +:+ resourceType +:+ "/" +:+ resourceId +:+ " already exists"))
        else throw (Error ("Failed to create resource: " +:+ exn_message error)))
  end.

Definition not_found (resourceType id : string) : Exn :=
  Error404 ("Resource " +:+ resourceType +:+ "/" +:+ id +:+ " not found").

Definition is_404 (error : Exn) : bool := bool_decide (statusCode error = Some 404).

(** [getResource(resourceType, id)] *)
Definition getResource (resourceType id : string) : M FHIRResource :=
  if negb (validateResourceType resourceType)
  then throw (Error ("Unsupported resource type: " +:+ resourceType))
  else if String.eqb id ""
  then throw (Error "Invalid resource ID")
  else
  let '(PK, SK) := buildPrimaryKey resourceType id in
  try_catch
    (let! result := send_Get (PK, SK) in
     match result with
     | None => throw (not_found resourceType id)
     | Some item => ret (item_resource item)
     end)
    (λ error,
      if is_404 error then throw error
      else throw (Error ("Failed to retrieve resource: " +:+ exn_message error))).

(** [updateResource(resourceType, id, resource)] *)
Definition updateResource (resourceType id : string) (resource : option FHIRResource)
    (now : string) : M FHIRResource :=
  if negb (validateResourceType resourceType)
  then throw (Error ("Unsupported resource type: " +:+ resourceType))
  else if String.eqb id ""
  then throw (Error "Invalid resource ID")
  else match resource with
  | None => throw (Error "Invalid resource: must be an object")
  | Some resource =>
    if type_mismatch resourceType resource
    then throw (Error ("Resource type mismatch: expected " +:+ resourceType +:+ ", got "
                         +:+ Js.template (res_resourceType resource)))
    else
    let! existingResource :=
      try_catch
        (let! result := send_Get (buildPrimaryKey resourceType id) in
         match result with
         | None => throw (not_found resourceType id)
         | Some item => ret item
         end)
        (λ error,
          if is_404 error then throw error
          else throw (Error ("Failed to update resource: " +:+ exn_message error))) in
    let resourceWithMetadata :=
      addMetadata now (mkResource (Some resourceType) (Some id)
                         (res_meta resource) (res_rest resource))
                  true (item_versionId existingResource) in
    let '(PK, SK) := buildPrimaryKey resourceType id in
    let updatedSK := "v" +:+ Js.template (versionId_of resourceWithMetadata) in
    let! owner := lift (owner_id resourceType id resource) in
    let dynamoItem :=
      mkItem (Some resourceType) (Some id)
        (lastUpdated_of resourceWithMetadata) (versionId_of resourceWithMetadata)
        resourceWithMetadata
        (Some ("RESOURCE_TYPE#" +:+ resourceType))
        (Some ("UPDATED#" +:+ Js.template (lastUpdated_of resourceWithMetadata)))
        (Some ("PATIENT#" +:+ owner))
        (Some ("RESOURCE#" +:+ resourceType +:+ "#" +:+ id))
        None in
    try_catch
      (let! _ := send_Put (PK, updatedSK) dynamoItem false in
       let! _ := send_Update (PK, "v1") resourceWithMetadata
                   (lastUpdated_of resourceWithMetadata) (versionId_of resourceWithMetadata) in
       ret resourceWithMetadata)
      (λ error, throw (Error ("Failed to update resource: " +:+ exn_message error)))
  end.

(** The tombstone [deleteResource] builds from the stored item:
    [{...item.resource, meta: {...item.resource.meta, lastUpdated, versionId},
      _deleted: true}]. *)
Definition deletedResource_of (now : string) (item : Item) : FHIRResource :=
  let resource := item_resource item in
  mkResource (res_resourceType resource) (res_id resource)
    (Some (mkMeta (Some (Js.String_of_number (Z.succ <$> Js.parseInt_opt (item_versionId item))))
                  (Some now)
                  (res_meta resource ≫= meta_profile)))
    (<["_deleted" := JBool true]> (res_rest resource)).

(** [{...item, resource, lastUpdated, versionId, deleted: true}] *)
Definition deletedItem_of (now : string) (item : Item) : Item :=
  let deletedResource := deletedResource_of now item in
  mkItem (item_resourceType item) (item_resourceId item)
    (lastUpdated_of deletedResource) (versionId_of deletedResource)
    deletedResource
    (GSI1PK item) (GSI1SK item) (GSI2PK item) (GSI2SK item)
    (Some true).

(** [deleteResource(resourceType, id)] *)
Definition deleteResource (resourceType id : string) (now : string) : M unit :=
  if negb (validateResourceType resourceType)
  then throw (Error ("Unsupported resource type: " +:+ resourceType))
  else if String.eqb id ""
  then throw (Error "Invalid resource ID")
  else
  let '(PK, SK) := buildPrimaryKey resourceType id in
  try_catch
    (let! result := send_Get (PK, SK) in
     match result with
     | None => throw (not_found resourceType id)
     | Some item => send_Put (PK, SK) (deletedItem_of now item) false
     end)
    (λ error,
      if is_404 error then throw error
      else throw (Error ("Failed to delete resource: " +:+ exn_message error))).

(** What ['attribute_not_exists(deleted) OR deleted = :deleted'] means
    with [:deleted = false]. *)
Definition not_deleted (it : Item) : bool :=
  match deleted it with
  | None => true
  | Some d => negb d
  end.

(** The page size [parseInt(searchParams._count) || 20].  ([_offset] is
    parsed next to it and never used.) *)
Definition page_size (searchParams : gmap string string) : Z :=
  Js.number_or (Js.parseInt_opt (searchParams !! "_count")) 20.

(** The query object [searchResources] builds (steps 3 to 5).  The owner
    path replaces the index and the key condition and adds its value; the
    values of the first key condition stay in the object. *)
Definition build_query (resourceType : string) (searchParams : gmap string string) : QueryInput :=
  let count := page_size searchParams in
  let queryParams :=
    mkQuery GSI1 (mkKeyCondition GSI1 ":resourceTypeKey" None)
      {[ ":resourceTypeKey" := AvString ("RESOURCE_TYPE#" +:+ resourceType);
         ":deleted" := AvBool false ]}
      (mkFilter ":deleted") count false in
  let queryParams :=
    if Js.truthy (searchParams !! "_lastUpdated")
    then mkQuery (IndexName queryParams)
           (mkKeyCondition GSI1 ":resourceTypeKey" (Some ":lastUpdatedPrefix"))
           (<[":lastUpdatedPrefix" := AvString "CREATED"]> (ExpressionAttributeValues queryParams))
           (FilterExpression queryParams) (Limit queryParams) (ScanIndexForward queryParams)
    else queryParams in
  if Js.truthy (searchParams !! "subject") && negb (String.eqb resourceType "Patient")
  then
    let patientId := Js.replace "Patient/" "" (default "" (searchParams !! "subject")) in
    mkQuery GSI2 (mkKeyCondition GSI2 ":patientKey" None)
      (<[":patientKey" := AvString ("PATIENT#" +:+ patientId)]>
         (ExpressionAttributeValues queryParams))
      (FilterExpression queryParams) (Limit queryParams) (ScanIndexForward queryParams)
  else queryParams.

(** [searchResources(resourceType, searchParams)]; [uuid] is the id the
    bundle gets from [generateResourceId()]. *)
Definition searchResources (resourceType : string) (searchParams : gmap string string)
    (uuid : string) : M FHIRBundle :=
  if negb (validateResourceType resourceType)
  then throw (Error ("Unsupported resource type: " +:+ resourceType))
  else
  try_catch
    (let! result := send_Query (build_query resourceType searchParams) in
     let resources := item_resource <$> Items result in
     ret (mkBundle uuid "searchset" (Count result)
            ((λ resource, mkEntry resource (resourceType +:+ "/" +:+ Js.template (res_id resource)))
               <$> resources)))
    (λ error, throw (Error ("Failed to search resources: " +:+ exn_message error))).

(** ** Sequences of calls *)

Inductive Call :=
| DoCreate (resourceType : string) (resource : option FHIRResource) (now uuid : string)
| DoRead (resourceType id : string)
| DoUpdate (resourceType id : string) (resource : option FHIRResource) (now : string)
| DoDelete (resourceType id : string) (now : string)
| DoSearch (resourceType : string) (searchParams : gmap string string) (uuid : string).

(** The world a call leaves behind, whether it returns or throws. *)
Definition run (c : Call) (w : World) : World :=
  match c with
  | DoCreate resourceType resource now uuid => (createResource resourceType resource now uuid w).2
  | DoRead resourceType id => (getResource resourceType id w).2
  | DoUpdate resourceType id resource now => (updateResource resourceType id resource now w).2
  | DoDelete resourceType id now => (deleteResource resourceType id now w).2
  | DoSearch resourceType searchParams uuid => (searchResources resourceType searchParams uuid w).2
  end.

Definition run_all (cs : list Call) (w : World) : World := foldl (λ w c, run c w) w cs.

(** The empty table with the given rejections to come. *)
Definition initial (fs : list (option SdkError)) : World := mkWorld ∅ fs.

(** The worlds some sequence of calls leads to from [w0]. *)
Inductive reachable (w0 : World) : World → Prop :=
| reachable_start : reachable w0 w0
| reachable_step c w : reachable w0 w → reachable w0 (run c w).

(** The item a plain read of the identity looks at. *)
Definition current (resourceType id : string) (w : World) : option Item :=
  table w !! buildPrimaryKey resourceType id.

(** The version number a stored item carries. *)
Definition version_of (it : Item) : option Z := Js.parseInt_opt (item_versionId it).

(** The deletion marker [_deleted: true] of a resource. *)
Definition marked_deleted (r : FHIRResource) : bool :=
  match res_rest r !! "_deleted" with
  | Some (JBool true) => true
  | _ => false
  end.

(** ** Vocabulary of the statements *)

(** The version id [addMetadata] stamps on an update of an item whose
    version id is [existing]. *)
Definition next_versionId (existing : option string) : string :=
  if Js.truthy existing
  then Js.String_of_number (Z.succ <$> Js.parseInt_opt existing)
  else "1".

(** A payload the methods accept for the kind: no mismatching
    [resourceType], and no [subject.reference] on which [split] throws. *)
Definition valid_payload (resourceType : string) (resource : FHIRResource) : bool :=
  negb (type_mismatch resourceType resource) &&
  match owner_id resourceType "" resource with inr _ => true | inl _ => false end.

(** The ways one call changes the table.  [partial] allows the state an
    update leaves when the service rejects its second write. *)
Inductive table_step (partial : bool) (t : gmap (string * string) Item) :
    gmap (string * string) Item → Prop :=
| step_none : table_step partial t t
| step_create pk it :
    t !! (pk, "v1") = None →
    item_versionId it = Some "1" →
    deleted it = None →
    table_step partial t (<[(pk, "v1") := it]> t)
| step_history pk cur hist :
    partial = true →
    t !! (pk, "v1") = Some cur →
    item_versionId hist = Some (next_versionId (item_versionId cur)) →
    table_step partial t (<[(pk, "v" +:+ next_versionId (item_versionId cur)) := hist]> t)
| step_update pk cur hist r lu :
    t !! (pk, "v1") = Some cur →
    item_versionId hist = Some (next_versionId (item_versionId cur)) →
    item_resource hist = r →
    let t1 := <[(pk, "v" +:+ next_versionId (item_versionId cur)) := hist]> t in
    table_step partial t
      (<[(pk, "v1") := set_pointer r lu (Some (next_versionId (item_versionId cur)))
                         (t1 !! (pk, "v1"))]> t1)
| step_delete pk cur now :
    t !! (pk, "v1") = Some cur →
    table_step partial t (<[(pk, "v1") := deletedItem_of now cur]> t).

(** Every current row carries a version number, at least 1. *)
Definition versions_ok (t : gmap (string * string) Item) : Prop :=
  ∀ pk it, t !! (pk, "v1") = Some it →
    ∃ n, 1 ≤ n ∧ item_versionId it = Some (Js.String_of_number (Some n)).


(** How the version of the current row of one identity may change. *)
Definition version_move (before after : option Item) : Prop :=
  match before, after with
  | None, None => True
  | None, Some it' => version_of it' = Some 1
  | Some it, Some it' =>
      ∃ v, 1 ≤ v ∧ version_of it = Some v ∧
           (version_of it' = Some v ∨ version_of it' = Some (v + 1))
  | Some _, None => False
  end.

(** Sort keys in descending order, as a scan with [ScanIndexForward: false]
    delivers them. *)
Definition descending (ix : Index) (l : list Item) : Prop :=
  StronglySorted (scan_order ix false) l.

(** The rejection, if any, the service has in store for the next call. *)
Definition next_fault (w : World) : option SdkError :=
  match faults w with
  | Some e :: _ => Some e
  | _ => None
  end.

Module Scenario.

Definition t1 : string := "2024-01-01T00:00:01Z".
Definition t2 : string := "2024-01-01T00:00:02Z".
Definition t3 : string := "2024-01-01T00:00:03Z".

(** [{id: 'p1', name: 'A'}] and [{name: 'B'}] *)
Definition patientA : FHIRResource := mkResource None (Some "p1") None {[ "name" := JStr "A" ]}.
Definition patientB : FHIRResource := mkResource None None None {[ "name" := JStr "B" ]}.

(** The resource the update below stamps: version 2 of Patient/p1. *)
Definition version2 : FHIRResource :=
  addMetadata t2 (mkResource (Some "Patient") (Some "p1") None (res_rest patientB))
    true (Some "1").

Definition created : World := run (DoCreate "Patient" (Some patientA) t1 "uuid-1") (initial []).
Definition updated : World := run (DoUpdate "Patient" "p1" (Some patientB) t2) created.
Definition deleted_after_update : World := run (DoDelete "Patient" "p1" t3) updated.
Definition deleted_at_once : World := run (DoDelete "Patient" "p1" t2) created.
Definition revived : World := run (DoUpdate "Patient" "p1" (Some patientB) t3) deleted_at_once.

End Scenario.

Module Feed.

(** Patient a is created and then updated; patient b is created last. *)
Definition calls : list Call :=
  [ DoCreate "Patient" (Some (mkResource None (Some "a") None ∅)) Scenario.t1 "uuid-1";
    DoUpdate "Patient" "a" (Some (mkResource None None None ∅)) Scenario.t2;
    DoCreate "Patient" (Some (mkResource None (Some "b") None ∅)) Scenario.t3 "uuid-2" ].

Definition world : World := run_all calls (initial []).

End Feed.

Module Owner.

(** An encounter of patient 123, then updated with a payload that has no
    [subject]. *)
Definition encounter : FHIRResource :=
  mkResource None (Some "e1") None
    {[ "subject" := JObj {[ "reference" := JStr "Patient/123" ]} ]}.

Definition bare : FHIRResource := mkResource None None None {[ "status" := JStr "finished" ]}.

Definition encounter_created : World :=
  run (DoCreate "Encounter" (Some encounter) Scenario.t1 "uuid-1") (initial []).

Definition encounter_updated : World :=
  run (DoUpdate "Encounter" "e1" (Some bare) Scenario.t2) encounter_created.

End Owner.

(** ** The rows the methods write *)

(** [dynamoItem] of [createResource]. *)
Definition createdItem (resourceType resourceId : string) (resource : FHIRResource)
    (now owner : string) : Item :=
  let resourceWithMetadata :=
    addMetadata now (mkResource (Some resourceType) (Some resourceId)
                       (res_meta resource) (res_rest resource)) false None in
  mkItem (Some resourceType) (Some resourceId)
    (lastUpdated_of resourceWithMetadata) (versionId_of resourceWithMetadata)
    resourceWithMetadata
    (Some ("RESOURCE_TYPE#" +:+ resourceType))
    (Some ("CREATED#" +:+ Js.template (lastUpdated_of resourceWithMetadata)))
    (Some ("PATIENT#" +:+ owner))
    (Some ("RESOURCE#" +:+ resourceType +:+ "#" +:+ resourceId))
    None.

(** [resourceWithMetadata] of [updateResource]. *)
Definition updatedResource (resourceType id : string) (resource : FHIRResource)
    (now : string) (existingVersionId : option string) : FHIRResource :=
  addMetadata now (mkResource (Some resourceType) (Some id)
                     (res_meta resource) (res_rest resource)) true existingVersionId.

(** [dynamoItem] of [updateResource]. *)
Definition updatedItem (resourceType id : string) (resource : FHIRResource)
    (now : string) (existingVersionId : option string) (owner : string) : Item :=
  let resourceWithMetadata := updatedResource resourceType id resource now existingVersionId in
  mkItem (Some resourceType) (Some id)
    (lastUpdated_of resourceWithMetadata) (versionId_of resourceWithMetadata)
    resourceWithMetadata
    (Some ("RESOURCE_TYPE#" +:+ resourceType))
    (Some ("UPDATED#" +:+ Js.template (lastUpdated_of resourceWithMetadata)))
    (Some ("PATIENT#" +:+ owner))
    (Some ("RESOURCE#" +:+ resourceType +:+ "#" +:+ id))
    None.

(** The id [createResource] gives the resource: [resource.id || uuid]. *)
Definition created_id (resource : FHIRResource) (uuid : string) : string :=
  if Js.truthy (res_id resource) then default "" (res_id resource) else uuid.

(** Where a row of the table after a call can come from, if the call wrote
    it: the put of create, the two writes of update, the put of delete. *)
Inductive written (w : World) : string * string → Item → Prop :=
| written_create t r now uuid owner :
    validateResourceType t = true →
    owner_id t (created_id r uuid) r = inr owner →
    current t (created_id r uuid) w = None →
    written w (buildPrimaryKey t (created_id r uuid))
      (createdItem t (created_id r uuid) r now owner)
| written_history t id r now cur owner :
    validateResourceType t = true → id ≠ "" →
    current t id w = Some cur →
    owner_id t id r = inr owner →
    written w ((buildPrimaryKey t id).1, "v" +:+ next_versionId (item_versionId cur))
      (updatedItem t id r now (item_versionId cur) owner)
| written_pointer t id r now cur owner old :
    validateResourceType t = true → id ≠ "" →
    current t id w = Some cur →
    owner_id t id r = inr owner →
    old = cur ∨ old = updatedItem t id r now (item_versionId cur) owner →
    let res := updatedResource t id r now (item_versionId cur) in
    written w (buildPrimaryKey t id)
      (set_pointer res (lastUpdated_of res) (versionId_of res) (Some old))
| written_delete t id now cur :
    validateResourceType t = true → id ≠ "" →
    current t id w = Some cur →
    written w (buildPrimaryKey t id) (deletedItem_of now cur).

(** What every stored row satisfies: its resource names the kind and id
    the key was built from, the row mirrors the version and the time of its
    resource, and the row has the key attributes of both indexes. *)
Definition row_ok (key : string * string) (it : Item) : Prop :=
  ∃ t id,
    validateResourceType t = true ∧
    res_resourceType (item_resource it) = Some t ∧
    res_id (item_resource it) = Some id ∧
    key.1 = (buildPrimaryKey t id).1 ∧
    item_versionId it = versionId_of (item_resource it) ∧
    item_lastUpdated it = lastUpdated_of (item_resource it) ∧
    GSI1PK it = Some ("RESOURCE_TYPE#" +:+ t) ∧
    is_Some (GSI1SK it) ∧ is_Some (GSI2PK it) ∧
    GSI2SK it = Some ("RESOURCE#" +:+ t +:+ "#" +:+ id).

Module Faulty.

(** Patient/p1 is created on a service that will serve three calls and
    reject the fourth. *)
Definition throttled : World :=
  run (DoCreate "Patient" (Some Scenario.patientA) Scenario.t1 "uuid-1")
    (initial [None; None; None; Some (mkSdkError "Throttled" "slow down")]).

End Faulty.

(** The identity a call writes to, if it writes at all. *)
Definition target (c : Call) : option (string * string) :=
  match c with
  | DoCreate resourceType (Some resource) _ uuid => Some (resourceType, created_id resource uuid)
  | DoUpdate resourceType id _ _ => Some (resourceType, id)
  | DoDelete resourceType id _ => Some (resourceType, id)
  | _ => None
  end.

(** Whether [searchResources] takes the owner path (step 5):
    [searchParams.subject && resourceType !== 'Patient']. *)
Definition owner_path (resourceType : string) (searchParams : gmap string string) : bool :=
  Js.truthy (searchParams !! "subject") && negb (String.eqb resourceType "Patient").

(** The patient id the owner path queries. *)
Definition searched_patient (searchParams : gmap string string) : string :=
  Js.replace "Patient/" "" (default "" (searchParams !! "subject")).

(** ** The Lambda handler of the resource manager (index.ts)

    [JSON.parse] is an argument of the handler: it yields the parsed body
    ([None] for a value that is not an object) or throws.  The body of a
    response is kept as the value [JSON.stringify] is applied to. *)

Module Http.

(** [s.split('/')] *)
Fixpoint split_slash (s : string) : list string :=
  match s with
  | EmptyString => [EmptyString]
  | String c s' =>
      if Ascii.eqb c "/" then EmptyString :: split_slash s'
      else match split_slash s' with
           | part :: parts => String c part :: parts
           | [] => [String c EmptyString]
           end
  end.

(** [event.path.split('/').filter(part => part)] *)
Definition path_parts (path : string) : list string :=
  filter (λ part, part ≠ EmptyString) (split_slash path).

(** The members of [APIGatewayProxyEvent] the handler reads. *)
Record Event := mkEvent {
  httpMethod : string;
  path : string;
  queryStringParameters : option (gmap string string);
  body : option string }.

(** The value a response body is the JSON text of. *)
Inductive ResponseBody :=
| OfResource (resource : FHIRResource)
| OfBundle (bundle : FHIRBundle)
| OfMessage (message : string)
| OfError (error : string) (requestId : option string).

Record Response := mkResponse {
  resp_statusCode : Z;
  resp_headers : list (string * string);
  resp_body : ResponseBody }.

Definition json_headers : list (string * string) := [("Content-Type", "application/json")].

Definition fhir_headers : list (string * string) :=
  [ ("Content-Type", "application/fhir+json");
    ("Access-Control-Allow-Origin", "*");
    ("Access-Control-Allow-Headers", "Content-Type,Authorization");
    ("Access-Control-Allow-Methods", "GET,POST,PUT,DELETE,OPTIONS") ].

(** [event.body || '{}'] *)
Definition body_text (event : Event) : string :=
  if Js.truthy (body event) then default "" (body event) else "{}".

(** [handler(event, context)]; [requestId] is [context.awsRequestId].  A
    missing second path part reaches the methods as [undefined], which they
    reject like the string "undefined" they print.  The calls of the logger
    are left out. *)
Definition handler (JSON_parse : string → Exn + option FHIRResource) (event : Event)
    (requestId now uuid : string) : M Response :=
  try_catch
    (let pathParts := path_parts (path event) in
     let resourceType := Js.template (pathParts !! 1%nat) in
     let resourceId := pathParts !! 2%nat in
     let respond (result : ResponseBody) : M Response :=
       ret (mkResponse (if String.eqb (httpMethod event) "POST" then 201 else 200)
              fhir_headers result) in
     if String.eqb (httpMethod event) "GET" then
       match resourceId with
       | Some id =>
           let! result := getResource resourceType id in respond (OfResource result)
       | None =>
           let! result := searchResources resourceType
                            (default ∅ (queryStringParameters event)) uuid in
           respond (OfBundle result)
       end
     else if String.eqb (httpMethod event) "POST" then
       let! createBody := lift (JSON_parse (body_text event)) in
       let! result := createResource resourceType createBody now uuid in
       respond (OfResource result)
     else if String.eqb (httpMethod event) "PUT" then
       match resourceId with
       | None =>
           ret (mkResponse 400 json_headers
                  (OfError "Resource ID required for PUT operation" None))
       | Some id =>
           let! updateBody := lift (JSON_parse (body_text event)) in
           let! result := updateResource resourceType id updateBody now in
           respond (OfResource result)
       end
     else if String.eqb (httpMethod event) "DELETE" then
       match resourceId with
       | None =>
           ret (mkResponse 400 json_headers
                  (OfError "Resource ID required for DELETE operation" None))
       | Some id =>
           let! _ := deleteResource resourceType id now in
           respond (OfMessage "Resource deleted successfully")
       end
     else
       ret (mkResponse 405 json_headers
              (OfError ("Method " +:+ httpMethod event +:+ " not allowed") None)))
    (λ error,
      ret (mkResponse (default 500 (statusCode error)) json_headers
             (OfError (exn_message error) (Some requestId)))).

End Http.

(** ** The logger (logger.ts)

    An entry is kept as the object [JSON.stringify] prints; a member whose
    value is [undefined] is not printed and is absent here. *)

Module Log.

Inductive LogLevel := ERROR | WARN | INFO | DEBUG.

Definition level_number (l : LogLevel) : Z :=
  match l with ERROR => 0 | WARN => 1 | INFO => 2 | DEBUG => 3 end.

(** [toUpperCase()] on the letters a to z.  JavaScript also maps a few
    characters outside ASCII to ASCII letters (the dotless i to I, the long
    s to S, ligatures to FF, FI, FL, ST); of the four level names only INFO,
    the default, has one of these letters. *)
Definition upper_char (c : ascii) : ascii :=
  let n := Ascii.N_of_ascii c in
  if ((97 <=? n) && (n <=? 122))%N then Ascii.ascii_of_N (n - 32) else c.

Fixpoint toUpperCase (s : string) : string :=
  match s with
  | EmptyString => EmptyString
  | String c s' => String (upper_char c) (toUpperCase s')
  end.

(** The variables of [process.env] the logger reads. *)
Record Env := mkEnv {
  LOG_LEVEL : option string;
  AWS_REQUEST_ID : option string;
  AWS_LAMBDA_FUNCTION_NAME : option string }.

(** The constructor: [process.env.LOG_LEVEL?.toUpperCase()] selects the
    level, INFO by default. *)
Definition logLevel_of (env : Env) : LogLevel :=
  match toUpperCase <$> LOG_LEVEL env with
  | Some envLogLevel =>
      if String.eqb envLogLevel "DEBUG" then DEBUG
      else if String.eqb envLogLevel "INFO" then INFO
      else if String.eqb envLogLevel "WARN" then WARN
      else if String.eqb envLogLevel "ERROR" then ERROR
      else INFO
  | None => INFO
  end.

(** [log(level, levelName, message, meta)]: the entry printed, if any.
    [now] is [new Date().toISOString()]. *)
Definition log (logLevel : LogLevel) (env : Env) (now : string) (level : LogLevel)
    (levelName message : string) (meta : option (gmap string json)) : option (gmap string json) :=
  if level_number logLevel <? level_number level then None
  else
    let logEntry : gmap string json :=
      default ∅ meta ∪
      {[ "timestamp" := JStr now; "level" := JStr levelName; "message" := JStr message ]} in
    let logEntry :=
      if Js.truthy (AWS_REQUEST_ID env)
      then <["requestId" := JStr (default "" (AWS_REQUEST_ID env))]> logEntry
      else logEntry in
    let logEntry :=
      if Js.truthy (AWS_LAMBDA_FUNCTION_NAME env)
      then <["functionName" := JStr (default "" (AWS_LAMBDA_FUNCTION_NAME env))]> logEntry
      else logEntry in
    Some logEntry.

Definition error logLevel env now message meta := log logLevel env now ERROR "ERROR" message meta.
Definition warn logLevel env now message meta := log logLevel env now WARN "WARN" message meta.
Definition info logLevel env now message meta := log logLevel env now INFO "INFO" message meta.
Definition debug logLevel env now message meta := log logLevel env now DEBUG "DEBUG" message meta.

(** [maskResourceId(resourceId)] *)
Definition maskResourceId (resourceId : string) : string :=
  if (Js.length resourceId <=? 4)%nat then "***"
  else Js.substring_0 4 resourceId +:+ "***".

(** An object literal member that is left out when its value is
    [undefined]. *)
Definition member (key : string) (value : option string) : gmap string json :=
  match value with
  | Some v => {[ key := JStr v ]}
  | None => ∅
  end.

(** [resourceId ? this.maskResourceId(resourceId) : undefined] *)
Definition masked (resourceId : option string) : option string :=
  if Js.truthy resourceId then Some (maskResourceId (default "" resourceId)) else None.

(** [fhirOperation(operation, resourceType, resourceId?, meta?)] *)
Definition fhirOperation (logLevel : LogLevel) (env : Env) (now : string)
    (operation resourceType : string) (resourceId : option string)
    (meta : option (gmap string json)) : option (gmap string json) :=
  info logLevel env now ("FHIR " +:+ operation)
    (Some (default ∅ meta ∪
           ({[ "resourceType" := JStr resourceType ]} ∪ member "resourceId" (masked resourceId)))).

(** [auditLog(event, userId?, resourceType?, resourceId?, meta?)];
    [audit_time] is the time [auditLog] reads itself, [now] the one [log]
    reads after it. *)
Definition auditLog (logLevel : LogLevel) (env : Env) (now audit_time : string)
    (event : string) (userId resourceType resourceId : option string)
    (meta : option (gmap string json)) : option (gmap string json) :=
  info logLevel env now "AUDIT"
    (Some (default ∅ meta ∪
           ({[ "event" := JStr event; "timestamp" := JStr audit_time ]} ∪ member "userId" userId
            ∪ member "resourceType" resourceType ∪ member "resourceId" (masked resourceId)))).

End Log.

Module HttpDemo.

(** A parser that knows the text of the empty object and throws a
    SyntaxError on every other text. *)
Definition parse (text : string) : Exn + option FHIRResource :=
  if String.eqb text "{}" then inr (Some (mkResource None None None ∅))
  else inl (mkExn "SyntaxError" "Unexpected token in JSON" None).

End HttpDemo.

(** * Properties *)

(** ** Strings and numbers *)

Example parseInt_examples :
  Js.parseInt "42" = Some 42 ∧ Js.parseInt " -7abc" = Some (-7) ∧
  Js.parseInt "0x1f" = Some 31 ∧ Js.parseInt "abc" = None ∧
  Js.parseInt "" = None ∧ Js.parseInt "0" = Some 0.
Proof. repeat split; reflexivity. Qed.

(** White space outside ASCII is skipped too: a no-break space, then an
    ideographic space. *)
Example parseInt_unicode_space :
  Js.parseInt (String "194" (String "160" "50")) = Some 50 ∧
  Js.parseInt (String "227" (String "128" (String "128" "-3"))) = Some (-3) ∧
  Js.parseInt (String "194" "50") = None.
Proof. repeat split; vm_compute; reflexivity. Qed.

Example string_examples :
  Js.split_slash_1 "Patient/123" = Some "123" ∧
  Js.split_slash_1 "Patient/123/_history/2" = Some "123" ∧
  Js.split_slash_1 "123" = None ∧
  Js.split_slash_1 "Patient/" = Some "" ∧
  Js.replace "Patient/" "" "Patient/123" = "123" ∧
  Js.replace "Patient/" "" "123" = "123" ∧
  Js.String_of_number (Some 12) = "12" ∧
  Js.String_of_number (Z.succ <$> Js.parseInt "x") = "NaN".
Proof. repeat split; reflexivity. Qed.

(** ** Keys *)

Lemma validTypes_cases t :
  validateResourceType t = true →
  t = "Patient" ∨ t = "Encounter" ∨ t = "Practitioner" ∨ t = "DocumentReference"
  ∨ t = "Observation" ∨ t = "Condition".
Proof.
  unfold validateResourceType, validTypes. intros H%bool_decide_eq_true.
  repeat (apply elem_of_cons in H as [->|H]; [tauto|]).
  by apply not_elem_of_nil in H.
Qed.

(** Two identities of supported kinds with the same partition key are the
    same identity. *)
Lemma buildPrimaryKey_inj t1 id1 t2 id2 :
  validateResourceType t1 = true → validateResourceType t2 = true →
  buildPrimaryKey t1 id1 = buildPrimaryKey t2 id2 → t1 = t2 ∧ id1 = id2.
Proof.
  intros H1%validTypes_cases H2%validTypes_cases Heq.
  unfold buildPrimaryKey in Heq. apply (f_equal fst) in Heq. cbn [fst] in Heq.
  destruct H1 as [->|[->|[->|[->|[->| ->]]]]];
    destruct H2 as [->|[->|[->|[->|[->| ->]]]]];
    cbn in Heq; try discriminate Heq; by injection Heq.
Qed.

(** [parseInt] reads back what [String] prints. *)

Lemma parse_digits_acc d acc :
  Js.parse_digits 10 (NilEmpty.string_of_uint d) (Some (Z.pos acc))
  = Some (Z.pos (Pos.of_uint_acc d acc)).
Proof.
  revert acc. induction d; intros acc; cbn [NilEmpty.string_of_uint Js.parse_digits Pos.of_uint_acc];
    [reflexivity | ..];
    match goal with
    | |- context [Js.digit_value 10 ?c] =>
        let v := eval vm_compute in (Js.digit_value 10 c) in
        change (Js.digit_value 10 c) with v
    end; (etransitivity; [|apply IHd]); f_equal; f_equal; cbn [default from_option]; unfold id; lia.
Qed.

Lemma parse_digits_from d acc0 :
  d ≠ Nil → default 0 acc0 = 0 →
  Js.parse_digits 10 (NilEmpty.string_of_uint d) acc0 = Some (Z.of_N (Pos.of_uint d)).
Proof.
  revert acc0. induction d; intros acc0 Hd H0; [done | ..];
    cbn [NilEmpty.string_of_uint Js.parse_digits Pos.of_uint];
    match goal with
    | |- context [Js.digit_value 10 ?c] =>
        let v := eval vm_compute in (Js.digit_value 10 c) in
        change (Js.digit_value 10 c) with v
    end; rewrite H0.
  - destruct d; [reflexivity | apply IHd; done ..].
  - apply (parse_digits_acc d 1).
  - apply (parse_digits_acc d 2).
  - apply (parse_digits_acc d 3).
  - apply (parse_digits_acc d 4).
  - apply (parse_digits_acc d 5).
  - apply (parse_digits_acc d 6).
  - apply (parse_digits_acc d 7).
  - apply (parse_digits_acc d 8).
  - apply (parse_digits_acc d 9).
Qed.

Lemma parse_magnitude_uint d :
  d ≠ Nil → Js.parse_magnitude (NilEmpty.string_of_uint d) = Some (Z.of_N (Pos.of_uint d)).
Proof.
  intros Hd. rewrite <- (parse_digits_from d None Hd eq_refl).
  destruct d; try done; try reflexivity.
  destruct d; reflexivity.
Qed.

Lemma skip_space_uint d : Js.skip_space (NilEmpty.string_of_uint d) = NilEmpty.string_of_uint d.
Proof. destruct d; reflexivity. Qed.

Lemma parseInt_uint d :
  d ≠ Nil → Js.parseInt (NilEmpty.string_of_uint d) = Some (Z.of_N (Pos.of_uint d)).
Proof.
  intros Hd. rewrite <- (parse_magnitude_uint d Hd).
  unfold Js.parseInt. rewrite skip_space_uint.
  destruct d; try done; reflexivity.
Qed.

Lemma parseInt_String_of_number z :
  Js.parseInt (Js.String_of_number (Some z)) = Some z.
Proof.
  destruct z as [|p|p]; [reflexivity | |].
  - cbn [Js.String_of_number Z.to_int NilEmpty.string_of_int].
    rewrite parseInt_uint by apply Unsigned.to_uint_nonnil.
    by rewrite Unsigned.of_to.
  - cbn [Js.String_of_number Z.to_int NilEmpty.string_of_int].
    change (Js.parseInt (String "-" ?s)) with (Z.opp <$> Js.parse_magnitude s).
    rewrite parse_magnitude_uint by apply Unsigned.to_uint_nonnil.
    by rewrite Unsigned.of_to.
Qed.

Lemma String_of_number_inj a b :
  Js.String_of_number (Some a) = Js.String_of_number (Some b) → a = b.
Proof.
  intros H. apply (f_equal Js.parseInt) in H.
  rewrite !parseInt_String_of_number in H. congruence.
Qed.

Lemma String_of_number_truthy z : Js.truthy (Some (Js.String_of_number (Some z))) = true.
Proof.
  unfold Js.truthy. destruct (String.eqb_spec (Js.String_of_number (Some z)) "") as [H|H]; [|done].
  apply (f_equal Js.parseInt) in H. rewrite parseInt_String_of_number in H. discriminate.
Qed.

Lemma next_versionId_number n :
  next_versionId (Some (Js.String_of_number (Some n))) = Js.String_of_number (Some (n + 1)).
Proof.
  unfold next_versionId. rewrite String_of_number_truthy.
  cbn [Js.parseInt_opt mbind option_bind]. rewrite parseInt_String_of_number. reflexivity.
Qed.

Lemma version_key_inj a b : "v" +:+ a = "v" +:+ b → a = b.
Proof. intros H. by injection H. Qed.

Lemma version_key_not_v1 n : 1 ≤ n → "v" +:+ Js.String_of_number (Some (n + 1)) ≠ "v1".
Proof.
  intros Hn H. apply (version_key_inj _ "1") in H.
  apply (String_of_number_inj _ 1) in H. lia.
Qed.

(** *** The service calls, one case per fate of the call *)

Lemma send_Get_run key w :
  send_Get key w =
  match faults w with
  | Some e :: fs => (inl (exn_of_sdk e), mkWorld (table w) fs)
  | None :: fs => (inr (table w !! key), mkWorld (table w) fs)
  | [] => (inr (table w !! key), w)
  end.
Proof. unfold send_Get, bind, send_begin. by destruct (faults w) as [|[e|] fs]. Qed.

Lemma send_Put_run key it cond w :
  send_Put key it cond w =
  match faults w with
  | Some e :: fs => (inl (exn_of_sdk e), mkWorld (table w) fs)
  | None :: fs =>
      if cond && bool_decide (is_Some (table w !! key))
      then (inl (mkExn "ConditionalCheckFailedException" "The conditional request failed" None),
            mkWorld (table w) fs)
      else (inr (), mkWorld (<[key := it]> (table w)) fs)
  | [] =>
      if cond && bool_decide (is_Some (table w !! key))
      then (inl (mkExn "ConditionalCheckFailedException" "The conditional request failed" None), w)
      else (inr (), mkWorld (<[key := it]> (table w)) [])
  end.
Proof.
  unfold send_Put, bind, send_begin.
  destruct (faults w) as [|[e|] fs] eqn:Hf; cbn [table faults]; rewrite ?Hf; done.
Qed.

Lemma send_Update_run key r lu v w :
  send_Update key r lu v w =
  match faults w with
  | Some e :: fs => (inl (exn_of_sdk e), mkWorld (table w) fs)
  | None :: fs =>
      (inr (), mkWorld (<[key := set_pointer r lu v (table w !! key)]> (table w)) fs)
  | [] => (inr (), mkWorld (<[key := set_pointer r lu v (table w !! key)]> (table w)) [])
  end.
Proof.
  unfold send_Update, bind, send_begin.
  destruct (faults w) as [|[e|] fs] eqn:Hf; cbn [table faults]; rewrite ?Hf; done.
Qed.

Lemma send_Query_run q w :
  send_Query q w =
  match faults w with
  | Some e :: fs => (inl (exn_of_sdk e), mkWorld (table w) fs)
  | None :: fs =>
      if query_valid q then (inr (run_query q (table w)), mkWorld (table w) fs)
      else (inl ValidationException, mkWorld (table w) fs)
  | [] =>
      if query_valid q then (inr (run_query q (table w)), w)
      else (inl ValidationException, w)
  end.
Proof. unfold send_Query, bind, send_begin. by destruct (faults w) as [|[e|] fs]. Qed.

Lemma is_404_sdk e : is_404 (exn_of_sdk e) = false.
Proof. reflexivity. Qed.

Lemma is_404_not_found t id : is_404 (not_found t id) = true.
Proof. reflexivity. Qed.

(** *** Reads and searches leave the table alone *)

Lemma getResource_table t id w : table (getResource t id w).2 = table w.
Proof.
  unfold getResource.
  destruct (negb (validateResourceType t)); [done|].
  destruct (String.eqb id ""); [done|].
  unfold buildPrimaryKey, try_catch, bind. rewrite send_Get_run.
  destruct (faults w) as [|[e|] fs]; cbn [throw is_404 fst snd table];
    try done; by destruct (table w !! _).
Qed.

Lemma searchResources_table t sp uuid w : table (searchResources t sp uuid w).2 = table w.
Proof.
  unfold searchResources.
  destruct (negb (validateResourceType t)); [done|].
  unfold try_catch, bind. rewrite send_Query_run.
  destruct (faults w) as [|[e|] fs]; try done; by destruct (query_valid _).
Qed.

Lemma versionId_of_addMetadata_update now r existing :
  versionId_of (addMetadata now r true existing) = Some (next_versionId existing).
Proof. reflexivity. Qed.

Lemma versionId_of_addMetadata_create now r :
  versionId_of (addMetadata now r false None) = Some "1".
Proof. reflexivity. Qed.

Ltac fate :=
  repeat first
    [ rewrite send_Get_run | rewrite send_Put_run | rewrite send_Update_run
    | rewrite send_Query_run ];
  cbn [table faults].

Lemma createResource_step partial t r now uuid w :
  table_step partial (table w) (table (createResource t r now uuid w).2).
Proof.
  unfold createResource.
  destruct (negb (validateResourceType t)); [constructor|].
  destruct r as [r|]; [|constructor].
  destruct (type_mismatch t r); [constructor|].
  unfold buildPrimaryKey, bind.
  set (rid := if Js.truthy (res_id r) then default "" (res_id r) else uuid).
  unfold lift. destruct (owner_id t rid r) as [e|o]; [constructor|].
  unfold try_catch, bind. fate.
  destruct (faults w) as [|[e|] fs]; cbn [andb];
    try (destruct (String.eqb _ _); constructor);
    (destruct (table w !! _) as [it|] eqn:Hk;
     [ rewrite bool_decide_eq_true_2 by eauto; constructor
     | rewrite bool_decide_eq_false_2 by (by intros [? ?]); by apply step_create ]).
Qed.

Ltac settle :=
  fate; rewrite ?is_404_sdk, ?is_404_not_found; cbn [throw ret fst snd table faults].

Lemma deleteResource_step partial t id now w :
  table_step partial (table w) (table (deleteResource t id now w).2).
Proof.
  unfold deleteResource.
  destruct (negb (validateResourceType t)); [apply step_none|].
  destruct (String.eqb id ""); [apply step_none|].
  unfold buildPrimaryKey, try_catch, bind. fate.
  destruct (faults w) as [|[e|] fs] eqn:Hf.
  - destruct (table w !! _) as [it|] eqn:Hk; settle; [|apply step_none].
    rewrite Hf. cbn [snd table]. by apply step_delete.
  - settle. apply step_none.
  - destruct (table w !! _) as [it|] eqn:Hk; settle; [|apply step_none].
    destruct fs as [|[e|] fs]; settle; [| apply step_none |]; by apply step_delete.
Qed.

Lemma template_Some s : Js.template (Some s) = s.
Proof. reflexivity. Qed.

Lemma updateResource_step partial t id r now w :
  (partial = false → faults w = []) →
  table_step partial (table w) (table (updateResource t id r now w).2).
Proof.
  intros Hp. unfold updateResource.
  destruct (negb (validateResourceType t)); [apply step_none|].
  destruct (String.eqb id ""); [apply step_none|].
  destruct r as [r|]; [|apply step_none].
  destruct (type_mismatch t r); [apply step_none|].
  unfold buildPrimaryKey, bind at 1, try_catch at 1, bind at 1. fate.
  destruct (faults w) as [|[e|] fs] eqn:Hf.
  - destruct (table w !! _) as [cur|] eqn:Hk; settle; [|apply step_none].
    unfold bind at 1.
    unfold lift. destruct (owner_id _ _ _) as [e|o]; [apply step_none|].
    unfold try_catch, bind. settle. rewrite Hf. settle. rewrite ?Hf. settle.
    rewrite versionId_of_addMetadata_update, template_Some.
    eapply step_update; [done | reflexivity..].
  - settle. apply step_none.
  - assert (partial = true) as -> by (destruct partial; [done | by specialize (Hp eq_refl)]).
    destruct (table w !! _) as [cur|] eqn:Hk; settle; [|apply step_none].
    unfold bind at 1.
    unfold lift. destruct (owner_id _ _ _) as [e|o]; [apply step_none|].
    unfold try_catch, bind. settle.
    rewrite versionId_of_addMetadata_update, template_Some.
    destruct fs as [|[e|] fs]; settle.
    + eapply step_update; [done | reflexivity..].
    + apply step_none.
    + destruct fs as [|[e|] fs]; settle.
      * eapply step_update; [done | reflexivity..].
      * by apply step_history.
      * eapply step_update; [done | reflexivity..].
Qed.

Lemma run_table_step partial c w :
  (partial = false → faults w = []) →
  table_step partial (table w) (table (run c w)).
Proof.
  intros Hp. destruct c; cbn [run].
  - apply createResource_step.
  - rewrite getResource_table. apply step_none.
  - by apply updateResource_step.
  - apply deleteResource_step.
  - rewrite searchResources_table. apply step_none.
Qed.

(** *** A service that has served every call so far keeps doing so *)



(** *** The invariants of the table *)

Lemma deletedItem_versionId now it :
  item_versionId (deletedItem_of now it)
  = Some (Js.String_of_number (Z.succ <$> Js.parseInt_opt (item_versionId it))).
Proof. reflexivity. Qed.

Lemma succ_version_number n :
  Js.String_of_number (Z.succ <$> Js.parseInt_opt (Some (Js.String_of_number (Some n))))
  = Js.String_of_number (Some (n + 1)).
Proof.
  unfold Js.parseInt_opt. cbn [mbind option_bind].
  by rewrite parseInt_String_of_number.
Qed.

Lemma set_pointer_versionId r lu v old : item_versionId (set_pointer r lu v old) = v.
Proof. by destruct old. Qed.

Lemma set_pointer_resource r lu v old : item_resource (set_pointer r lu v old) = r.
Proof. by destruct old. Qed.

Lemma set_pointer_deleted r lu v it : deleted (set_pointer r lu v (Some it)) = deleted it.
Proof. reflexivity. Qed.

Lemma history_key_not_current (pk pk' : string) n :
  1 ≤ n → (pk, "v" +:+ Js.String_of_number (Some (n + 1))) ≠ (pk', "v1").
Proof.
  intros Hn Heq. apply (f_equal snd) in Heq. cbn [snd] in Heq.
  by eapply version_key_not_v1.
Qed.

Lemma versions_ok_step partial t t' :
  versions_ok t → table_step partial t t' → versions_ok t'.
Proof.
  intros Hok Hstep. destruct Hstep as [|pk it Hnone Hv Hd|pk cur hist _ Hcur Hv
    |pk cur hist r lu Hcur Hv Hr t1|pk cur now Hcur]; [done|..].
  - intros pk' it' Hl. destruct (decide (pk = pk')) as [->|Hne].
    + rewrite lookup_insert_eq in Hl. injection Hl as <-. exists 1. by split.
    + rewrite lookup_insert_ne in Hl by congruence. by eapply Hok.
  - destruct (Hok _ _ Hcur) as (n & Hn & Hvn).
    rewrite Hvn, next_versionId_number in *.
    intros pk' it' Hl. rewrite lookup_insert_ne in Hl; [by eapply Hok|].
    by apply history_key_not_current.
  - destruct (Hok _ _ Hcur) as (n & Hn & Hvn).
    subst t1. rewrite Hvn, next_versionId_number in *.
    intros pk' it' Hl. destruct (decide (pk = pk')) as [->|Hne].
    + rewrite lookup_insert_eq in Hl. injection Hl as <-.
      exists (n + 1). split; [lia|]. apply set_pointer_versionId.
    + rewrite lookup_insert_ne in Hl by congruence.
      rewrite lookup_insert_ne in Hl by (by apply history_key_not_current). by eapply Hok.
  - destruct (Hok _ _ Hcur) as (n & Hn & Hvn).
    intros pk' it' Hl. destruct (decide (pk = pk')) as [->|Hne].
    + rewrite lookup_insert_eq in Hl. injection Hl as <-.
      exists (n + 1). split; [lia|].
      by rewrite deletedItem_versionId, Hvn, succ_version_number.
    + rewrite lookup_insert_ne in Hl by congruence. by eapply Hok.
Qed.

Lemma reachable_versions_ok fs w : reachable (initial fs) w → versions_ok (table w).
Proof.
  induction 1 as [|c w _ IH].
  - intros pk it Hl. cbn [initial table] in Hl. by rewrite lookup_empty in Hl.
  - eapply versions_ok_step; [exact IH|]. by apply (run_table_step true).
Qed.




Lemma rows_kept_step partial t t' key :
  table_step partial t t' → is_Some (t !! key) → is_Some (t' !! key).
Proof.
  intros Hstep Hl.
  destruct Hstep as [|pk0 it0 Hnone Hv Hd|pk0 cur hist _ Hcur Hv
    |pk0 cur hist r lu Hcur Hv Hr t1|pk0 cur now Hcur]; [done|..];
    try subst t1; rewrite ?lookup_insert_is_Some'; tauto.
Qed.

Lemma deleted_kept_step partial t t' pk it :
  versions_ok t → table_step partial t t' →
  t !! (pk, "v1") = Some it → deleted it = Some true →
  ∃ it', t' !! (pk, "v1") = Some it' ∧ deleted it' = Some true.
Proof.
  intros Hver Hstep Hl Hdel.
  destruct Hstep as [|pk0 it0 Hnone Hv Hd|pk0 cur hist _ Hcur Hv
    |pk0 cur hist r lu Hcur Hv Hr t1|pk0 cur now Hcur]; [by eauto|..].
  - exists it. split; [|done]. rewrite lookup_insert_ne; [done|]. intros [= ->]. congruence.
  - destruct (Hver _ _ Hcur) as (n & Hn & Hvn).
    rewrite Hvn, next_versionId_number in *.
    exists it. split; [|done]. by rewrite lookup_insert_ne by (by apply history_key_not_current).
  - destruct (Hver _ _ Hcur) as (n & Hn & Hvn).
    subst t1. rewrite Hvn, next_versionId_number in *.
    rewrite (lookup_insert_ne _ (pk0, "v" +:+ _) (pk0, "v1")) by (by apply history_key_not_current).
    destruct (decide (pk0 = pk)) as [->|Hne].
    + rewrite Hl. eexists. rewrite lookup_insert_eq. split; [done|].
      by rewrite set_pointer_deleted.
    + exists it. split; [|done]. rewrite lookup_insert_ne by congruence.
      by rewrite lookup_insert_ne by (by apply history_key_not_current).
  - destruct (decide (pk0 = pk)) as [->|Hne].
    + eexists. rewrite lookup_insert_eq. by split.
    + exists it. split; [|done]. by rewrite lookup_insert_ne by congruence.
Qed.

Lemma version_of_number it n :
  item_versionId it = Some (Js.String_of_number (Some n)) → version_of it = Some n.
Proof.
  intros H. unfold version_of. rewrite H. cbn [Js.parseInt_opt mbind option_bind].
  apply parseInt_String_of_number.
Qed.

Lemma version_move_step partial t t' pk :
  versions_ok t → table_step partial t t' →
  version_move (t !! (pk, "v1")) (t' !! (pk, "v1")).
Proof.
  intros Hver Hstep.
  assert (Hsame : ∀ o, (∀ it, o = Some it → t !! (pk, "v1") = Some it) →
                       o = t !! (pk, "v1") → version_move o o).
  { intros [it|] Hin _; [|done]. destruct (Hver pk it (Hin _ eq_refl)) as (n & Hn & Hvn).
    exists n. repeat split; [done| |left]; by apply version_of_number. }
  destruct Hstep as [|pk0 it0 Hnone Hv Hd|pk0 cur hist _ Hcur Hv
    |pk0 cur hist r lu Hcur Hv Hr t1|pk0 cur now Hcur].
  - by apply Hsame.
  - destruct (decide (pk0 = pk)) as [->|Hne].
    + rewrite Hnone, lookup_insert_eq. cbn. by apply (version_of_number it0 1).
    + rewrite lookup_insert_ne by congruence. by apply Hsame.
  - destruct (Hver _ _ Hcur) as (n & Hn & Hvn).
    rewrite Hvn, next_versionId_number in *.
    rewrite lookup_insert_ne by (by apply history_key_not_current). by apply Hsame.
  - destruct (Hver _ _ Hcur) as (n & Hn & Hvn).
    subst t1. rewrite Hvn, next_versionId_number in *.
    destruct (decide (pk0 = pk)) as [->|Hne].
    + rewrite Hcur, lookup_insert_eq. exists n. repeat split; [done| |right].
      * by apply version_of_number.
      * apply version_of_number. apply set_pointer_versionId.
    + rewrite lookup_insert_ne by congruence.
      rewrite lookup_insert_ne by (by apply history_key_not_current). by apply Hsame.
  - destruct (Hver _ _ Hcur) as (n & Hn & Hvn).
    destruct (decide (pk0 = pk)) as [->|Hne].
    + rewrite Hcur, lookup_insert_eq. exists n. repeat split; [done| |right].
      * by apply version_of_number.
      * apply version_of_number.
        by rewrite deletedItem_versionId, Hvn, succ_version_number.
    + rewrite lookup_insert_ne by congruence. by apply Hsame.
Qed.

(** *** The methods on a service that serves every call *)

Lemma valid_payload_type t r : valid_payload t r = true → type_mismatch t r = false.
Proof. unfold valid_payload. by destruct (type_mismatch t r). Qed.

Lemma valid_payload_owner t id r : valid_payload t r = true → ∃ o, owner_id t id r = inr o.
Proof.
  unfold valid_payload, owner_id. intros [_ H]%andb_true_iff.
  destruct (String.eqb t "Patient"); [by eexists|].
  destruct (subject_reference_id r); [done | by eexists].
Qed.

Lemma eqb_empty_false (s : string) : s ≠ "" → String.eqb s "" = false.
Proof. intros H. by apply String.eqb_neq. Qed.

Lemma getResource_served t id w :
  validateResourceType t = true → id ≠ "" → faults w = [] →
  getResource t id w =
  (match current t id w with
   | Some it => inr (item_resource it)
   | None => inl (not_found t id)
   end, w).
Proof.
  intros Ht Hid Hf. unfold getResource, current.
  rewrite Ht, (eqb_empty_false _ Hid). cbn [negb].
  unfold buildPrimaryKey, try_catch, bind. settle. rewrite Hf.
  destruct (table w !! _); by settle.
Qed.

Lemma createResource_exists t id r now uuid w it :
  validateResourceType t = true → id ≠ "" → valid_payload t r = true →
  res_id r = Some id → faults w = [] → current t id w = Some it →
  createResource t (Some r) now uuid w =
  (inl (Error ("Resource " +:+ t +:+ "/" +:+ id +:+ " already exists")), w).
Proof.
  intros Ht Hid Hr Hrid Hf Hcur. unfold createResource, current in *.
  rewrite Ht, (valid_payload_type _ _ Hr), Hrid. cbn [negb].
  unfold Js.truthy. rewrite (eqb_empty_false _ Hid). cbn [negb default from_option].
  change (Datatypes.id id) with id.
  destruct (valid_payload_owner t id r Hr) as [o ->].
  unfold buildPrimaryKey in *. unfold bind, lift, try_catch. settle. rewrite Hf.
  rewrite Hcur. rewrite bool_decide_eq_true_2 by eauto. cbn [andb].
  reflexivity.
Qed.

Lemma createResource_served t r now uuid w :
  validateResourceType t = true → valid_payload t r = true → faults w = [] →
  let rid := if Js.truthy (res_id r) then default "" (res_id r) else uuid in
  let res := addMetadata now (mkResource (Some t) (Some rid) (res_meta r) (res_rest r))
               false None in
  current t rid w = None →
  ∃ it, createResource t (Some r) now uuid w
        = (inr res, mkWorld (<[buildPrimaryKey t rid := it]> (table w)) [])
      ∧ item_resource it = res ∧ deleted it = None.
Proof.
  intros Ht Hr Hf rid res Hcur. unfold createResource, current in *.
  rewrite Ht, (valid_payload_type _ _ Hr). cbn [negb]. fold rid.
  destruct (valid_payload_owner t rid r Hr) as [o ->].
  unfold buildPrimaryKey in *. unfold bind, lift, try_catch. settle. rewrite Hf.
  rewrite Hcur. rewrite bool_decide_eq_false_2 by (by intros [? ?]). cbn [andb].
  eexists. split; [reflexivity|]. by split.
Qed.

Lemma updateResource_served t id r now w cur :
  validateResourceType t = true → id ≠ "" → valid_payload t r = true →
  faults w = [] → current t id w = Some cur →
  let res := addMetadata now (mkResource (Some t) (Some id) (res_meta r) (res_rest r))
               true (item_versionId cur) in
  let next := next_versionId (item_versionId cur) in
  ∃ hist,
    let t1 := <[((buildPrimaryKey t id).1, "v" +:+ next) := hist]> (table w) in
    updateResource t id (Some r) now w
      = (inr res,
         mkWorld (<[buildPrimaryKey t id :=
                      set_pointer res (Some now) (Some next) (t1 !! buildPrimaryKey t id)]> t1) [])
    ∧ item_resource hist = res ∧ item_versionId hist = Some next ∧ deleted hist = None
    ∧ GSI2PK hist = (λ o, "PATIENT#" +:+ o) <$> (match owner_id t id r with inr o => Some o | _ => None end).
Proof.
  intros Ht Hid Hr Hf Hcur res next. unfold updateResource, current in *.
  rewrite Ht, (eqb_empty_false _ Hid), (valid_payload_type _ _ Hr). cbn [negb].
  unfold buildPrimaryKey in *. unfold bind at 1, try_catch at 1, bind at 1. settle.
  rewrite Hf, Hcur. settle. unfold bind at 1.
  destruct (valid_payload_owner t id r Hr) as [o ->]. unfold lift.
  unfold try_catch, bind. settle. rewrite Hf. settle.
  eexists. cbn [fst]. split; [reflexivity|]. by repeat split.
Qed.

Lemma deleteResource_served t id now w cur :
  validateResourceType t = true → id ≠ "" → faults w = [] → current t id w = Some cur →
  deleteResource t id now w
  = (inr (), mkWorld (<[buildPrimaryKey t id := deletedItem_of now cur]> (table w)) []).
Proof.
  intros Ht Hid Hf Hcur. unfold deleteResource, current in *.
  rewrite Ht, (eqb_empty_false _ Hid). cbn [negb].
  unfold buildPrimaryKey in *. unfold try_catch, bind. settle.
  rewrite Hf, Hcur. settle. by rewrite Hf.
Qed.

(** *** What a query returns *)

#[local] Instance scan_order_total ix forward : Total (scan_order ix forward).
Proof.
  intros a b. unfold scan_order.
  destruct forward; apply (total String.le).
Qed.

#[local] Instance scan_order_trans ix forward : Transitive (scan_order ix forward).
Proof.
  intros a b c. unfold scan_order.
  destruct forward; intros H1 H2; [by etrans | by etrans].
Qed.

Lemma StronglySorted_sublist {A} (R : relation A) (l k : list A) :
  sublist l k → StronglySorted R k → StronglySorted R l.
Proof.
  induction 1 as [|x l k Hs IH|x l k Hs IH]; intros Hk; [done|..].
  - apply StronglySorted_inv in Hk as [Hk Hx]. constructor; [by apply IH|].
    rewrite Forall_forall in *. intros y Hy. apply Hx.
    by apply (sublist_subseteq _ _ Hs).
  - apply StronglySorted_inv in Hk as [Hk _]. by apply IH.
Qed.

Lemma run_query_sorted q tb :
  StronglySorted (scan_order (IndexName q) (ScanIndexForward q)) (Items (run_query q tb)).
Proof.
  unfold run_query. cbn [Items].
  eapply StronglySorted_sublist; [apply sublist_filter|].
  eapply StronglySorted_sublist; [apply sublist_take|].
  apply StronglySorted_merge_sort; apply _.
Qed.

Lemma run_query_length q tb :
  (length (Items (run_query q tb)) ≤ Z.to_nat (Limit q))%nat.
Proof.
  unfold run_query. cbn [Items].
  etrans; [apply length_filter|]. rewrite length_take. lia.
Qed.

Lemma run_query_elem q tb it :
  it ∈ Items (run_query q tb) →
  filter_expression q it = true ∧ key_condition q it = true ∧ ∃ key, tb !! key = Some it.
Proof.
  unfold run_query. cbn [Items].
  intros [Hf Hin]%list_elem_of_filter. split; [done|].
  apply elem_of_take in Hin as (i & Hin%list_elem_of_lookup_2 & _).
  rewrite merge_sort_Permutation in Hin.
  apply list_elem_of_filter in Hin as [Hk Hin]. split; [done|].
  apply list_elem_of_fmap in Hin as ([key it'] & -> & Hin).
  exists key. by apply elem_of_map_to_list.
Qed.

Lemma searchResources_result t sp uuid w b w' :
  searchResources t sp uuid w = (inr b, w') →
  let out := run_query (build_query t sp) (table w) in
  b = mkBundle uuid "searchset" (Count out)
        ((λ resource, mkEntry resource (t +:+ "/" +:+ Js.template (res_id resource)))
           <$> (item_resource <$> Items out)).
Proof.
  unfold searchResources.
  destruct (negb (validateResourceType t)); [done|].
  unfold try_catch, bind. settle.
  destruct (faults w) as [|[e|] fs]; settle; try done;
    destruct (query_valid _); settle; by intros [= <- <-].
Qed.

Lemma searchResources_valid t sp uuid w b w' :
  searchResources t sp uuid w = (inr b, w') → query_valid (build_query t sp) = true.
Proof.
  unfold searchResources.
  destruct (negb (validateResourceType t)); [done|].
  unfold try_catch, bind. settle.
  destruct (faults w) as [|[e|] fs]; settle; try done;
    by destruct (query_valid _).
Qed.

Lemma filter_expression_build_query t sp it :
  filter_expression (build_query t sp) it = not_deleted it.
Proof.
  unfold build_query, filter_expression, not_deleted.
  destruct (deleted it) as [d|]; [|done].
  repeat case_match; simplify_eq; try done;
    cbn [FilterExpression ExpressionAttributeValues filter_value] in *;
    simplify_map_eq; by destruct d.
Qed.

Lemma build_query_ignores_includeDeleted t sp v :
  build_query t (<["includeDeleted" := v]> sp) = build_query t sp.
Proof.
  unfold build_query, page_size.
  by rewrite !lookup_insert_ne by (intros H; discriminate H).
Qed.

(** What does hold of the order and the size of a result: the entries
    follow the rows of the index in descending order of the sort key of the
    index, and there are at most [page_size] of them. *)
Lemma search_page t sp uuid w b w' :
  searchResources t sp uuid w = (inr b, w') →
  ∃ items,
    entry_resource <$> bundle_entry b = item_resource <$> items ∧
    descending (IndexName (build_query t sp)) items ∧
    (length (bundle_entry b) ≤ Z.to_nat (page_size sp))%nat.
Proof.
  intros Hs. apply searchResources_result in Hs. cbn zeta in Hs. subst b.
  cbn [bundle_entry].
  assert (Hq : ScanIndexForward (build_query t sp) = false
               ∧ Limit (build_query t sp) = page_size sp).
  { unfold build_query. by repeat case_match. }
  destruct Hq as [Hfw Hlim].
  exists (Items (run_query (build_query t sp) (table w))). repeat split.
  - generalize (item_resource <$> Items (run_query (build_query t sp) (table w))).
    intros l. induction l as [|r l IH]; [done|]. cbn. by f_equal.
  - unfold descending. rewrite <- Hfw. apply run_query_sorted.
  - rewrite !length_fmap, <- Hlim. apply run_query_length.
Qed.

(** *** Delete and the owner bucket *)

(** What does hold of delete: on a service that serves its calls, delete
    of a stored identity returns, leaves a current row with the [deleted]
    attribute, the next version and the marked resource, and a read returns
    that resource. *)
Lemma delete_tombstones_current t id now w cur v :
  validateResourceType t = true → id ≠ "" → faults w = [] →
  current t id w = Some cur → version_of cur = Some v →
  ∃ w' it,
    deleteResource t id now w = (inr (), w') ∧
    current t id w' = Some it ∧ deleted it = Some true ∧
    item_versionId it = Some (Js.String_of_number (Some (v + 1))) ∧
    marked_deleted (item_resource it) = true ∧
    getResource t id w' = (inr (item_resource it), w').
Proof.
  intros Ht Hid Hf Hcur Hv.
  rewrite (deleteResource_served t id now w cur Ht Hid Hf Hcur).
  eexists _, _. split; [reflexivity|].
  unfold current at 1. cbn [table]. rewrite lookup_insert_eq. split; [reflexivity|].
  split; [reflexivity|]. split.
  { rewrite deletedItem_versionId. unfold version_of in Hv. by rewrite Hv. }
  split.
  { unfold marked_deleted, deletedItem_of, deletedResource_of. cbn [item_resource res_rest].
    by rewrite lookup_insert_eq. }
  rewrite getResource_served by done.
  unfold current. cbn [table]. by rewrite lookup_insert_eq.
Qed.

(** What does hold of the owner bucket: a resource of a kind other than
    Patient whose payload has no [subject.reference] gets the owner
    [unknown], on create and on the row update writes. *)
Lemma owner_unknown_without_reference t id r :
  t ≠ "Patient" → subject_reference_id r = inr None → owner_id t id r = inr "unknown".
Proof.
  intros Ht Hr. unfold owner_id. rewrite Hr.
  by destruct (String.eqb_spec t "Patient").
Qed.

(** *** Calls on one identity and the rows of the others *)

Lemma partition_key_inj t1 id1 t2 id2 :
  validateResourceType t1 = true → validateResourceType t2 = true →
  (buildPrimaryKey t1 id1).1 = (buildPrimaryKey t2 id2).1 → t1 = t2 ∧ id1 = id2.
Proof.
  intros H1 H2 Heq. apply (buildPrimaryKey_inj t1 id1 t2 id2 H1 H2).
  unfold buildPrimaryKey in *. cbn [fst] in Heq. by rewrite Heq.
Qed.

Lemma unsupported_kind_throws t w :
  validateResourceType t = false →
  (∀ r now uuid,
     createResource t r now uuid w = (inl (Error ("Unsupported resource type: " +:+ t)), w)) ∧
  (∀ id, getResource t id w = (inl (Error ("Unsupported resource type: " +:+ t)), w)) ∧
  (∀ id r now,
     updateResource t id r now w = (inl (Error ("Unsupported resource type: " +:+ t)), w)) ∧
  (∀ id now,
     deleteResource t id now w = (inl (Error ("Unsupported resource type: " +:+ t)), w)) ∧
  (∀ sp uuid,
     searchResources t sp uuid w = (inl (Error ("Unsupported resource type: " +:+ t)), w)).
Proof.
  intros Ht.
  unfold createResource, getResource, updateResource, deleteResource, searchResources;
    rewrite Ht; cbn [negb]; by repeat split.
Qed.

Lemma createResource_frame t r now uuid w key :
  key.1 ≠ (buildPrimaryKey t (created_id r uuid)).1 →
  table (createResource t (Some r) now uuid w).2 !! key = table w !! key.
Proof.
  intros Hkey. unfold createResource.
  destruct (validateResourceType t) eqn:Ht; cbn [negb]; [|done].
  destruct (type_mismatch t r); [done|].
  unfold buildPrimaryKey, bind in *. fold (created_id r uuid). cbn [fst] in Hkey.
  unfold lift. destruct (owner_id t (created_id r uuid) r) as [e|o] eqn:Ho; [done|].
  unfold try_catch, bind. settle.
  assert (Hne : ("RESOURCE#" +:+ t +:+ "#" +:+ created_id r uuid, "v1") ≠ key).
  { intros <-. by apply Hkey. }
  destruct (faults w) as [|[e|] fs]; cbn [andb].
  - destruct (table w !! ("RESOURCE#" +:+ t +:+ "#" +:+ created_id r uuid, "v1"))
      as [it0|] eqn:Hk.
    + by rewrite bool_decide_eq_true_2 by eauto.
    + rewrite bool_decide_eq_false_2 by (by intros [? ?]). settle.
      by rewrite lookup_insert_ne.
  - by destruct (String.eqb _ _).
  - destruct (table w !! ("RESOURCE#" +:+ t +:+ "#" +:+ created_id r uuid, "v1"))
      as [it0|] eqn:Hk.
    + by rewrite bool_decide_eq_true_2 by eauto.
    + rewrite bool_decide_eq_false_2 by (by intros [? ?]). settle.
      by rewrite lookup_insert_ne.
Qed.

Lemma deleteResource_frame t id now w key :
  key.1 ≠ (buildPrimaryKey t id).1 →
  table (deleteResource t id now w).2 !! key = table w !! key.
Proof.
  intros Hkey. unfold deleteResource.
  destruct (validateResourceType t) eqn:Ht; cbn [negb]; [|done].
  destruct (String.eqb_spec id "") as [|Hid]; [done|].
  unfold buildPrimaryKey, try_catch, bind in *. cbn [fst] in Hkey. fate.
  assert (Hput : ∀ it, <[("RESOURCE#" +:+ t +:+ "#" +:+ id, "v1") := it]> (table w) !! key
                       = table w !! key).
  { intros it. rewrite lookup_insert_ne; [done|]. intros <-. by apply Hkey. }
  destruct (faults w) as [|[e|] fs] eqn:Hf.
  - destruct (table w !! ("RESOURCE#" +:+ t +:+ "#" +:+ id, "v1")) as [cur|] eqn:Hk;
      settle; [|done].
    rewrite Hf. cbn [snd table]. apply Hput.
  - by settle.
  - destruct (table w !! ("RESOURCE#" +:+ t +:+ "#" +:+ id, "v1")) as [cur|] eqn:Hk;
      settle; [|done].
    destruct fs as [|[e|] fs]; settle; [| done |]; apply Hput.
Qed.

Lemma updateResource_frame t id r now w key :
  key.1 ≠ (buildPrimaryKey t id).1 →
  table (updateResource t id r now w).2 !! key = table w !! key.
Proof.
  intros Hkey. unfold updateResource.
  destruct (validateResourceType t) eqn:Ht; cbn [negb]; [|done].
  destruct (String.eqb_spec id "") as [|Hid]; [done|].
  destruct r as [r|]; [|done].
  destruct (type_mismatch t r); [done|].
  unfold buildPrimaryKey in Hkey. cbn [fst] in Hkey.
  unfold buildPrimaryKey, bind at 1, try_catch at 1, bind at 1. fate.
  set (pk := "RESOURCE#" +:+ t +:+ "#" +:+ id) in *.
  assert (Hput : ∀ sk it (m : gmap (string * string) Item),
            <[(pk, sk) := it]> m !! key = m !! key).
  { intros sk it m. rewrite lookup_insert_ne; [done|]. intros <-. by apply Hkey. }
  destruct (faults w) as [|[e|] fs] eqn:Hf.
  - destruct (table w !! (pk, "v1")) as [cur|] eqn:Hk; settle; [|done].
    unfold bind at 1. unfold lift.
    destruct (owner_id t id r) as [e|o] eqn:Ho; [done|].
    unfold try_catch, bind. settle. rewrite Hf. cbn [andb]. settle.
    by rewrite !Hput.
  - by settle.
  - destruct (table w !! (pk, "v1")) as [cur|] eqn:Hk; settle; [|done].
    unfold bind at 1. unfold lift.
    destruct (owner_id t id r) as [e|o] eqn:Ho; [done|].
    unfold try_catch, bind. settle.
    destruct fs as [|[e|] fs]; cbn [andb]; settle.
    + by rewrite !Hput.
    + done.
    + destruct fs as [|[e|] fs]; settle; by rewrite !Hput.
Qed.

(** Create changes no row that is stored. *)
Lemma createResource_keeps t r now uuid w key it :
  table w !! key = Some it → table (createResource t r now uuid w).2 !! key = Some it.
Proof.
  intros Hkey. unfold createResource.
  destruct (validateResourceType t) eqn:Ht; cbn [negb]; [|done].
  destruct r as [r|]; [|done].
  destruct (type_mismatch t r); [done|].
  unfold buildPrimaryKey, bind. fold (created_id r uuid).
  unfold lift. destruct (owner_id t (created_id r uuid) r) as [e|o] eqn:Ho; [done|].
  unfold try_catch, bind. settle.
  destruct (faults w) as [|[e|] fs]; cbn [andb].
  - destruct (table w !! ("RESOURCE#" +:+ t +:+ "#" +:+ created_id r uuid, "v1"))
      as [it0|] eqn:Hk.
    + by rewrite bool_decide_eq_true_2 by eauto.
    + rewrite bool_decide_eq_false_2 by (by intros [? ?]). settle.
      rewrite lookup_insert_ne; [done|]. intros <-. by rewrite Hk in Hkey.
  - by destruct (String.eqb _ _).
  - destruct (table w !! ("RESOURCE#" +:+ t +:+ "#" +:+ created_id r uuid, "v1"))
      as [it0|] eqn:Hk.
    + by rewrite bool_decide_eq_true_2 by eauto.
    + rewrite bool_decide_eq_false_2 by (by intros [? ?]). settle.
      rewrite lookup_insert_ne; [done|]. intros <-. by rewrite Hk in Hkey.
Qed.

(** Delete leaves the current row of its identity as it is or replaces it
    by its tombstone. *)
Lemma deleteResource_current t id now w it :
  current t id w = Some it →
  current t id (deleteResource t id now w).2 = Some it
  ∨ current t id (deleteResource t id now w).2 = Some (deletedItem_of now it).
Proof.
  unfold current. intros Hcur. unfold deleteResource.
  destruct (validateResourceType t) eqn:Ht; cbn [negb]; [|by left].
  destruct (String.eqb_spec id "") as [|Hid]; [by left|].
  unfold buildPrimaryKey, try_catch, bind in *. fate. rewrite Hcur.
  destruct (faults w) as [|[e|] fs] eqn:Hf; settle.
  - rewrite Hf. cbn [andb]. settle. right. by rewrite lookup_insert_eq.
  - by left.
  - destruct fs as [|[e|] fs]; cbn [andb]; settle; [right | by left | right];
      by rewrite lookup_insert_eq.
Qed.

(** Every call other than an update of the identity keeps the deletion
    marker of its current resource. *)
Lemma marker_kept c w t id it :
  validateResourceType t = true →
  current t id w = Some it → marked_deleted (item_resource it) = true →
  (∀ r now, c ≠ DoUpdate t id r now) →
  ∃ it', current t id (run c w) = Some it' ∧ marked_deleted (item_resource it') = true.
Proof.
  intros Ht Hcur Hm Hc.
  assert (Hother : ∀ t' id', (t', id') ≠ (t, id) → validateResourceType t' = true →
            (buildPrimaryKey t id).1 ≠ (buildPrimaryKey t' id').1).
  { intros t' id' Hne Ht' Heq.
    destruct (partition_key_inj t id t' id' Ht Ht' Heq) as [-> ->]. by apply Hne. }
  destruct c as [t' r now uuid|t' id'|t' id' r now|t' id' now|t' sp uuid]; cbn [run].
  - exists it. split; [|done]. by apply createResource_keeps.
  - exists it. split; [|done]. unfold current. by rewrite getResource_table.
  - exists it. split; [|done]. unfold current.
    destruct (validateResourceType t') eqn:Ht'.
    + rewrite updateResource_frame; [done|]. cbn [fst]. apply Hother; [|done].
      intros [= -> ->]. by apply (Hc r now).
    + by rewrite (proj1 (proj2 (proj2 (unsupported_kind_throws t' w Ht')))).
  - destruct (validateResourceType t') eqn:Ht'.
    + destruct (decide ((t', id') = (t, id))) as [[= -> ->]|Hne].
      * destruct (deleteResource_current t id now w it Hcur) as [H|H]; eexists; (split; [exact H|]);
          [done|]. unfold marked_deleted, deletedItem_of, deletedResource_of.
        cbn [item_resource res_rest]. by rewrite lookup_insert_eq.
      * exists it. split; [|done]. unfold current.
        rewrite deleteResource_frame; [done|]. cbn [fst]. by apply Hother.
    + exists it. split; [|done].
      by rewrite (proj1 (proj2 (proj2 (proj2 (unsupported_kind_throws t' w Ht'))))).
  - exists it. split; [|done]. unfold current. by rewrite searchResources_table.
Qed.

(** ** The claims *)




(** C2.  First part: on a service that serves its calls, for an identity
    whose current row carries version [v] and a valid payload, update
    returns a resource stamped with version [v + 1], and a read of the same
    identity afterwards returns that very resource.  Second part: along
    every sequence of calls from the empty table, whatever the service
    rejects, the current version of an identity is 1 when the identity
    appears and from then on each call leaves it or raises it by exactly
    one. *)
Theorem update_increments_version :
  (∀ t id r now w cur v,
     validateResourceType t = true → id ≠ "" → valid_payload t r = true →
     faults w = [] → current t id w = Some cur → version_of cur = Some v →
     ∃ res w',
       updateResource t id (Some r) now w = (inr res, w') ∧
       versionId_of res = Some (Js.String_of_number (Some (v + 1))) ∧
       getResource t id w' = (inr res, w')) ∧
  (∀ fs w c t id,
     reachable (initial fs) w →
     version_move (current t id w) (current t id (run c w))).
Proof.
  split.
  - intros t id r now w cur v Ht Hid Hr Hf Hcur Hv.
    destruct (updateResource_served t id r now w cur Ht Hid Hr Hf Hcur) as (hist & Hup & _).
    eexists _, _. split; [exact Hup|]. split.
    + rewrite versionId_of_addMetadata_update. f_equal.
      unfold next_versionId, version_of in *.
      destruct (item_versionId cur) as [s|]; [|done].
      cbn [Js.parseInt_opt mbind option_bind] in *. rewrite Hv.
      unfold Js.truthy. rewrite eqb_empty_false; [done|].
      intros ->. discriminate.
    + rewrite getResource_served by done.
      unfold current. cbn [table]. rewrite lookup_insert_eq.
      by rewrite set_pointer_resource.
  - intros fs w c t id Hreach. unfold current, buildPrimaryKey.
    eapply version_move_step; [by eapply reachable_versions_ok|].
    by apply (run_table_step true).
Qed.

Lemma update_increments_version_witness :
  ∃ res w',
    updateResource "Patient" "p1" (Some Scenario.patientB) Scenario.t2 Scenario.created
      = (inr res, w') ∧
    versionId_of res = Some (Js.String_of_number (Some (1 + 1))) ∧
    getResource "Patient" "p1" w' = (inr res, w').
Proof.
  eapply (proj1 update_increments_version "Patient" "p1" Scenario.patientB Scenario.t2
            Scenario.created).
  - vm_compute; reflexivity.
  - intros H; discriminate H.
  - vm_compute; reflexivity.
  - vm_compute; reflexivity.
  - vm_compute; reflexivity.
  - vm_compute; reflexivity.
Defined.

(** C3, as stated, fails: Patient/p1 is created and deleted, its current
    resource carries the deletion marker, and a search that asks for
    deleted resources with includeDeleted=true returns no entry, as the
    search without the option does. *)
Lemma includeDeleted_is_ignored :
  (marked_deleted <$> (item_resource <$> current "Patient" "p1" Scenario.deleted_at_once))
    = Some true ∧
  searchResources "Patient" {[ "includeDeleted" := "true" ]} "b1" Scenario.deleted_at_once
    = (inr (mkBundle "b1" "searchset" 0 []), Scenario.deleted_at_once) ∧
  searchResources "Patient" ∅ "b1" Scenario.deleted_at_once
    = (inr (mkBundle "b1" "searchset" 0 []), Scenario.deleted_at_once).
Proof. repeat split; vm_compute; reflexivity. Qed.

(** C3, amended.  Every entry of a search result is the resource of a
    stored row whose [deleted] attribute is not true; and the result of a
    search does not depend on an includeDeleted member of the query,
    whatever its value. *)
Theorem search_excludes_deleted_rows t sp uuid w :
  (∀ b w', searchResources t sp uuid w = (inr b, w') →
     ∀ e, e ∈ bundle_entry b →
       ∃ key it, table w !! key = Some it ∧ deleted it ≠ Some true ∧
                 entry_resource e = item_resource it) ∧
  (∀ v, searchResources t (<["includeDeleted" := v]> sp) uuid w
        = searchResources t sp uuid w).
Proof.
  split.
  - intros b w' Hs e He. apply searchResources_result in Hs. cbn zeta in Hs. subst b.
    cbn [bundle_entry] in He.
    apply list_elem_of_fmap in He as (r & -> & Hr).
    apply list_elem_of_fmap in Hr as (it & -> & Hit).
    apply run_query_elem in Hit as (Hfilter & _ & key & Hkey).
    exists key, it. split; [done|]. split; [|done].
    rewrite filter_expression_build_query in Hfilter. unfold not_deleted in Hfilter.
    intros Hd. rewrite Hd in Hfilter. discriminate.
  - intros v. unfold searchResources. by rewrite build_query_ignores_includeDeleted.
Qed.

Lemma search_excludes_deleted_rows_witness :
  ∃ key it,
    table Scenario.deleted_after_update !! key = Some it ∧ deleted it ≠ Some true ∧
    entry_resource (mkEntry Scenario.version2 "Patient/p1") = item_resource it.
Proof.
  eapply (proj1 (search_excludes_deleted_rows "Patient" ∅ "b1" Scenario.deleted_after_update)).
  - vm_compute; reflexivity.
  - vm_compute. left.
Defined.

(** C4, on a concrete run: patient a is created at t1 and updated at t2,
    patient b is created at t3, with t1 < t2 < t3.  The search lists the
    row of a written at t2 before the row of b written at t3, and after
    both the current row of a, again written at t2: the entries are not in
    descending order of modification time. *)
Theorem search_order_not_by_time :
  ∃ b,
    searchResources "Patient" ∅ "b1" Feed.world = (inr b, Feed.world) ∧
    (λ e, (res_id (entry_resource e), lastUpdated_of (entry_resource e))) <$> bundle_entry b
      = [ (Some "a", Some Scenario.t2); (Some "b", Some Scenario.t3);
          (Some "a", Some Scenario.t2) ] ∧
    String.ltb Scenario.t1 Scenario.t2 = true ∧
    String.ltb Scenario.t2 Scenario.t3 = true.
Proof. eexists. repeat split; vm_compute; reflexivity. Qed.

(** C5.  For an identity that is stored, a create with the same kind and
    id throws "Resource kind/id already exists" and leaves the world, hence
    the stored row, exactly as it was. *)
Theorem create_twice_already_exists t id r now uuid w it :
  validateResourceType t = true → id ≠ "" → valid_payload t r = true →
  res_id r = Some id → faults w = [] → current t id w = Some it →
  createResource t (Some r) now uuid w
    = (inl (Error ("Resource " +:+ t +:+ "/" +:+ id +:+ " already exists")), w) ∧
  current t id (run (DoCreate t (Some r) now uuid) w) = Some it.
Proof.
  intros Ht Hid Hr Hrid Hf Hcur.
  pose proof (createResource_exists t id r now uuid w it Ht Hid Hr Hrid Hf Hcur) as H.
  split; [exact H|]. cbn [run]. by rewrite H.
Qed.

Lemma create_twice_already_exists_witness :
  createResource "Patient" (Some Scenario.patientA) Scenario.t2 "uuid-2" Scenario.created
    = (inl (Error "Resource Patient/p1 already exists"), Scenario.created).
Proof.
  eapply (create_twice_already_exists "Patient" "p1" Scenario.patientA Scenario.t2
            "uuid-2" Scenario.created).
  - vm_compute; reflexivity.
  - intros H; discriminate H.
  - vm_compute; reflexivity.
  - vm_compute; reflexivity.
  - vm_compute; reflexivity.
  - vm_compute; reflexivity.
Defined.

(** C6, as stated, fails: Patient/p1 is created, deleted and then updated;
    the current resource, which carried the deletion marker after the
    delete, carries none after the update. *)
Lemma update_removes_deletion_marker :
  (marked_deleted <$> (item_resource <$> current "Patient" "p1" Scenario.deleted_at_once))
    = Some true ∧
  (marked_deleted <$> (item_resource <$> current "Patient" "p1" Scenario.revived))
    = Some false ∧
  ∃ res, getResource "Patient" "p1" Scenario.revived = (inr res, Scenario.revived) ∧
         res_rest res !! "_deleted" = None.
Proof.
  split; [vm_compute; reflexivity|]. split; [vm_compute; reflexivity|].
  eexists. split; vm_compute; reflexivity.
Qed.

(** C6, amended.  Every call leaves a stored identity with a current row,
    and:
    - along every sequence of calls, whatever the service rejects, once the
      current row has its [deleted] attribute set to true, the current row
      after the call has it set to true;
    - for an identity of a supported kind, in every world, every call other
      than an update of that identity keeps the deletion marker of its
      current resource.
    An update of the identity is the one call that can remove the marker. *)
Theorem deleted_flag_stays w c t id it :
  current t id w = Some it →
  ∃ it', current t id (run c w) = Some it' ∧
         (∀ fs, reachable (initial fs) w → deleted it = Some true →
                deleted it' = Some true) ∧
         (validateResourceType t = true → marked_deleted (item_resource it) = true →
          (∀ r now, c ≠ DoUpdate t id r now) →
          marked_deleted (item_resource it') = true).
Proof.
  intros Hcur.
  assert (is_Some (current t id (run c w))) as [it' Hcur'].
  { unfold current in *. eapply (rows_kept_step true); [by apply run_table_step|by eexists]. }
  exists it'. split; [done|]. split.
  - intros fs Hreach Hdel.
    assert (∃ it'', current t id (run c w) = Some it'' ∧ deleted it'' = Some true)
      as (it'' & Hcur'' & Hdel'').
    { unfold current, buildPrimaryKey in *.
      eapply (deleted_kept_step true);
        [by eapply reachable_versions_ok | | exact Hcur | exact Hdel].
      by apply run_table_step. }
    rewrite Hcur' in Hcur''. by injection Hcur'' as <-.
  - intros Ht Hm Hc.
    destruct (marker_kept c w t id it Ht Hcur Hm Hc) as (it'' & Hcur'' & Hm'').
    rewrite Hcur' in Hcur''. by injection Hcur'' as <-.
Qed.

Lemma deleted_flag_stays_witness :
  ∃ it', current "Patient" "p1"
           (run (DoDelete "Patient" "p1" Scenario.t3) Scenario.deleted_at_once) = Some it' ∧
         deleted it' = Some true ∧ marked_deleted (item_resource it') = true.
Proof.
  edestruct (deleted_flag_stays Scenario.deleted_at_once
               (DoDelete "Patient" "p1" Scenario.t3) "Patient" "p1")
    as (it' & Hcur & Hdel & Hmark).
  - vm_compute; reflexivity.
  - exists it'. split; [exact Hcur|]. split.
    + apply (Hdel []).
      * apply reachable_step, reachable_step, reachable_start.
      * vm_compute; reflexivity.
    + apply Hmark.
      * vm_compute; reflexivity.
      * vm_compute; reflexivity.
      * intros r now H; discriminate H.
Defined.

(** C7, on a concrete run: Patient/p1 is created, updated and deleted.
    The delete returns, the current row is the tombstone at version 3 and
    a read returns it; yet the default search on Patient still has an entry
    for p1, the row the update wrote for version 2. *)
Theorem search_after_delete_lists_history :
  deleteResource "Patient" "p1" Scenario.t3 Scenario.updated
    = (inr (), Scenario.deleted_after_update) ∧
  (∃ it, current "Patient" "p1" Scenario.deleted_after_update = Some it ∧
         deleted it = Some true ∧ item_versionId it = Some "3" ∧
         getResource "Patient" "p1" Scenario.deleted_after_update
           = (inr (item_resource it), Scenario.deleted_after_update) ∧
         marked_deleted (item_resource it) = true) ∧
  ∃ b,
    searchResources "Patient" ∅ "b1" Scenario.deleted_after_update
      = (inr b, Scenario.deleted_after_update) ∧
    (λ e, (fullUrl e, versionId_of (entry_resource e))) <$> bundle_entry b
      = [ ("Patient/p1", Some "2") ].
Proof.
  split; [vm_compute; reflexivity|]. split.
  - eexists. split; [vm_compute; reflexivity|]. repeat split; vm_compute; reflexivity.
  - eexists. split; vm_compute; reflexivity.
Qed.

(** C8.  For a valid kind and a non-empty id, [getResource] throws the
    404 error exactly when the service serves the lookup and finds no row
    for the identity; when the service rejects the lookup, what is thrown is
    the error "Failed to retrieve resource: ..." which carries no status
    code, so a failure of the service is never reported as a missing
    resource. *)
Theorem read_not_found_iff_absent t id w :
  validateResourceType t = true → id ≠ "" →
  ((∃ e, (getResource t id w).1 = inl e ∧ statusCode e = Some 404)
     ↔ next_fault w = None ∧ current t id w = None) ∧
  (next_fault w = None → current t id w = None →
     (getResource t id w).1 = inl (not_found t id)) ∧
  (∀ e, next_fault w = Some e →
     (getResource t id w).1
       = inl (Error ("Failed to retrieve resource: " +:+ sdk_message e)) ∧
     statusCode (Error ("Failed to retrieve resource: " +:+ sdk_message e)) = None).
Proof.
  intros Ht Hid. unfold getResource, current, next_fault.
  rewrite Ht, (eqb_empty_false _ Hid). cbn [negb].
  unfold buildPrimaryKey, try_catch, bind. settle.
  destruct (faults w) as [|[e|] fs]; (try destruct (table w !! _) as [it|]); settle;
    (split; [split|split]); try done;
    try (by intros (e' & [= <-] & He'));
    try (by intros [? ?]);
    try (by intros _; eexists; split; [reflexivity|]).
  all: intros e' He'; injection He' as <-; by split.
Qed.

Lemma read_not_found_iff_absent_witness :
  (getResource "Patient" "p2" Scenario.created).1 = inl (not_found "Patient" "p2").
Proof.
  apply (read_not_found_iff_absent "Patient" "p2" Scenario.created).
  - vm_compute; reflexivity.
  - intros H; discriminate H.
  - vm_compute; reflexivity.
  - vm_compute; reflexivity.
Defined.

(** C9.  On a service that serves its calls, for a valid kind, a
    non-empty id and a valid payload: update of a stored identity returns,
    and stores as current, a resource whose [id] is the id argument and
    whose [resourceType] is the kind argument, whatever [id] the payload
    carries; create of an identity that is not stored returns, and stores, a
    resource whose [resourceType] is the kind argument. *)
Theorem update_forces_identity t id r now uuid w :
  validateResourceType t = true → id ≠ "" → valid_payload t r = true → faults w = [] →
  (∀ cur, current t id w = Some cur →
     ∃ res w',
       updateResource t id (Some r) now w = (inr res, w') ∧
       res_id res = Some id ∧ res_resourceType res = Some t ∧
       item_resource <$> current t id w' = Some res) ∧
  (let rid := if Js.truthy (res_id r) then default "" (res_id r) else uuid in
   current t rid w = None →
     ∃ res w',
       createResource t (Some r) now uuid w = (inr res, w') ∧
       res_id res = Some rid ∧ res_resourceType res = Some t ∧
       item_resource <$> current t rid w' = Some res).
Proof.
  intros Ht Hid Hr Hf. split.
  - intros cur Hcur.
    destruct (updateResource_served t id r now w cur Ht Hid Hr Hf Hcur) as (hist & Hup & _).
    eexists _, _. split; [exact Hup|]. repeat split.
    unfold current. cbn [table]. rewrite lookup_insert_eq. cbn [fmap option_fmap option_map].
    by rewrite set_pointer_resource.
  - intros rid Hcur.
    destruct (createResource_served t r now uuid w Ht Hr Hf Hcur) as (it & Hcr & Hres & _).
    eexists _, _. split; [exact Hcr|]. repeat split.
    unfold current. cbn [table]. rewrite lookup_insert_eq. cbn [fmap option_fmap option_map].
    by rewrite Hres.
Qed.

Lemma update_forces_identity_witness :
  ∃ res w',
    updateResource "Patient" "p1"
      (Some (mkResource None (Some "someone-else") None ∅)) Scenario.t2 Scenario.created
      = (inr res, w') ∧
    res_id res = Some "p1" ∧ res_resourceType res = Some "Patient" ∧
    item_resource <$> current "Patient" "p1" w' = Some res.
Proof.
  eapply (proj1 (update_forces_identity "Patient" "p1"
                   (mkResource None (Some "someone-else") None ∅) Scenario.t2 "uuid-2"
                   Scenario.created _ _ _ _)).
  vm_compute; reflexivity.
  Unshelve.
  - vm_compute; reflexivity.
  - intros H; discriminate H.
  - vm_compute; reflexivity.
  - vm_compute; reflexivity.
Defined.

(** C10, on a concrete run: Encounter/e1 is created with subject
    Patient/123 and then updated with a payload that has no subject.  The
    update returns; the row it writes for version 2 is in the bucket
    PATIENT#unknown, but the current row, which now holds that same
    resource, is still in the bucket PATIENT#123 of the owner index.  The
    search of the encounters of Patient/123 does not show it: it returns
    nothing, the service rejects its query. *)
Theorem update_keeps_stale_owner_bucket :
  ∃ res,
    updateResource "Encounter" "e1" (Some Owner.bare) Scenario.t2 Owner.encounter_created
      = (inr res, Owner.encounter_updated) ∧
    subject_reference_id res = inr None ∧
    (GSI2PK <$> table Owner.encounter_updated !! ("RESOURCE#Encounter#e1", "v2"))
      = Some (Some "PATIENT#unknown") ∧
    ((λ it, (GSI2PK it, GSI2SK it, item_resource it))
       <$> current "Encounter" "e1" Owner.encounter_updated)
      = Some (Some "PATIENT#123", Some "RESOURCE#Encounter#e1", res) ∧
    searchResources "Encounter" {[ "subject" := "Patient/123" ]} "b1" Owner.encounter_updated
      = (inl (Error ("Failed to search resources: " +:+ exn_message ValidationException)),
         Owner.encounter_updated).
Proof.
  eexists. split; [vm_compute; reflexivity|].
  repeat split; vm_compute; reflexivity.
Qed.

(** * Further properties of the class *)

(** ** Where rows come from *)

Lemma createResource_rows t r now uuid w key it :
  table (createResource t r now uuid w).2 !! key = Some it →
  table w !! key = Some it ∨ written w key it.
Proof.
  unfold createResource.
  destruct (validateResourceType t) eqn:Ht; cbn [negb]; [|by left].
  destruct r as [r|]; [|by left].
  destruct (type_mismatch t r); [by left|].
  unfold buildPrimaryKey, bind. fold (created_id r uuid).
  unfold lift. destruct (owner_id t (created_id r uuid) r) as [e|o] eqn:Ho; [by left|].
  unfold try_catch, bind. settle.
  destruct (faults w) as [|[e|] fs]; cbn [andb].
  - destruct (table w !! _) as [it0|] eqn:Hk.
    + rewrite bool_decide_eq_true_2 by eauto. by left.
    + rewrite bool_decide_eq_false_2 by (by intros [? ?]). settle.
      intros [[<- <-]|[_ H]]%lookup_insert_Some; [right|by left].
      by apply (written_create w t r now uuid o).
  - destruct (String.eqb _ _); by left.
  - destruct (table w !! _) as [it0|] eqn:Hk.
    + rewrite bool_decide_eq_true_2 by eauto. by left.
    + rewrite bool_decide_eq_false_2 by (by intros [? ?]). settle.
      intros [[<- <-]|[_ H]]%lookup_insert_Some; [right|by left].
      by apply (written_create w t r now uuid o).
Qed.

Lemma deleteResource_rows t id now w key it :
  table (deleteResource t id now w).2 !! key = Some it →
  table w !! key = Some it ∨ written w key it.
Proof.
  unfold deleteResource.
  destruct (validateResourceType t) eqn:Ht; cbn [negb]; [|by left].
  destruct (String.eqb_spec id "") as [|Hid]; [by left|].
  unfold buildPrimaryKey, try_catch, bind. fate.
  assert (Hput : ∀ cur, table w !! ("RESOURCE#" +:+ t +:+ "#" +:+ id, "v1") = Some cur →
    <[("RESOURCE#" +:+ t +:+ "#" +:+ id, "v1") := deletedItem_of now cur]> (table w) !! key
      = Some it → table w !! key = Some it ∨ written w key it).
  { intros cur Hcur [[<- <-]|[_ H]]%lookup_insert_Some; [right|by left].
    by apply (written_delete w t id now cur). }
  destruct (faults w) as [|[e|] fs] eqn:Hf.
  - destruct (table w !! _) as [cur|] eqn:Hk; settle; [|by left].
    rewrite Hf. cbn [snd table]. by apply (Hput cur).
  - settle. by left.
  - destruct (table w !! _) as [cur|] eqn:Hk; settle; [|by left].
    destruct fs as [|[e|] fs]; settle; [| by left |]; by apply (Hput cur).
Qed.

Lemma updateResource_rows t id r now w key it :
  table (updateResource t id r now w).2 !! key = Some it →
  table w !! key = Some it ∨ written w key it.
Proof.
  unfold updateResource.
  destruct (validateResourceType t) eqn:Ht; cbn [negb]; [|by left].
  destruct (String.eqb_spec id "") as [|Hid]; [by left|].
  destruct r as [r|]; [|by left].
  destruct (type_mismatch t r); [by left|].
  unfold buildPrimaryKey, bind at 1, try_catch at 1, bind at 1. fate.
  set (pk := "RESOURCE#" +:+ t +:+ "#" +:+ id).
  assert (Hhist : ∀ cur o, table w !! (pk, "v1") = Some cur → owner_id t id r = inr o →
    <[(pk, "v" +:+ next_versionId (item_versionId cur)) :=
        updatedItem t id r now (item_versionId cur) o]> (table w) !! key = Some it →
    table w !! key = Some it ∨ written w key it).
  { intros cur o Hcur Ho [[<- <-]|[_ H]]%lookup_insert_Some; [right|by left].
    by apply (written_history w t id r now cur o). }
  assert (Hptr : ∀ cur o, table w !! (pk, "v1") = Some cur → owner_id t id r = inr o →
    let res := updatedResource t id r now (item_versionId cur) in
    let t1 := <[(pk, "v" +:+ next_versionId (item_versionId cur)) :=
                  updatedItem t id r now (item_versionId cur) o]> (table w) in
    <[(pk, "v1") := set_pointer res (lastUpdated_of res) (versionId_of res) (t1 !! (pk, "v1"))]> t1
      !! key = Some it →
    table w !! key = Some it ∨ written w key it).
  { intros cur o Hcur Ho res t1 [[<- <-]|[_ H]]%lookup_insert_Some.
    - right. subst t1. rewrite lookup_insert. case_decide as Hk.
      + by apply (written_pointer w t id r now cur o); [..|right].
      + rewrite Hcur. by apply (written_pointer w t id r now cur o); [..|left].
    - by apply (Hhist cur o). }
  destruct (faults w) as [|[e|] fs] eqn:Hf.
  - destruct (table w !! _) as [cur|] eqn:Hk; settle; [|by left].
    unfold bind at 1. unfold lift.
    destruct (owner_id t id r) as [e|o] eqn:Ho; [by left|].
    unfold try_catch, bind. settle. rewrite Hf. settle. rewrite ?Hf. settle.
    rewrite versionId_of_addMetadata_update, template_Some.
    by apply (Hptr cur o).
  - settle. by left.
  - destruct (table w !! _) as [cur|] eqn:Hk; settle; [|by left].
    unfold bind at 1. unfold lift.
    destruct (owner_id t id r) as [e|o] eqn:Ho; [by left|].
    unfold try_catch, bind. settle.
    rewrite versionId_of_addMetadata_update, template_Some.
    destruct fs as [|[e|] fs]; settle.
    + by apply (Hptr cur o).
    + by left.
    + destruct fs as [|[e|] fs]; settle.
      * by apply (Hptr cur o).
      * by apply (Hhist cur o).
      * by apply (Hptr cur o).
Qed.

(** Every row of the table after a call was there before the call or is
    one of the four writes, built from a row the call found. *)
Lemma run_rows c w key it :
  table (run c w) !! key = Some it → table w !! key = Some it ∨ written w key it.
Proof.
  destruct c; cbn [run].
  - apply createResource_rows.
  - rewrite getResource_table. by left.
  - apply updateResource_rows.
  - apply deleteResource_rows.
  - rewrite searchResources_table. by left.
Qed.

(** ** What every stored row satisfies *)

Lemma written_row_ok w key it :
  (∀ k i, table w !! k = Some i → row_ok k i) → written w key it → row_ok key it.
Proof.
  intros Hw [t r now uuid o Ht Ho Hfree|t id r now cur o Ht Hid Hcur Ho
            |t id r now cur o old Ht Hid Hcur Ho Hold res|t id now cur Ht Hid Hcur].
  - exists t, (created_id r uuid). repeat split; try done; by eexists.
  - exists t, id. repeat split; try done; by eexists.
  - exists t, id. repeat split; try done.
    + destruct Hold as [->| ->]; [|done].
      destruct (Hw _ _ Hcur) as (t' & id' & Ht' & _ & _ & Hk & _ & _ & Hg & _).
      destruct (partition_key_inj t id t' id' Ht Ht' Hk) as [<- <-]. exact Hg.
    + destruct Hold as [->| ->]; [|by eexists].
      by destruct (Hw _ _ Hcur) as (t' & id' & _ & _ & _ & _ & _ & _ & _ & Hg & _).
    + destruct Hold as [->| ->]; [|by eexists].
      by destruct (Hw _ _ Hcur) as (t' & id' & _ & _ & _ & _ & _ & _ & _ & _ & Hg & _).
    + destruct Hold as [->| ->]; [|done].
      destruct (Hw _ _ Hcur) as (t' & id' & Ht' & _ & _ & Hk & _ & _ & _ & _ & _ & Hg).
      destruct (partition_key_inj t id t' id' Ht Ht' Hk) as [<- <-]. exact Hg.
  - destruct (Hw _ _ Hcur) as (t' & id' & Ht' & Hrt & Hrid & Hk & _ & _ & Hg1 & Hs1 & Hp2 & Hs2).
    exists t', id'. repeat split; try done.
Qed.

Lemma reachable_rows_ok fs w key it :
  reachable (initial fs) w → table w !! key = Some it → row_ok key it.
Proof.
  intros Hreach. revert key it. induction Hreach as [|c w _ IH]; intros key it Hl.
  - cbn [initial table] in Hl. by rewrite lookup_empty in Hl.
  - apply run_rows in Hl as [Hl|Hl]; [by apply IH|]. by eapply written_row_ok.
Qed.

Lemma getResource_inr t id w res w' :
  getResource t id w = (inr res, w') →
  validateResourceType t = true ∧ id ≠ "" ∧ table w' = table w ∧
  ∃ it, current t id w = Some it ∧ res = item_resource it.
Proof.
  unfold getResource, current.
  destruct (validateResourceType t); cbn [negb]; [|done].
  destruct (String.eqb_spec id "") as [|Hid]; [done|].
  unfold buildPrimaryKey, try_catch, bind. settle.
  destruct (faults w) as [|[e|] fs]; settle; try done;
    (destruct (table w !! _) as [it|]; settle; [|done]);
    intros [= <- <-]; repeat split; try done; by eexists.
Qed.

(** X1.  Along every sequence of calls, whatever the service rejects, a
    read that returns hands out a resource whose [resourceType] and [id] are
    the kind and the id that were asked for. *)
Theorem read_returns_the_identity fs w t id res w' :
  reachable (initial fs) w →
  getResource t id w = (inr res, w') →
  res_resourceType res = Some t ∧ res_id res = Some id.
Proof.
  intros Hreach (Ht & Hid & _ & it & Hcur & ->)%getResource_inr.
  destruct (reachable_rows_ok fs w _ it Hreach Hcur)
    as (t' & id' & Ht' & Hrt & Hrid & Hk & _).
  destruct (partition_key_inj t id t' id' Ht Ht' Hk) as [<- <-]. by split.
Qed.

Lemma read_returns_the_identity_witness :
  res_resourceType Scenario.version2 = Some "Patient" ∧ res_id Scenario.version2 = Some "p1".
Proof.
  eapply (read_returns_the_identity [] Scenario.updated "Patient" "p1").
  - apply reachable_step, reachable_step, reachable_start.
  - vm_compute; reflexivity.
Defined.

(** ** Errors *)

(** X2.  A create, read, delete or search that throws leaves the table
    exactly as it was, whatever the arguments and whatever the service
    rejects.  (An update that throws can leave a row behind, see
    [update_partial_write].) *)
Theorem errors_leave_table w :
  (∀ t r now uuid e w', createResource t r now uuid w = (inl e, w') → table w' = table w) ∧
  (∀ t id e w', getResource t id w = (inl e, w') → table w' = table w) ∧
  (∀ t id now e w', deleteResource t id now w = (inl e, w') → table w' = table w) ∧
  (∀ t sp uuid e w', searchResources t sp uuid w = (inl e, w') → table w' = table w).
Proof.
  repeat split.
  - intros t r now uuid e w'. unfold createResource.
    destruct (negb (validateResourceType t)); [by intros [= _ <-]|].
    destruct r as [r|]; [|by intros [= _ <-]].
    destruct (type_mismatch t r); [by intros [= _ <-]|].
    unfold buildPrimaryKey, bind, lift.
    destruct (owner_id _ _ _) as [e0|o]; [by intros [= _ <-]|].
    unfold try_catch, bind. settle.
    destruct (faults w) as [|[e0|] fs]; cbn [andb];
      try (destruct (String.eqb _ _); by intros [= _ <-]);
      (destruct (bool_decide _); settle; [by intros [= _ <-] | done]).
  - intros t id e w' H. rewrite <- (getResource_table t id w). by rewrite H.
  - intros t id now e w'. unfold deleteResource.
    destruct (negb (validateResourceType t)); [by intros [= _ <-]|].
    destruct (String.eqb id ""); [by intros [= _ <-]|].
    unfold buildPrimaryKey, try_catch, bind. fate.
    destruct (faults w) as [|[e0|] fs] eqn:Hf.
    + destruct (table w !! _) as [it|]; settle; [|by intros [= _ <-]]. by rewrite Hf.
    + settle. by intros [= _ <-].
    + destruct (table w !! _) as [it|]; settle; [|by intros [= _ <-]].
      destruct fs as [|[e1|] fs]; settle; try done. by intros [= _ <-].
  - intros t sp uuid e w' H. rewrite <- (searchResources_table t sp uuid w). by rewrite H.
Qed.

(** X3.  For a kind outside the supported list every method throws
    "Unsupported resource type: kind" before it calls the service: the
    world, pending rejections included, is unchanged.  The same holds for
    read, update and delete of a supported kind with the empty id, which
    throw "Invalid resource ID". *)
Theorem validation_before_service t w :
  (validateResourceType t = false →
     let e := Error ("Unsupported resource type: " +:+ t) in
     (∀ r now uuid, createResource t r now uuid w = (inl e, w)) ∧
     (∀ id, getResource t id w = (inl e, w)) ∧
     (∀ id r now, updateResource t id r now w = (inl e, w)) ∧
     (∀ id now, deleteResource t id now w = (inl e, w)) ∧
     (∀ sp uuid, searchResources t sp uuid w = (inl e, w))) ∧
  (validateResourceType t = true →
     let e := Error "Invalid resource ID" in
     getResource t "" w = (inl e, w) ∧
     (∀ r now, updateResource t "" r now w = (inl e, w)) ∧
     (∀ now, deleteResource t "" now w = (inl e, w))).
Proof.
  split.
  - intros Ht e. subst e. by apply unsupported_kind_throws.
  - intros Ht e. subst e. unfold getResource, updateResource, deleteResource.
    rewrite Ht. cbn [negb]. by repeat split.
Qed.

Lemma validation_before_service_witness :
  searchResources "Medication" ∅ "b1" (mkWorld ∅ [Some (mkSdkError "Down" "down")])
  = (inl (Error "Unsupported resource type: Medication"),
     mkWorld ∅ [Some (mkSdkError "Down" "down")]).
Proof.
  apply (proj1 (validation_before_service "Medication"
                  (mkWorld ∅ [Some (mkSdkError "Down" "down")]))).
  vm_compute; reflexivity.
Defined.



(** X5.  Update is two writes and the second can fail alone.  When the
    service serves the lookup and the put of the new version and rejects the
    update of the current row, update throws "Failed to update resource:
    ...", the row of the new version stays in the table, and the current row
    still is the old one. *)
Theorem update_partial_write fs0 w t id r now cur e fs :
  reachable (initial fs0) w →
  validateResourceType t = true → id ≠ "" → valid_payload t r = true →
  current t id w = Some cur →
  faults w = None :: None :: Some e :: fs →
  let version_key := ((buildPrimaryKey t id).1, "v" +:+ next_versionId (item_versionId cur)) in
  ∃ w' hist,
    updateResource t id (Some r) now w
      = (inl (Error ("Failed to update resource: " +:+ sdk_message e)), w') ∧
    faults w' = fs ∧
    table w' = <[version_key := hist]> (table w) ∧
    item_resource hist = updatedResource t id r now (item_versionId cur) ∧
    current t id w' = Some cur.
Proof.
  intros Hreach Ht Hid Hr Hcur Hf version_key.
  destruct (reachable_versions_ok fs0 w Hreach _ _ Hcur) as (n & Hn & Hvn).
  destruct (valid_payload_owner t id r Hr) as [o Ho].
  exists (mkWorld (<[version_key := updatedItem t id r now (item_versionId cur) o]> (table w)) fs),
         (updatedItem t id r now (item_versionId cur) o).
  split; [|repeat split].
  - unfold updateResource, current in *.
    rewrite Ht, (eqb_empty_false _ Hid), (valid_payload_type _ _ Hr). cbn [negb].
    unfold buildPrimaryKey in *. unfold bind at 1, try_catch at 1, bind at 1. settle.
    rewrite Hf, Hcur. settle. unfold bind at 1. rewrite Ho. unfold lift.
    unfold try_catch, bind. settle.
    by rewrite versionId_of_addMetadata_update, template_Some.
  - unfold current. cbn [table]. subst version_key.
    rewrite Hvn, next_versionId_number.
    rewrite lookup_insert_ne by (by apply history_key_not_current). exact Hcur.
Qed.

Lemma update_partial_write_witness :
  let cur := createdItem "Patient" "p1" Scenario.patientA Scenario.t1 "p1" in
  ∃ w' hist,
    updateResource "Patient" "p1" (Some Scenario.patientB) Scenario.t2 Faulty.throttled
      = (inl (Error ("Failed to update resource: " +:+ "slow down")), w') ∧
    faults w' = [] ∧
    table w' = <[("RESOURCE#Patient#p1", "v" +:+ next_versionId (item_versionId cur)) := hist]>
                 (table Faulty.throttled) ∧
    item_resource hist
      = updatedResource "Patient" "p1" Scenario.patientB Scenario.t2 (item_versionId cur) ∧
    current "Patient" "p1" w' = Some cur.
Proof.
  apply (update_partial_write
           [None; None; None; Some (mkSdkError "Throttled" "slow down")]
           Faulty.throttled "Patient" "p1" Scenario.patientB Scenario.t2
           (createdItem "Patient" "p1" Scenario.patientA Scenario.t1 "p1")
           (mkSdkError "Throttled" "slow down") []).
  - apply reachable_step, reachable_start.
  - vm_compute; reflexivity.
  - intros H; discriminate H.
  - vm_compute; reflexivity.
  - vm_compute; reflexivity.
  - vm_compute; reflexivity.
Defined.

Lemma errors_leave_table_witness :
  table (mkWorld (table Faulty.throttled) [None; Some (mkSdkError "Throttled" "slow down")])
  = table Faulty.throttled.
Proof.
  eapply (proj1 (errors_leave_table Faulty.throttled)
            "Patient" (Some Scenario.patientA) Scenario.t2 "uuid-2").
  vm_compute; reflexivity.
Defined.



(** ** Create, read, update, delete in sequence *)





(** X9.  Delete has no check of the tombstone.  On a service that serves its
    calls, a delete of an identity that is already deleted returns again
    and raises the version once more; the row stays deleted. *)
Theorem delete_again_bumps_version t id now1 now2 w cur v :
  validateResourceType t = true → id ≠ "" → faults w = [] →
  current t id w = Some cur → version_of cur = Some v →
  ∃ w1 w2 it1 it2,
    deleteResource t id now1 w = (inr (), w1) ∧
    current t id w1 = Some it1 ∧
    item_versionId it1 = Some (Js.String_of_number (Some (v + 1))) ∧
    deleteResource t id now2 w1 = (inr (), w2) ∧
    current t id w2 = Some it2 ∧ deleted it2 = Some true ∧
    item_versionId it2 = Some (Js.String_of_number (Some (v + 2))) ∧
    lastUpdated_of (item_resource it2) = Some now2.
Proof.
  intros Ht Hid Hf Hcur Hv.
  destruct (delete_tombstones_current t id now1 w cur v Ht Hid Hf Hcur Hv)
    as (w1 & it1 & Hd1 & Hc1 & _ & Hv1 & _).
  assert (Hf1 : faults w1 = []).
  { rewrite (deleteResource_served t id now1 w cur Ht Hid Hf Hcur) in Hd1.
    by injection Hd1 as <-. }
  destruct (delete_tombstones_current t id now2 w1 it1 (v + 1) Ht Hid Hf1 Hc1
              (version_of_number _ _ Hv1))
    as (w2 & it2 & Hd2 & Hc2 & Hdel2 & Hv2 & _).
  exists w1, w2, it1, it2. repeat split; try done.
  - rewrite Hv2. do 3 f_equal. lia.
  - rewrite (deleteResource_served t id now2 w1 it1 Ht Hid Hf1 Hc1) in Hd2.
    injection Hd2 as <-. unfold current in Hc2. cbn [table] in Hc2.
    rewrite lookup_insert_eq in Hc2. by injection Hc2 as <-.
Qed.

Lemma delete_again_bumps_version_witness :
  ∃ w1 w2 it1 it2,
    deleteResource "Patient" "p1" Scenario.t2 Scenario.created = (inr (), w1) ∧
    current "Patient" "p1" w1 = Some it1 ∧
    item_versionId it1 = Some (Js.String_of_number (Some (1 + 1))) ∧
    deleteResource "Patient" "p1" Scenario.t3 w1 = (inr (), w2) ∧
    current "Patient" "p1" w2 = Some it2 ∧ deleted it2 = Some true ∧
    item_versionId it2 = Some (Js.String_of_number (Some (1 + 2))) ∧
    lastUpdated_of (item_resource it2) = Some Scenario.t3.
Proof.
  eapply (delete_again_bumps_version "Patient" "p1" Scenario.t2 Scenario.t3 Scenario.created).
  - vm_compute; reflexivity.
  - intros H; discriminate H.
  - vm_compute; reflexivity.
  - vm_compute; reflexivity.
  - vm_compute; reflexivity.
Defined.

(** ** Calls on one identity leave the others alone *)

(** X10.  A call writes only under the partition key of its own identity.
    For every call and every world, the rows of every other identity of a
    supported kind, the current row and the version rows alike, are after
    the call what they were before it, whatever the service rejects. *)
Theorem other_identities_untouched c w t id :
  validateResourceType t = true →
  target c ≠ Some (t, id) →
  (∀ sk, table (run c w) !! ((buildPrimaryKey t id).1, sk)
         = table w !! ((buildPrimaryKey t id).1, sk)) ∧
  current t id (run c w) = current t id w.
Proof.
  intros Ht Hc.
  assert (Hrows : ∀ sk, table (run c w) !! ((buildPrimaryKey t id).1, sk)
                        = table w !! ((buildPrimaryKey t id).1, sk)).
  { intros sk.
    assert (Hother : ∀ t' id', (t', id') ≠ (t, id) → validateResourceType t' = true →
              ((buildPrimaryKey t id).1, sk).1 ≠ (buildPrimaryKey t' id').1).
    { intros t' id' Hne Ht' Heq. cbn [fst] in Heq.
      destruct (partition_key_inj t id t' id' Ht Ht' Heq) as [-> ->]. by apply Hne. }
    destruct c as [t' [r|] now uuid|t' id'|t' id' r now|t' id' now|t' sp uuid];
      cbn [run target] in *.
    - destruct (validateResourceType t') eqn:Ht'.
      + apply createResource_frame, Hother; [congruence|done].
      + by rewrite (proj1 (unsupported_kind_throws t' w Ht')).
    - unfold createResource. by destruct (validateResourceType t').
    - by rewrite getResource_table.
    - destruct (validateResourceType t') eqn:Ht'.
      + apply updateResource_frame, Hother; [congruence|done].
      + by rewrite (proj1 (proj2 (proj2 (unsupported_kind_throws t' w Ht')))).
    - destruct (validateResourceType t') eqn:Ht'.
      + apply deleteResource_frame, Hother; [congruence|done].
      + by rewrite (proj1 (proj2 (proj2 (proj2 (unsupported_kind_throws t' w Ht'))))).
    - by rewrite searchResources_table. }
  split; [exact Hrows|].
  unfold current. specialize (Hrows "v1"). by unfold buildPrimaryKey in *.
Qed.

Lemma other_identities_untouched_witness :
  current "Patient" "p1" (run (DoDelete "Patient" "p2" Scenario.t3) Scenario.updated)
  = current "Patient" "p1" Scenario.updated.
Proof.
  apply (other_identities_untouched (DoDelete "Patient" "p2" Scenario.t3) Scenario.updated
           "Patient" "p1").
  - vm_compute; reflexivity.
  - intros H; discriminate H.
Defined.

(** ** Search *)

Lemma build_query_kind_path t sp :
  owner_path t sp = false →
  build_query t sp
  = mkQuery GSI1
      (mkKeyCondition GSI1 ":resourceTypeKey"
         (if Js.truthy (sp !! "_lastUpdated") then Some ":lastUpdatedPrefix" else None))
      (if Js.truthy (sp !! "_lastUpdated")
       then <[":lastUpdatedPrefix" := AvString "CREATED"]>
              {[ ":resourceTypeKey" := AvString ("RESOURCE_TYPE#" +:+ t);
                 ":deleted" := AvBool false ]}
       else {[ ":resourceTypeKey" := AvString ("RESOURCE_TYPE#" +:+ t);
               ":deleted" := AvBool false ]})
      (mkFilter ":deleted") (page_size sp) false.
Proof.
  unfold owner_path, build_query. intros ->. by destruct (Js.truthy (sp !! "_lastUpdated")).
Qed.

Lemma key_condition_kind_path t sp it :
  owner_path t sp = false →
  key_condition (build_query t sp) it
  = match GSI1PK it, GSI1SK it with
    | Some pk, Some sk =>
        String.eqb pk ("RESOURCE_TYPE#" +:+ t)
        && (if Js.truthy (sp !! "_lastUpdated") then String.prefix "CREATED" sk else true)
    | _, _ => false
    end.
Proof.
  intros Hpath. rewrite build_query_kind_path by done.
  unfold key_condition, string_value.
  cbn [IndexName KeyConditionExpression ExpressionAttributeValues kc_partition kc_begins_with
       index_pk index_sk].
  destruct (Js.truthy (sp !! "_lastUpdated")); reflexivity.
Qed.

Lemma query_valid_kind_path t sp :
  owner_path t sp = false → query_valid (build_query t sp) = (1 <=? page_size sp).
Proof.
  intros Hpath. rewrite build_query_kind_path by done.
  unfold query_valid, string_value, used_values.
  cbn [IndexName KeyConditionExpression ExpressionAttributeValues FilterExpression Limit
       kc_index kc_partition kc_begins_with filter_value].
  destruct (1 <=? page_size sp); cbn [andb]; [|done].
  destruct (Js.truthy (sp !! "_lastUpdated")); vm_compute; reflexivity.
Qed.

Lemma build_query_owner_path t sp :
  owner_path t sp = true →
  build_query t sp
  = mkQuery GSI2 (mkKeyCondition GSI2 ":patientKey" None)
      (<[":patientKey" := AvString ("PATIENT#" +:+ searched_patient sp)]>
         (if Js.truthy (sp !! "_lastUpdated")
          then <[":lastUpdatedPrefix" := AvString "CREATED"]>
                 {[ ":resourceTypeKey" := AvString ("RESOURCE_TYPE#" +:+ t);
                    ":deleted" := AvBool false ]}
          else {[ ":resourceTypeKey" := AvString ("RESOURCE_TYPE#" +:+ t);
                  ":deleted" := AvBool false ]}))
      (mkFilter ":deleted") (page_size sp) false.
Proof.
  unfold owner_path, build_query, searched_patient. intros ->.
  by destruct (Js.truthy (sp !! "_lastUpdated")).
Qed.

Lemma query_valid_owner_path t sp :
  owner_path t sp = true → query_valid (build_query t sp) = false.
Proof.
  intros Hpath. rewrite build_query_owner_path by done.
  unfold query_valid, string_value, used_values.
  cbn [IndexName KeyConditionExpression ExpressionAttributeValues FilterExpression Limit
       kc_index kc_partition kc_begins_with filter_value].
  destruct (1 <=? page_size sp); cbn [andb]; [|done].
  destruct (Js.truthy (sp !! "_lastUpdated")); vm_compute; reflexivity.
Qed.

Lemma kind_key_inj a b : "RESOURCE_TYPE#" +:+ a = "RESOURCE_TYPE#" +:+ b → a = b.
Proof. intros H. by injection H. Qed.

(** X11.  The envelope of a result: [total] is the number of entries; and
    along every sequence of calls, a search that does not take the owner
    path returns only resources of the kind asked for, each with the
    [fullUrl] kind/id of the resource itself. *)
Theorem search_entries_of_kind fs w t sp uuid b w' :
  reachable (initial fs) w →
  searchResources t sp uuid w = (inr b, w') →
  bundle_total b = Z.of_nat (length (bundle_entry b)) ∧
  bundle_id b = uuid ∧
  (owner_path t sp = false →
     ∀ e, e ∈ bundle_entry b →
       ∃ id, res_resourceType (entry_resource e) = Some t ∧
             res_id (entry_resource e) = Some id ∧
             fullUrl e = t +:+ "/" +:+ id).
Proof.
  intros Hreach Hs. apply searchResources_result in Hs. cbn zeta in Hs. subst b.
  cbn [bundle_total bundle_entry bundle_id]. split; [|split; [done|]].
  - unfold run_query. cbn [Count Items]. by rewrite !length_fmap.
  - intros Hpath e He.
    apply list_elem_of_fmap in He as (r & -> & Hr).
    apply list_elem_of_fmap in Hr as (it & -> & Hit).
    apply run_query_elem in Hit as (_ & Hkc & key & Hkey).
    destruct (reachable_rows_ok fs w key it Hreach Hkey)
      as (t' & id' & _ & Hrt & Hrid & _ & _ & _ & Hg & _).
    rewrite key_condition_kind_path in Hkc by done.
    rewrite Hg in Hkc. destruct (GSI1SK it); [|done].
    apply andb_true_iff in Hkc as [Hkc _]. apply String.eqb_eq, kind_key_inj in Hkc.
    subst t'. exists id'. cbn [entry_resource fullUrl]. by rewrite Hrid.
Qed.

Lemma search_entries_of_kind_witness :
  ∃ b, searchResources "Patient" ∅ "b1" Feed.world = (inr b, Feed.world) ∧
       bundle_total b = Z.of_nat (length (bundle_entry b)) ∧ bundle_id b = "b1".
Proof.
  eexists. split; [vm_compute; reflexivity|].
  match goal with
  | |- bundle_total ?B = _ ∧ _ =>
      destruct (search_entries_of_kind [] Feed.world "Patient" ∅ "b1" B Feed.world)
        as (H1 & H2 & _)
  end.
  - apply (reachable_step _ (DoCreate _ _ _ _)), (reachable_step _ (DoUpdate _ _ _ _)),
      (reachable_step _ (DoCreate _ _ _ _)), reachable_start.
  - vm_compute; reflexivity.
  - split; assumption.
Defined.

(** X12.  A search reads three members of the query and nothing else: two
    queries that agree on [_count], [_lastUpdated] and [subject] give the
    same result, so [_offset] and every other search parameter have no
    effect.  Of [_lastUpdated] only its presence counts, and for the kind
    Patient [subject] has no effect either. *)
Theorem search_reads_three_parameters t sp sp' uuid w :
  sp !! "_count" = sp' !! "_count" →
  Js.truthy (sp !! "_lastUpdated") = Js.truthy (sp' !! "_lastUpdated") →
  (t = "Patient" ∨ sp !! "subject" = sp' !! "subject") →
  searchResources t sp uuid w = searchResources t sp' uuid w.
Proof.
  intros Hc Hl Hs. unfold searchResources.
  assert (build_query t sp = build_query t sp') as ->; [|done].
  unfold build_query, page_size. rewrite Hc, Hl.
  destruct Hs as [->| ->]; [|done].
  change (String.eqb "Patient" "Patient") with true.
  cbn [negb]. by rewrite !andb_false_r.
Qed.

Lemma search_reads_three_parameters_witness :
  searchResources "Patient"
    {[ "_offset" := "40"; "identifier" := "dni|12345678"; "_lastUpdated" := "gt2030" ]}
    "b1" Feed.world
  = searchResources "Patient" {[ "_lastUpdated" := "lt1999"; "subject" := "Patient/zz" ]}
      "b1" Feed.world.
Proof.
  apply search_reads_three_parameters.
  - vm_compute; reflexivity.
  - vm_compute; reflexivity.
  - by left.
Defined.

Lemma page_size_number n : n ≠ 0 → ∀ sp,
  sp !! "_count" = Some (Js.String_of_number (Some n)) → page_size sp = n.
Proof.
  intros Hn sp Hsp. unfold page_size. rewrite Hsp.
  cbn [Js.parseInt_opt mbind option_bind]. rewrite parseInt_String_of_number.
  unfold Js.number_or. by destruct (Z.eqb_spec n 0).
Qed.

(** X13.  The size of a page.  A search that returns was sent with a
    page size of at least 1, so it never returns for a negative [_count];
    its result never has more than 20 entries when the query has no
    [_count], when [_count] does not start with a number and when it is
    "0"; with [_count] the decimal of [n >= 1] it never has more than [n]. *)
Theorem search_size_bound t sp uuid w b w' :
  searchResources t sp uuid w = (inr b, w') →
  (∀ n, Js.parseInt_opt (sp !! "_count") = Some n → 0 ≤ n) ∧
  (Js.parseInt_opt (sp !! "_count") = None ∨ Js.parseInt_opt (sp !! "_count") = Some 0 →
     (length (bundle_entry b) ≤ 20)%nat) ∧
  (∀ n, 1 ≤ n → sp !! "_count" = Some (Js.String_of_number (Some n)) →
     (length (bundle_entry b) ≤ Z.to_nat n)%nat).
Proof.
  intros Hs. destruct (search_page t sp uuid w b w' Hs) as (items & _ & _ & Hlen).
  split; [|split].
  - intros n Hn. apply searchResources_valid in Hs.
    assert (1 ≤ page_size sp) as Hp.
    { destruct (owner_path t sp) eqn:Hpath.
      - by rewrite query_valid_owner_path in Hs.
      - rewrite query_valid_kind_path in Hs by done. lia. }
    unfold page_size in Hp. rewrite Hn in Hp. unfold Js.number_or in Hp.
    destruct (Z.eqb_spec n 0); lia.
  - intros Hc. assert (page_size sp = 20) as Hp.
    { unfold page_size. by destruct Hc as [-> | ->]. }
    rewrite Hp in Hlen. exact Hlen.
  - intros n Hn Hc. rewrite (page_size_number n) in Hlen by (done || lia). exact Hlen.
Qed.

Lemma search_size_bound_witness :
  ∃ b, searchResources "Patient" {[ "_count" := "2" ]} "b1" Feed.world = (inr b, Feed.world) ∧
       (length (bundle_entry b) ≤ Z.to_nat 2)%nat.
Proof.
  eexists. split; [vm_compute; reflexivity|].
  match goal with
  | |- (length (bundle_entry ?B) ≤ _)%nat =>
      destruct (search_size_bound "Patient" {[ "_count" := "2" ]} "b1" Feed.world B Feed.world)
        as (_ & _ & H)
  end.
  - vm_compute; reflexivity.
  - apply (H 2); [lia | vm_compute; reflexivity].
Defined.

Lemma run_query_complete q tb key it :
  tb !! key = Some it → key_condition q it = true → filter_expression q it = true →
  (size tb ≤ Z.to_nat (Limit q))%nat →
  it ∈ Items (run_query q tb).
Proof.
  intros Hkey Hkc Hf Hsize. unfold run_query. cbn [Items].
  apply list_elem_of_filter. split; [done|].
  assert (Hin : it ∈ filter (λ it, key_condition q it = true) (snd <$> map_to_list tb)).
  { apply list_elem_of_filter. split; [done|].
    apply list_elem_of_fmap. exists (key, it). split; [done|]. by apply elem_of_map_to_list. }
  rewrite take_ge.
  - by rewrite merge_sort_Permutation.
  - rewrite merge_sort_Permutation. etrans; [apply length_filter|].
    rewrite length_fmap. by rewrite length_map_to_list.
Qed.

Lemma rows_updated_or_current fs w key it :
  reachable (initial fs) w → table w !! key = Some it →
  key.2 = "v1" ∨ ∃ x, GSI1SK it = Some ("UPDATED#" +:+ x).
Proof.
  intros Hreach. revert key it. induction Hreach as [|c w _ IH]; intros key it Hl.
  - cbn [initial table] in Hl. by rewrite lookup_empty in Hl.
  - apply run_rows in Hl as [Hl|Hl]; [by apply IH|].
    destruct Hl; try (by left). right. by eexists.
Qed.

(** X14.  Along every sequence of calls, a search with a [_lastUpdated]
    member (and not on the owner path) returns current rows only: every
    entry is the resource a read of some identity of the kind returns, and
    the row is not flagged deleted.  The value of [_lastUpdated] is compared
    with no time. *)
Theorem search_lastUpdated_current_rows fs w t sp uuid b w' :
  reachable (initial fs) w →
  owner_path t sp = false → Js.truthy (sp !! "_lastUpdated") = true →
  searchResources t sp uuid w = (inr b, w') →
  ∀ e, e ∈ bundle_entry b →
    ∃ id it, current t id w = Some it ∧ deleted it ≠ Some true ∧
             entry_resource e = item_resource it.
Proof.
  intros Hreach Hpath Hlu Hs e He.
  apply searchResources_result in Hs. cbn zeta in Hs. subst b. cbn [bundle_entry] in He.
  apply list_elem_of_fmap in He as (r & -> & Hr).
  apply list_elem_of_fmap in Hr as (it & -> & Hit).
  apply run_query_elem in Hit as (Hfl & Hkc & key & Hkey).
  rewrite key_condition_kind_path in Hkc by done. rewrite Hlu in Hkc.
  rewrite filter_expression_build_query in Hfl.
  destruct (reachable_rows_ok fs w key it Hreach Hkey)
    as (t' & id' & _ & _ & _ & Hk & _ & _ & Hg & _).
  rewrite Hg in Hkc. destruct (GSI1SK it) as [sk|] eqn:Hsk; [|done].
  apply andb_true_iff in Hkc as [Hkc Hpre]. apply String.eqb_eq, kind_key_inj in Hkc.
  subst t'. exists id', it. split; [|split; [|done]].
  - destruct (rows_updated_or_current fs w key it Hreach Hkey) as [Hv1|[x Hx]].
    + unfold current, buildPrimaryKey in *. destruct key as [pk sk'].
      cbn [fst snd] in *. subst sk' pk. exact Hkey.
    + rewrite Hsk in Hx. injection Hx as ->. discriminate Hpre.
  - unfold not_deleted in Hfl.
    intros Hd. rewrite Hd in Hfl. discriminate Hfl.
Qed.

Lemma search_lastUpdated_current_rows_witness :
  ∃ id it, current "Patient" id Scenario.updated = Some it ∧ deleted it ≠ Some true ∧
           entry_resource (mkEntry Scenario.version2 "Patient/p1") = item_resource it.
Proof.
  eapply (search_lastUpdated_current_rows [] Scenario.updated "Patient"
            {[ "_lastUpdated" := "ge2024" ]} "b1").
  - apply reachable_step, reachable_step, reachable_start.
  - vm_compute; reflexivity.
  - vm_compute; reflexivity.
  - vm_compute; reflexivity.
  - vm_compute. left.
Defined.

(** X15.  Along every sequence of calls, when the whole table fits in a page,
    a search by kind with no [_lastUpdated] returns the resource of every
    stored row of the kind that is not flagged deleted: the current row and
    each row an update wrote, so an identity that was updated is listed
    once per stored version row. *)
Theorem search_returns_every_row fs w t sp uuid b w' key it :
  reachable (initial fs) w →
  owner_path t sp = false → Js.truthy (sp !! "_lastUpdated") = false →
  (size (table w) ≤ Z.to_nat (page_size sp))%nat →
  table w !! key = Some it →
  res_resourceType (item_resource it) = Some t → deleted it ≠ Some true →
  searchResources t sp uuid w = (inr b, w') →
  item_resource it ∈ entry_resource <$> bundle_entry b.
Proof.
  intros Hreach Hpath Hlu Hsize Hkey Hrt Hdel Hs.
  apply searchResources_result in Hs. cbn zeta in Hs. subst b. cbn [bundle_entry].
  apply list_elem_of_fmap. eexists (mkEntry (item_resource it) _). split; [done|].
  apply list_elem_of_fmap. eexists. split; [reflexivity|].
  apply list_elem_of_fmap. exists it. split; [done|].
  destruct (reachable_rows_ok fs w key it Hreach Hkey)
    as (t' & id' & _ & Hrt' & _ & _ & _ & _ & Hg & [sk Hsk] & _).
  rewrite Hrt in Hrt'. injection Hrt' as <-.
  eapply run_query_complete; [exact Hkey|..].
  - rewrite key_condition_kind_path by done.
    rewrite Hg, Hsk, Hlu. by rewrite String.eqb_refl.
  - rewrite filter_expression_build_query.
    unfold not_deleted. by destruct (deleted it) as [[]|].
  - by rewrite build_query_kind_path.
Qed.

Lemma search_returns_every_row_witness :
  ∃ b it,
    searchResources "Patient" ∅ "b1" Scenario.updated = (inr b, Scenario.updated) ∧
    table Scenario.updated !! ("RESOURCE#Patient#p1", "v2") = Some it ∧
    item_resource it ∈ entry_resource <$> bundle_entry b.
Proof.
  eexists _, _. split; [vm_compute; reflexivity|]. split; [vm_compute; reflexivity|].
  eapply (search_returns_every_row [] Scenario.updated "Patient" ∅ "b1" _ Scenario.updated
            ("RESOURCE#Patient#p1", "v2")).
  - apply reachable_step, reachable_step, reachable_start.
  - vm_compute; reflexivity.
  - vm_compute; reflexivity.
  - vm_compute. lia.
  - vm_compute; reflexivity.
  - vm_compute; reflexivity.
  - intros H; discriminate H.
  - vm_compute; reflexivity.
Defined.

(** X16.  The owner path never returns.  For a supported kind other than
    Patient and a query with a [subject], the query the search builds names
    the bucket of the searched patient, but it still supplies the value
    [:resourceTypeKey] of the key condition it has replaced, and the service
    rejects a query with a value no expression uses.  So the search throws
    "Failed to search resources: ..." in every world, and the table is
    unchanged. *)
Theorem owner_search_is_rejected t sp uuid w :
  validateResourceType t = true → owner_path t sp = true →
  string_value (build_query t sp) ":patientKey"
    = Some ("PATIENT#" +:+ searched_patient sp) ∧
  is_Some (ExpressionAttributeValues (build_query t sp) !! ":resourceTypeKey") ∧
  (":resourceTypeKey" ∉ used_values (build_query t sp)) ∧
  query_valid (build_query t sp) = false ∧
  (∃ m w', searchResources t sp uuid w
             = (inl (Error ("Failed to search resources: " +:+ m)), w') ∧
           table w' = table w) ∧
  (faults w = [] →
     searchResources t sp uuid w
     = (inl (Error ("Failed to search resources: " +:+ exn_message ValidationException)), w)).
Proof.
  intros Ht Hpath.
  pose proof (query_valid_owner_path t sp Hpath) as Hv.
  split; [|split; [|split; [|split; [done|]]]].
  - rewrite build_query_owner_path by done. unfold string_value.
    cbn [ExpressionAttributeValues]. by rewrite lookup_insert_eq.
  - rewrite build_query_owner_path by done. cbn [ExpressionAttributeValues].
    destruct (Js.truthy (sp !! "_lastUpdated")); by eexists.
  - rewrite build_query_owner_path by done. unfold used_values.
    cbn [KeyConditionExpression FilterExpression kc_partition kc_begins_with filter_value
         option_list app].
    intros [H|[H|H%elem_of_nil]%elem_of_cons]%elem_of_cons; [discriminate H|discriminate H|done].
  - unfold searchResources. rewrite Ht. cbn [negb].
    unfold try_catch, bind. settle. rewrite Hv.
    destruct (faults w) as [|[e|] fs] eqn:Hf; settle.
    + split; [by eexists _, _|done].
    + split; [by eexists _, _|done].
    + split; [by eexists _, _|done].
Qed.

Lemma owner_search_is_rejected_witness :
  searchResources "Encounter" {[ "subject" := "Patient/p1" ]} "b1" Scenario.created
  = (inl (Error ("Failed to search resources: " +:+ exn_message ValidationException)),
     Scenario.created).
Proof.
  apply (owner_search_is_rejected "Encounter" {[ "subject" := "Patient/p1" ]} "b1"
           Scenario.created).
  - vm_compute; reflexivity.
  - vm_compute; reflexivity.
  - vm_compute; reflexivity.
Defined.

(** * The handler *)

Lemma subject_reference_error_status r e : subject_reference_id r = inl e → statusCode e = None.
Proof.
  unfold subject_reference_id. intros Hs.
  destruct (res_rest r !! "subject") as [[| | | | |o]|]; try discriminate Hs.
  destruct (o !! "reference") as [[]|]; try discriminate Hs; by injection Hs as <-.
Qed.
Lemma owner_id_error_status t id r e : owner_id t id r = inl e → statusCode e = None.
Proof.
  unfold owner_id. destruct (String.eqb t "Patient"); [done|].
  destruct (subject_reference_id r) as [e'|] eqn:Hs; [|done].
  intros [= <-]. by eapply subject_reference_error_status.
Qed.

Lemma createResource_error_status t r now uuid w e w' :
  createResource t r now uuid w = (inl e, w') → statusCode e = None.
Proof.
  unfold createResource.
  destruct (negb (validateResourceType t)); [by intros [= <- _]|].
  destruct r as [r|]; [|by intros [= <- _]].
  destruct (type_mismatch t r); [by intros [= <- _]|].
  unfold buildPrimaryKey, bind, lift.
  destruct (owner_id _ _ _) as [e0|o] eqn:Ho;
    [intros [= <- _]; by eapply owner_id_error_status|].
  unfold try_catch, bind. settle.
  destruct (faults w) as [|[e0|] fs]; cbn [andb];
    try (destruct (String.eqb _ _); by intros [= <- _]);
    (destruct (bool_decide _); settle; [by intros [= <- _] | done]).
Qed.

Lemma searchResources_error_status t sp uuid w e w' :
  searchResources t sp uuid w = (inl e, w') → statusCode e = None.
Proof.
  unfold searchResources.
  destruct (negb (validateResourceType t)); [by intros [= <- _]|].
  unfold try_catch, bind. settle.
  destruct (faults w) as [|[e0|] fs]; settle; try (destruct (query_valid _); settle);
    try done; by intros [= <- _].
Qed.

Lemma getResource_error_status t id w e w' :
  getResource t id w = (inl e, w') →
  statusCode e = None ∨ (statusCode e = Some 404 ∧ current t id w = None).
Proof.
  unfold getResource, current.
  destruct (negb (validateResourceType t)); [intros [= <- _]; by left|].
  destruct (String.eqb id ""); [intros [= <- _]; by left|].
  unfold buildPrimaryKey, try_catch, bind. settle.
  destruct (faults w) as [|[e0|] fs]; settle;
    try (intros [= <- _]; by left);
    (destruct (table w !! _) as [it|]; settle; [done|]); intros [= <- _]; by right.
Qed.

Lemma deleteResource_error_status t id now w e w' :
  deleteResource t id now w = (inl e, w') →
  statusCode e = None ∨ (statusCode e = Some 404 ∧ current t id w = None).
Proof.
  unfold deleteResource, current.
  destruct (negb (validateResourceType t)); [intros [= <- _]; by left|].
  destruct (String.eqb id ""); [intros [= <- _]; by left|].
  unfold buildPrimaryKey, try_catch, bind. fate.
  destruct (faults w) as [|[e0|] fs] eqn:Hf.
  - destruct (table w !! _) as [it|]; settle; [by rewrite Hf|]. intros [= <- _]; by right.
  - settle. intros [= <- _]; by left.
  - destruct (table w !! _) as [it|]; settle; [|intros [= <- _]; by right].
    destruct fs as [|[e1|] fs]; settle; try done. intros [= <- _]; by left.
Qed.

Lemma updateResource_error_status t id r now w e w' :
  updateResource t id r now w = (inl e, w') →
  statusCode e = None ∨ (statusCode e = Some 404 ∧ current t id w = None).
Proof.
  unfold updateResource, current.
  destruct (negb (validateResourceType t)); [intros [= <- _]; by left|].
  destruct (String.eqb id ""); [intros [= <- _]; by left|].
  destruct r as [r|]; [|intros [= <- _]; by left].
  destruct (type_mismatch t r); [intros [= <- _]; by left|].
  unfold buildPrimaryKey, bind at 1, try_catch at 1, bind at 1. fate.
  destruct (faults w) as [|[e0|] fs] eqn:Hf.
  - destruct (table w !! _) as [cur|] eqn:Hk; settle; [|intros [= <- _]; by right].
    unfold bind at 1, lift.
    destruct (owner_id t id r) as [e0|o] eqn:Ho;
      [intros [= <- _]; left; by eapply owner_id_error_status|].
    unfold try_catch, bind. settle. rewrite Hf. settle. rewrite ?Hf. by settle.
  - settle. intros [= <- _]; by left.
  - destruct (table w !! _) as [cur|] eqn:Hk; settle; [|intros [= <- _]; by right].
    unfold bind at 1, lift.
    destruct (owner_id t id r) as [e0|o] eqn:Ho;
      [intros [= <- _]; left; by eapply owner_id_error_status|].
    unfold try_catch, bind. settle.
    destruct fs as [|[e1|] fs]; settle; try done; try (intros [= <- _]; by left).
    destruct fs as [|[e1|] fs]; settle; try done. intros [= <- _]; by left.
Qed.

Lemma split_slash_not_nil s : Http.split_slash s ≠ [].
Proof.
  destruct s as [|c s]; cbn; [done|].
  destruct (Ascii.eqb c "/"); [done|]. by destruct (Http.split_slash s).
Qed.

Lemma split_slash_no_slash s : Js.after_slash s = None → Http.split_slash s = [s].
Proof.
  induction s as [|c s IH]; cbn; [done|].
  destruct (Ascii.eqb c "/"); [done|]. intros H. by rewrite IH.
Qed.

Lemma split_slash_part s rest :
  Js.after_slash s = None →
  Http.split_slash (s +:+ "/" +:+ rest) = s :: Http.split_slash rest.
Proof.
  induction s as [|c s IH]; [done|].
  change (String c s +:+ ?x) with (String c (s +:+ x)).
  cbn [Http.split_slash Js.after_slash].
  destruct (Ascii.eqb c "/"); [done|]. intros H. by rewrite IH.
Qed.

Lemma validTypes_plain t :
  validateResourceType t = true → Js.after_slash t = None ∧ t ≠ "".
Proof.
  intros [->|[->|[->|[->|[->| ->]]]]]%validTypes_cases; by split.
Qed.

Lemma path_parts_kind t :
  Js.after_slash t = None → t ≠ "" →
  Http.path_parts ("/fhir/" +:+ t) = ["fhir"; t] ∧
  Http.path_parts ("/fhir/" +:+ t +:+ "/") = ["fhir"; t].
Proof.
  intros Ht Htn. unfold Http.path_parts.
  change ("/fhir/" +:+ ?x) with ("" +:+ "/" +:+ ("fhir" +:+ "/" +:+ x)).
  change (t +:+ "/") with (t +:+ "/" +:+ "").
  rewrite !(split_slash_part "") by done.
  rewrite !(split_slash_part "fhir") by done.
  rewrite !(split_slash_part t) by done.
  rewrite !split_slash_no_slash by done.
  cbn [Http.split_slash].
  rewrite !filter_cons, !filter_nil.
  repeat (case_decide; try done).
Qed.

Lemma path_parts_kind_id t id :
  Js.after_slash t = None → t ≠ "" → Js.after_slash id = None → id ≠ "" →
  Http.path_parts ("/fhir/" +:+ t +:+ "/" +:+ id) = ["fhir"; t; id] ∧
  Http.path_parts ("/fhir/" +:+ t +:+ "/" +:+ id +:+ "/") = ["fhir"; t; id].
Proof.
  intros Ht Htn Hid Hidn. unfold Http.path_parts.
  change ("/fhir/" +:+ ?x) with ("" +:+ "/" +:+ ("fhir" +:+ "/" +:+ x)).
  change (id +:+ "/") with (id +:+ "/" +:+ "").
  rewrite !(split_slash_part "") by done.
  rewrite !(split_slash_part "fhir") by done.
  rewrite !(split_slash_part t), !(split_slash_part id) by done.
  rewrite !split_slash_no_slash by done.
  cbn [Http.split_slash].
  rewrite !filter_cons, !filter_nil.
  repeat (case_decide; try done).
Qed.

(** X17.  The path of a request is read by its non-empty parts.  For a kind
    and an id that are non-empty and have no slash, the path /fhir/kind/id
    has exactly the parts fhir, kind, id, and /fhir/kind the parts fhir,
    kind; a trailing slash changes nothing. *)
Theorem path_parts_of_resource t id :
  Js.after_slash t = None → t ≠ "" → Js.after_slash id = None → id ≠ "" →
  Http.path_parts ("/fhir/" +:+ t +:+ "/" +:+ id) = ["fhir"; t; id] ∧
  Http.path_parts ("/fhir/" +:+ t +:+ "/" +:+ id +:+ "/") = ["fhir"; t; id] ∧
  Http.path_parts ("/fhir/" +:+ t) = ["fhir"; t] ∧
  Http.path_parts ("/fhir/" +:+ t +:+ "/") = ["fhir"; t].
Proof.
  intros Ht Htn Hid Hidn.
  destruct (path_parts_kind_id t id Ht Htn Hid Hidn) as [H1 H2].
  destruct (path_parts_kind t Ht Htn) as [H3 H4].
  by repeat split.
Qed.

Lemma path_parts_of_resource_witness :
  Http.path_parts ("/fhir/" +:+ "Patient" +:+ "/" +:+ "p1") = ["fhir"; "Patient"; "p1"].
Proof.
  apply (path_parts_of_resource "Patient" "p1").
  - vm_compute; reflexivity.
  - intros H; discriminate H.
  - vm_compute; reflexivity.
  - intros H; discriminate H.
Defined.

Lemma status_of_error_cases (e : Exn) (P : Prop) :
  statusCode e = None ∨ (statusCode e = Some 404 ∧ P) →
  (default 500 (statusCode e) = 500 ∧ statusCode e = None) ∨
  (default 500 (statusCode e) = 404 ∧ P).
Proof. intros [->|[-> HP]]; [left|right]; by split. Qed.

(** X18.  The handler always answers.  Given that [JSON.parse] throws errors
    without a status code, every request gets a response, and its status is
    one of 200, 201, 400, 404, 405, 500.  A 404 means that the request was a
    GET, PUT or DELETE with an id in the path and that the table has no row
    for that kind and id; a 400 or a 405 leaves the world untouched; 201 is
    the answer to a POST only. *)
Theorem handler_responds parse event requestId now uuid w :
  (∀ s e, parse s = inl e → statusCode e = None) →
  ∃ resp w',
    Http.handler parse event requestId now uuid w = (inr resp, w') ∧
    Http.resp_statusCode resp ∈ [200; 201; 400; 404; 405; 500] ∧
    (Http.resp_statusCode resp = 404 →
       Http.httpMethod event ∈ ["GET"; "PUT"; "DELETE"] ∧
       ∃ id, Http.path_parts (Http.path event) !! 2%nat = Some id ∧
             current (Js.template (Http.path_parts (Http.path event) !! 1%nat)) id w = None) ∧
    (Http.resp_statusCode resp = 400 ∨ Http.resp_statusCode resp = 405 → w' = w) ∧
    (Http.resp_statusCode resp = 201 → Http.httpMethod event = "POST").
Proof.
  intros Hparse. unfold Http.handler, try_catch.
  set (rt := Js.template (Http.path_parts (Http.path event) !! 1%nat)).
  destruct (String.eqb (Http.httpMethod event) "GET") eqn:Hget.
  { apply String.eqb_eq in Hget. rewrite Hget. change (String.eqb "GET" "POST") with false.
    destruct (Http.path_parts (Http.path event) !! 2%nat) as [id|] eqn:Hid; unfold bind.
    - destruct (getResource rt id w) as [[e|res] w1] eqn:Hg; cbn [ret].
      + apply getResource_error_status, status_of_error_cases in Hg as [[Hs _]|[Hs Hc]];
          eexists _, _; (split; [reflexivity|]); cbn [Http.resp_statusCode]; rewrite Hs;
          (split; [set_solver|]); (split; [|by split; [intros [|]|]]); try done.
        intros _. split; [set_solver|]. by exists id.
      + eexists _, _. split; [reflexivity|]. cbn [Http.resp_statusCode].
        split; [set_solver|]. by repeat split; try intros [|].
    - destruct (searchResources rt _ uuid w) as [[e|res] w1] eqn:Hg; cbn [ret].
      + apply searchResources_error_status in Hg.
        eexists _, _. split; [reflexivity|]. cbn [Http.resp_statusCode]. rewrite Hg. cbn.
        split; [set_solver|]. by repeat split; try intros [|].
      + eexists _, _. split; [reflexivity|]. cbn [Http.resp_statusCode].
        split; [set_solver|]. by repeat split; try intros [|]. }
  destruct (String.eqb (Http.httpMethod event) "POST") eqn:Hpost.
  { apply String.eqb_eq in Hpost. unfold bind, lift.
    destruct (parse (Http.body_text event)) as [e|createBody] eqn:Hp; cbn [ret].
    - apply Hparse in Hp.
      eexists _, _. split; [reflexivity|]. cbn [Http.resp_statusCode]. rewrite Hp. cbn.
      split; [set_solver|]. by repeat split; try intros [|].
    - destruct (createResource rt createBody now uuid w) as [[e|res] w1] eqn:Hg; cbn [ret].
      + apply createResource_error_status in Hg.
        eexists _, _. split; [reflexivity|]. cbn [Http.resp_statusCode]. rewrite Hg. cbn.
        split; [set_solver|]. by repeat split; try intros [|].
      + eexists _, _. split; [reflexivity|]. cbn [Http.resp_statusCode].
        split; [set_solver|]. by repeat split; try intros [|]. }
  destruct (String.eqb (Http.httpMethod event) "PUT") eqn:Hput.
  { apply String.eqb_eq in Hput. destruct (Http.path_parts (Http.path event) !! 2%nat) as [id|] eqn:Hid; unfold bind, lift.
    - destruct (parse (Http.body_text event)) as [e|updateBody] eqn:Hp; cbn [ret].
      + apply Hparse in Hp.
        eexists _, _. split; [reflexivity|]. cbn [Http.resp_statusCode]. rewrite Hp. cbn.
        split; [set_solver|]. by repeat split; try intros [|].
      + destruct (updateResource rt id updateBody now w) as [[e|res] w1] eqn:Hg; cbn [ret].
        * apply updateResource_error_status, status_of_error_cases in Hg as [[Hs _]|[Hs Hc]];
            eexists _, _; (split; [reflexivity|]); cbn [Http.resp_statusCode]; rewrite Hs;
            (split; [set_solver|]); (split; [|by split; [intros [|]|]]); try done.
          intros _. rewrite Hput. split; [set_solver|]. by exists id.
        * eexists _, _. split; [reflexivity|]. cbn [Http.resp_statusCode].
          split; [set_solver|]. by repeat split; try intros [|].
    - eexists _, _. split; [reflexivity|]. cbn [Http.resp_statusCode].
      split; [set_solver|]. by repeat split. }
  destruct (String.eqb (Http.httpMethod event) "DELETE") eqn:Hdel.
  { apply String.eqb_eq in Hdel. destruct (Http.path_parts (Http.path event) !! 2%nat) as [id|] eqn:Hid; unfold bind.
    - destruct (deleteResource rt id now w) as [[e|res] w1] eqn:Hg; cbn [ret].
      + apply deleteResource_error_status, status_of_error_cases in Hg as [[Hs _]|[Hs Hc]];
          eexists _, _; (split; [reflexivity|]); cbn [Http.resp_statusCode]; rewrite Hs;
          (split; [set_solver|]); (split; [|by split; [intros [|]|]]); try done.
        intros _. rewrite Hdel. split; [set_solver|]. by exists id.
      + eexists _, _. split; [reflexivity|]. cbn [Http.resp_statusCode].
        split; [set_solver|]. by repeat split; try intros [|].
    - eexists _, _. split; [reflexivity|]. cbn [Http.resp_statusCode].
      split; [set_solver|]. by repeat split. }
  eexists _, _. split; [reflexivity|]. cbn [Http.resp_statusCode].
  split; [set_solver|]. by repeat split.
Qed.

Lemma demo_parse_errors s e : HttpDemo.parse s = inl e → statusCode e = None.
Proof. unfold HttpDemo.parse. destruct (String.eqb s "{}"); [done|]. by intros [= <-]. Qed.

Lemma handler_responds_witness :
  ∃ resp w',
    Http.handler HttpDemo.parse (Http.mkEvent "PATCH" "/fhir/Patient/p1" None None)
      "req-1" Scenario.t2 "uuid-2" Scenario.created = (inr resp, w') ∧
    Http.resp_statusCode resp ∈ [200; 201; 400; 404; 405; 500].
Proof.
  destruct (handler_responds HttpDemo.parse (Http.mkEvent "PATCH" "/fhir/Patient/p1" None None)
              "req-1" Scenario.t2 "uuid-2" Scenario.created demo_parse_errors)
    as (resp & w' & H1 & H2 & _).
  by exists resp, w'.
Defined.

Lemma handler_paths t id :
  validateResourceType t = true → Js.after_slash id = None → id ≠ "" →
  Http.path_parts ("/fhir/" +:+ t +:+ "/" +:+ id) = ["fhir"; t; id] ∧
  Http.path_parts ("/fhir/" +:+ t) = ["fhir"; t].
Proof.
  intros [Ht Htn]%validTypes_plain Hid Hidn.
  destruct (path_parts_kind_id t id Ht Htn Hid Hidn) as [H1 _].
  destruct (path_parts_kind t Ht Htn) as [H3 _]. by split.
Qed.

Lemma path_parts_long t a rest :
  Js.after_slash t = None → t ≠ "" → Js.after_slash a = None → a ≠ "" →
  Http.path_parts ("/fhir/" +:+ t +:+ "/" +:+ a +:+ "/" +:+ rest)
  = "fhir" :: t :: a :: Http.path_parts rest.
Proof.
  intros Ht Htn Ha Han. unfold Http.path_parts.
  change ("/fhir/" +:+ ?x) with ("" +:+ "/" +:+ ("fhir" +:+ "/" +:+ x)).
  rewrite (split_slash_part "") by done.
  rewrite (split_slash_part "fhir") by done.
  rewrite (split_slash_part t), (split_slash_part a) by done.
  rewrite !filter_cons.
  repeat (case_decide; try done).
Qed.

(** The handler reads the path through its second and third part only. *)
Lemma handler_path_parts parse method path path' query text requestId now uuid w :
  Http.path_parts path !! 1%nat = Http.path_parts path' !! 1%nat →
  Http.path_parts path !! 2%nat = Http.path_parts path' !! 2%nat →
  Http.handler parse (Http.mkEvent method path query text) requestId now uuid w
  = Http.handler parse (Http.mkEvent method path' query text) requestId now uuid w.
Proof.
  intros H1 H2. unfold Http.handler, Http.body_text.
  cbn [Http.httpMethod Http.path Http.queryStringParameters Http.body].
  by rewrite H1, H2.
Qed.

(** X19.  Create over HTTP, then read it back.  On a service that serves its
    calls, a POST to /fhir/kind whose body is not empty and parses to a
    valid payload, for an identity that is not stored, is answered 201 with
    the stamped resource at version "1".  When the id it got is not empty
    and has no slash, a GET of /fhir/kind/id right after is answered 200
    with that same resource.  When the id has a slash the path cannot
    address it: a GET of /fhir/kind/a/rest is answered as the GET of
    /fhir/kind/a. *)
Theorem post_then_get parse t r text now uuid requestId w :
  validateResourceType t = true → valid_payload t r = true → faults w = [] →
  text ≠ "" → parse text = inr (Some r) →
  current t (created_id r uuid) w = None →
  ∃ res w',
    Http.handler parse (Http.mkEvent "POST" ("/fhir/" +:+ t) None (Some text))
      requestId now uuid w
      = (inr (Http.mkResponse 201 Http.fhir_headers (Http.OfResource res)), w') ∧
    res_id res = Some (created_id r uuid) ∧ versionId_of res = Some "1" ∧
    (Js.after_slash (created_id r uuid) = None → created_id r uuid ≠ "" →
     ∀ requestId' now' uuid' query text',
       Http.handler parse
         (Http.mkEvent "GET" ("/fhir/" +:+ t +:+ "/" +:+ created_id r uuid) query text')
         requestId' now' uuid' w'
       = (inr (Http.mkResponse 200 Http.fhir_headers (Http.OfResource res)), w')) ∧
    (∀ a rest, created_id r uuid = a +:+ "/" +:+ rest → Js.after_slash a = None → a ≠ "" →
     ∀ requestId' now' uuid' query text' w0,
       Http.handler parse
         (Http.mkEvent "GET" ("/fhir/" +:+ t +:+ "/" +:+ created_id r uuid) query text')
         requestId' now' uuid' w0
       = Http.handler parse (Http.mkEvent "GET" ("/fhir/" +:+ t +:+ "/" +:+ a) query text')
           requestId' now' uuid' w0).
Proof.
  intros Ht Hr Hf Htext Hparse Hfree.
  destruct (validTypes_plain t Ht) as [Hts Htn].
  destruct (path_parts_kind t Hts Htn) as [Hp2 _].
  destruct (createResource_served t r now uuid w Ht Hr Hf Hfree) as (it & Hc & Hres & _).
  fold (created_id r uuid) in Hc.
  eexists _, _. split; [|split; [|split; [|split]]].
  - unfold Http.handler, try_catch. cbn [Http.httpMethod Http.path].
    change (String.eqb "POST" "GET") with false. change (String.eqb "POST" "POST") with true.
    cbv iota. rewrite Hp2. cbn [lookup list_lookup Js.template default from_option].
    unfold Http.body_text. cbn [Http.body]. unfold Js.truthy.
    rewrite (eqb_empty_false _ Htext). cbn [negb default from_option].
    change (Datatypes.id ?x) with x.
    unfold bind at 1, lift. rewrite Hparse. unfold bind. rewrite Hc. reflexivity.
  - reflexivity.
  - reflexivity.
  - intros Hslash Hrid requestId' now' uuid' query text'.
    destruct (path_parts_kind_id t _ Hts Htn Hslash Hrid) as [Hp3 _].
    unfold Http.handler, try_catch. cbn [Http.httpMethod Http.path].
    change (String.eqb "GET" "GET") with true. change (String.eqb "GET" "POST") with false.
    cbv iota. rewrite Hp3. cbn [lookup list_lookup Js.template default from_option].
    change (Datatypes.id ?x) with x.
    unfold bind. rewrite getResource_served by done.
    unfold current. cbn [table]. rewrite lookup_insert_eq. by rewrite Hres.
  - intros a rest Hid Ha Han requestId' now' uuid' query text' w0.
    apply handler_path_parts; rewrite Hid, (path_parts_long t a rest) by done;
      by rewrite (proj1 (path_parts_kind_id t a Hts Htn Ha Han)).
Qed.

Lemma post_then_get_witness :
  ∃ res w',
    Http.handler HttpDemo.parse (Http.mkEvent "POST" ("/fhir/" +:+ "Patient") None (Some "{}"))
      "req-1" Scenario.t1 "uuid-1" (initial [])
      = (inr (Http.mkResponse 201 Http.fhir_headers (Http.OfResource res)), w') ∧
    res_id res = Some "uuid-1" ∧
    Http.handler HttpDemo.parse (Http.mkEvent "GET" "/fhir/Patient/uuid-1" None None)
      "req-2" Scenario.t2 "uuid-2" w'
    = (inr (Http.mkResponse 200 Http.fhir_headers (Http.OfResource res)), w').
Proof.
  destruct (post_then_get HttpDemo.parse "Patient" (mkResource None None None ∅) "{}"
              Scenario.t1 "uuid-1" "req-1" (initial []))
    as (res & w' & Hpost & Hid & _ & Hget & _).
  - vm_compute; reflexivity.
  - vm_compute; reflexivity.
  - vm_compute; reflexivity.
  - intros H; discriminate H.
  - vm_compute; reflexivity.
  - vm_compute; reflexivity.
  - exists res, w'. split; [exact Hpost|]. split; [exact Hid|].
    apply (Hget eq_refl).
    intros H; discriminate H.
Defined.

(** X20.  Delete over HTTP does not make the resource unavailable.  On a
    service that serves its calls, for a stored identity of a supported kind
    whose id is not empty and has no slash, and whose current row has the
    version [v], a DELETE of /fhir/kind/id is answered 200 with the message
    "Resource deleted successfully", and a GET of the same path right after
    is answered 200, not 404, with the resource carrying the deletion marker
    at version [v + 1]. *)
Theorem delete_then_get parse t id now requestId uuid w cur v :
  validateResourceType t = true → Js.after_slash id = None → id ≠ "" →
  faults w = [] → current t id w = Some cur → version_of cur = Some v →
  ∃ w' res,
    Http.handler parse (Http.mkEvent "DELETE" ("/fhir/" +:+ t +:+ "/" +:+ id) None None)
      requestId now uuid w
      = (inr (Http.mkResponse 200 Http.fhir_headers
                (Http.OfMessage "Resource deleted successfully")), w') ∧
    marked_deleted res = true ∧
    versionId_of res = Some (Js.String_of_number (Some (v + 1))) ∧
    ∀ requestId' now' uuid' query text',
      Http.handler parse (Http.mkEvent "GET" ("/fhir/" +:+ t +:+ "/" +:+ id) query text')
        requestId' now' uuid' w'
      = (inr (Http.mkResponse 200 Http.fhir_headers (Http.OfResource res)), w').
Proof.
  intros Ht Hslash Hid Hf Hcur Hv.
  destruct (handler_paths t _ Ht Hslash Hid) as [Hp3 _].
  destruct (delete_tombstones_current t id now w cur v Ht Hid Hf Hcur Hv)
    as (w' & it & Hd & Hc' & _ & Hver & Hm & Hget).
  exists w', (item_resource it). split; [|split; [done|split]].
  - unfold Http.handler, try_catch. cbn [Http.httpMethod Http.path].
    change (String.eqb "DELETE" "GET") with false.
    change (String.eqb "DELETE" "POST") with false.
    change (String.eqb "DELETE" "PUT") with false.
    change (String.eqb "DELETE" "DELETE") with true.
    cbv iota. rewrite Hp3. cbn [lookup list_lookup Js.template default from_option].
    change (Datatypes.id ?x) with x.
    unfold bind. by rewrite Hd.
  - rewrite (deleteResource_served t id now w cur Ht Hid Hf Hcur) in Hd.
    injection Hd as <-. unfold current in Hc'. cbn [table] in Hc'.
    rewrite lookup_insert_eq in Hc'. injection Hc' as <-. exact Hver.
  - intros requestId' now' uuid' query text'.
    unfold Http.handler, try_catch. cbn [Http.httpMethod Http.path].
    change (String.eqb "GET" "GET") with true. change (String.eqb "GET" "POST") with false.
    cbv iota. rewrite Hp3. cbn [lookup list_lookup Js.template default from_option].
    change (Datatypes.id ?x) with x.
    unfold bind. by rewrite Hget.
Qed.

Lemma delete_then_get_witness :
  ∃ w' res,
    Http.handler HttpDemo.parse
      (Http.mkEvent "DELETE" ("/fhir/" +:+ "Patient" +:+ "/" +:+ "p1") None None)
      "req-1" Scenario.t3 "uuid-3" Scenario.updated
      = (inr (Http.mkResponse 200 Http.fhir_headers
                (Http.OfMessage "Resource deleted successfully")), w') ∧
    marked_deleted res = true ∧
    versionId_of res = Some (Js.String_of_number (Some (2 + 1))) ∧
    ∀ requestId' now' uuid' query text',
      Http.handler HttpDemo.parse
        (Http.mkEvent "GET" ("/fhir/" +:+ "Patient" +:+ "/" +:+ "p1") query text')
        requestId' now' uuid' w'
      = (inr (Http.mkResponse 200 Http.fhir_headers (Http.OfResource res)), w').
Proof.
  eapply (delete_then_get HttpDemo.parse "Patient" "p1" Scenario.t3 "req-1" "uuid-3"
            Scenario.updated).
  - vm_compute; reflexivity.
  - vm_compute; reflexivity.
  - intros H; discriminate H.
  - vm_compute; reflexivity.
  - vm_compute; reflexivity.
  - vm_compute; reflexivity.
Defined.

(** X21.  Requests the class refuses are answered 500, not 4xx.  For a
    kind outside the supported list that is not empty and has no slash,
    whatever the service does, the world is untouched and the answer is 500
    with "Unsupported resource type: kind": to a GET or POST of /fhir/kind
    and to a GET, POST, PUT or DELETE of /fhir/kind/id with an id that is
    not empty and has no slash, provided for POST and PUT that the body
    parses.  And on a service that serves its calls, a POST to /fhir/kind of
    a supported kind, whose body is not empty and parses to a valid payload
    that names a stored id, is answered 500 with "Resource kind/id already
    exists", the world staying as it was. *)
Theorem caller_errors_answer_500 parse requestId now uuid w :
  (∀ k method query text,
     validateResourceType k = false → Js.after_slash k = None → k ≠ "" →
     method ∈ ["GET"; "POST"] →
     (method = "POST" →
      ∃ r, parse (Http.body_text (Http.mkEvent method ("/fhir/" +:+ k) query text)) = inr r) →
     Http.handler parse (Http.mkEvent method ("/fhir/" +:+ k) query text)
       requestId now uuid w
     = (inr (Http.mkResponse 500 Http.json_headers
               (Http.OfError ("Unsupported resource type: " +:+ k) (Some requestId))), w)) ∧
  (∀ k id method query text,
     validateResourceType k = false → Js.after_slash k = None → k ≠ "" →
     Js.after_slash id = None → id ≠ "" →
     method ∈ ["GET"; "POST"; "PUT"; "DELETE"] →
     (method = "POST" ∨ method = "PUT" →
      ∃ r, parse (Http.body_text
                    (Http.mkEvent method ("/fhir/" +:+ k +:+ "/" +:+ id) query text)) = inr r) →
     Http.handler parse (Http.mkEvent method ("/fhir/" +:+ k +:+ "/" +:+ id) query text)
       requestId now uuid w
     = (inr (Http.mkResponse 500 Http.json_headers
               (Http.OfError ("Unsupported resource type: " +:+ k) (Some requestId))), w)) ∧
  (∀ t id r text query cur,
     validateResourceType t = true → valid_payload t r = true → faults w = [] →
     text ≠ "" → parse text = inr (Some r) → res_id r = Some id → id ≠ "" →
     current t id w = Some cur →
     Http.handler parse (Http.mkEvent "POST" ("/fhir/" +:+ t) query (Some text))
       requestId now uuid w
     = (inr (Http.mkResponse 500 Http.json_headers
               (Http.OfError ("Resource " +:+ t +:+ "/" +:+ id +:+ " already exists")
                  (Some requestId))), w)).
Proof.
  split; [|split].
  - intros k method query text Hk Hks Hkn Hm Hparse.
    destruct (path_parts_kind k Hks Hkn) as [Hp2 _].
    destruct (unsupported_kind_throws k w Hk) as (Hc & _ & _ & _ & Hs).
    unfold Http.handler, try_catch. cbn [Http.httpMethod Http.path] in *.
    rewrite Hp2. cbn [lookup list_lookup Js.template default from_option].
    change (Datatypes.id ?x) with x.
    repeat (apply elem_of_cons in Hm as [->|Hm]);
      [..|by apply not_elem_of_nil in Hm].
    + change (String.eqb "GET" "GET") with true. cbv iota. unfold bind. by rewrite Hs.
    + destruct (Hparse eq_refl) as [r Hr].
      change (String.eqb "POST" "GET") with false. change (String.eqb "POST" "POST") with true.
      cbv iota. unfold bind at 1, lift. rewrite Hr. unfold bind. by rewrite Hc.
  - intros k id method query text Hk Hks Hkn Hids Hidn Hm Hparse.
    destruct (path_parts_kind_id k id Hks Hkn Hids Hidn) as [Hp3 _].
    destruct (unsupported_kind_throws k w Hk) as (Hc & Hg & Hu & Hd & _).
    unfold Http.handler, try_catch. cbn [Http.httpMethod Http.path] in *.
    rewrite Hp3. cbn [lookup list_lookup Js.template default from_option].
    change (Datatypes.id ?x) with x.
    repeat (apply elem_of_cons in Hm as [->|Hm]);
      [..|by apply not_elem_of_nil in Hm].
    + change (String.eqb "GET" "GET") with true. cbv iota. unfold bind. by rewrite Hg.
    + destruct (Hparse (or_introl eq_refl)) as [r Hr].
      change (String.eqb "POST" "GET") with false. change (String.eqb "POST" "POST") with true.
      cbv iota. unfold bind at 1, lift. rewrite Hr. unfold bind. by rewrite Hc.
    + destruct (Hparse (or_intror eq_refl)) as [r Hr].
      change (String.eqb "PUT" "GET") with false. change (String.eqb "PUT" "POST") with false.
      change (String.eqb "PUT" "PUT") with true.
      cbv iota. unfold bind at 1, lift. rewrite Hr. unfold bind. by rewrite Hu.
    + change (String.eqb "DELETE" "GET") with false.
      change (String.eqb "DELETE" "POST") with false.
      change (String.eqb "DELETE" "PUT") with false.
      change (String.eqb "DELETE" "DELETE") with true.
      cbv iota. unfold bind. by rewrite Hd.
  - intros t id r text query cur Ht Hr Hf Htext Hparse Hrid Hid Hcur.
    destruct (validTypes_plain t Ht) as [Hts Htn].
    destruct (path_parts_kind t Hts Htn) as [Hp2 _].
    unfold Http.handler, try_catch. cbn [Http.httpMethod Http.path].
    change (String.eqb "POST" "GET") with false. change (String.eqb "POST" "POST") with true.
    cbv iota. rewrite Hp2. cbn [lookup list_lookup Js.template default from_option].
    unfold Http.body_text. cbn [Http.body]. unfold Js.truthy at 1.
    rewrite (eqb_empty_false _ Htext). cbn [negb default from_option].
    change (Datatypes.id ?x) with x.
    unfold bind at 1, lift. rewrite Hparse. unfold bind.
    by rewrite (createResource_exists t id r now uuid w cur Ht Hid Hr Hrid Hf Hcur).
Qed.

Lemma caller_errors_answer_500_witness :
  Http.handler HttpDemo.parse
    (Http.mkEvent "DELETE" ("/fhir/" +:+ "Medication" +:+ "/" +:+ "m1") None None)
    "req-1" Scenario.t2 "uuid-2" Faulty.throttled
  = (inr (Http.mkResponse 500 Http.json_headers
            (Http.OfError ("Unsupported resource type: " +:+ "Medication") (Some "req-1"))),
     Faulty.throttled).
Proof.
  eapply (proj1 (proj2 (caller_errors_answer_500 HttpDemo.parse "req-1" Scenario.t2 "uuid-2"
                          Faulty.throttled)) "Medication" "m1" "DELETE").
  - vm_compute; reflexivity.
  - vm_compute; reflexivity.
  - intros H; discriminate H.
  - vm_compute; reflexivity.
  - intros H; discriminate H.
  - set_solver.
  - intros [H|H]; discriminate H.
Defined.

(** * The logger *)

Lemma length_app (a b : string) : Js.length (a +:+ b) = (Js.length a + Js.length b)%nat.
Proof.
  induction a as [|c a IH]; [done|].
  change (String c a +:+ b) with (String c (a +:+ b)).
  cbn [Js.length]. rewrite IH. lia.
Qed.

Lemma units_continuation n :
  (n < 64)%N → Js.units (Ascii.ascii_of_N (128 + n)) = 0%nat.
Proof.
  intros Hn. unfold Js.units, Js.byte.
  rewrite Ascii.N_ascii_embedding by lia.
  destruct (N.ltb_spec (128 + n) 128); [lia|].
  destruct (N.ltb_spec (128 + n) 192); [done|lia].
Qed.

Lemma length_high_surrogate c s : Js.length (Js.high_surrogate c s) = 1%nat.
Proof.
  unfold Js.high_surrogate. cbn [Js.length].
  rewrite !units_continuation by (apply N.mod_lt; lia).
  reflexivity.
Qed.

Lemma substring_0_length n s : (Js.length (Js.substring_0 n s) ≤ n)%nat.
Proof.
  revert n. induction s as [|c s IH]; intros n; [cbn; lia|].
  cbn [Js.substring_0].
  destruct (Js.units c) as [|[|u]] eqn:Hu.
  - cbn [Js.length]. rewrite Hu. apply IH.
  - destruct n as [|n]; [cbn; lia|]. cbn [Js.length]. rewrite Hu. specialize (IH n). lia.
  - assert (u = 0%nat) as ->.
    { unfold Js.units in Hu. repeat case_match; simplify_eq; done. }
    destruct n as [|[|n]]; [cbn; lia | |].
    + rewrite length_high_surrogate. lia.
    + cbn [Js.length]. rewrite Hu. specialize (IH n). lia.
Qed.

(** X22.  What a masked id shows, counted in UTF-16 code units as the code
    counts.  The mask is never longer than seven units; every id of at most
    four units gets the same mask, so not even its length shows; and two
    longer ids with the same first four units get the same mask, so nothing
    past the fourth unit shows. *)
Theorem maskResourceId_hides id1 id2 :
  (Js.length (Log.maskResourceId id1) ≤ 7)%nat ∧
  ((Js.length id1 ≤ 4)%nat → (Js.length id2 ≤ 4)%nat →
     Log.maskResourceId id1 = Log.maskResourceId id2) ∧
  ((4 < Js.length id1)%nat → (4 < Js.length id2)%nat →
     Js.substring_0 4 id1 = Js.substring_0 4 id2 →
     Log.maskResourceId id1 = Log.maskResourceId id2).
Proof.
  unfold Log.maskResourceId. split; [|split].
  - destruct (Nat.leb_spec (Js.length id1) 4).
    + change (Js.length "***") with 3%nat. lia.
    + rewrite length_app. pose proof (substring_0_length 4 id1).
      change (Js.length "***") with 3%nat. lia.
  - intros H1 H2. by rewrite !(proj2 (Nat.leb_le _ _)) by done.
  - intros H1 H2 Heq. rewrite !(proj2 (Nat.leb_gt _ _)) by done. by rewrite Heq.
Qed.

Lemma maskResourceId_hides_witness :
  Log.maskResourceId "123e4567-e89b-12d3" = Log.maskResourceId "123e-another-id".
Proof.
  apply (maskResourceId_hides "123e4567-e89b-12d3" "123e-another-id").
  - vm_compute. lia.
  - vm_compute. lia.
  - vm_compute; reflexivity.
Defined.

(** The mask on ids outside ASCII: three accented letters are three units
    and are hidden altogether; of five, four show; a character of four
    bytes is two units, and a cut through it keeps its high surrogate
    (here D83D, the bytes 237 160 189). *)
Example maskResourceId_examples :
  Log.maskResourceId "ééé" = "***" ∧
  Log.maskResourceId "ééééé" = "éééé***" ∧
  Js.length "😀" = 2%nat ∧
  Log.maskResourceId "😀😀😀" = "😀😀***" ∧
  Log.maskResourceId "abc😀e"
    = "abc" +:+ String "237" (String "160" (String "189" EmptyString)) +:+ "***".
Proof. repeat split; vm_compute; reflexivity. Qed.

Lemma log_is_Some logLevel env now level levelName message meta :
  is_Some (Log.log logLevel env now level levelName message meta)
  ↔ Log.level_number level ≤ Log.level_number logLevel.
Proof.
  unfold Log.log. destruct (Z.ltb_spec (Log.level_number logLevel) (Log.level_number level)).
  - split; [by intros [? ?] | lia].
  - split; [done | by eexists].
Qed.

(** X23.  Which entries are printed.  With the level the constructor reads
    from LOG_LEVEL, an error entry is always printed; a debug entry is
    printed exactly when LOG_LEVEL, in upper case, is DEBUG; an info entry
    exactly when it is neither WARN nor ERROR; a warn entry exactly when it
    is not ERROR.  An unset or unknown LOG_LEVEL behaves as INFO. *)
Theorem log_level_filter env now message meta :
  let lvl := Log.logLevel_of env in
  let upper := Log.toUpperCase <$> Log.LOG_LEVEL env in
  is_Some (Log.error lvl env now message meta) ∧
  (is_Some (Log.debug lvl env now message meta) ↔ upper = Some "DEBUG") ∧
  (is_Some (Log.info lvl env now message meta) ↔ upper ≠ Some "WARN" ∧ upper ≠ Some "ERROR") ∧
  (is_Some (Log.warn lvl env now message meta) ↔ upper ≠ Some "ERROR").
Proof.
  cbn zeta. unfold Log.error, Log.debug, Log.info, Log.warn.
  rewrite !log_is_Some. unfold Log.logLevel_of.
  destruct (Log.toUpperCase <$> Log.LOG_LEVEL env) as [u|].
  - destruct (String.eqb_spec u "DEBUG") as [->|H1];
      [|destruct (String.eqb_spec u "INFO") as [->|H2];
        [|destruct (String.eqb_spec u "WARN") as [->|H3];
          [|destruct (String.eqb_spec u "ERROR") as [->|H4]]]];
      cbn [Log.level_number];
      (split; [lia|]);
      (split; [split; [try lia; done | try (intros [=]; congruence); intros _; lia]|]);
      (split; [split; [try lia; intros _; split; congruence | try (intros _; lia); intros [? ?]; congruence]
              |split; [try lia; intros _; congruence | try (intros _; lia); congruence]]).
  - cbn [Log.level_number]. repeat split; try lia; try done.
Qed.

Lemma log_level_filter_witness :
  let env := Log.mkEnv (Some "warn") None None in
  is_Some (Log.error (Log.logLevel_of env) env Scenario.t1 "failed" None) ∧
  ¬ is_Some (Log.info (Log.logLevel_of env) env Scenario.t1 "served" None).
Proof.
  intros env.
  destruct (log_level_filter env Scenario.t1 "failed" None) as (Herror & _).
  destruct (log_level_filter env Scenario.t1 "served" None) as (_ & _ & Hinfo & _).
  split; [exact Herror|].
  intros H. apply Hinfo in H. destruct H as [H _]. apply H. reflexivity.
Defined.

Lemma log_lookup logLevel env now level levelName message meta entry key :
  Log.log logLevel env now level levelName message meta = Some entry →
  key ≠ "requestId" → key ≠ "functionName" →
  entry !! key
    = (default ∅ meta ∪
       {[ "timestamp" := JStr now; "level" := JStr levelName; "message" := JStr message ]}) !! key.
Proof.
  unfold Log.log. destruct (_ <? _); [done|]. intros [= <-] H1 H2.
  repeat case_match; by rewrite ?lookup_insert_ne by done.
Qed.

Lemma log_requestId logLevel env now level levelName message meta entry :
  Log.log logLevel env now level levelName message meta = Some entry →
  Js.truthy (Log.AWS_REQUEST_ID env) = true →
  entry !! "requestId" = JStr <$> Log.AWS_REQUEST_ID env.
Proof.
  unfold Log.log. destruct (_ <? _); [done|]. intros [= <-] Hreq. rewrite Hreq.
  destruct (Log.AWS_REQUEST_ID env) as [rq|]; [|done].
  case_match; rewrite ?lookup_insert_ne by done; by rewrite lookup_insert_eq.
Qed.

(** X24.  What a FHIR operation entry holds.  When an entry is printed, its
    [resourceId] is the member of that name of the caller's meta if there is
    one, and otherwise the masked id (absent for a missing or empty id).  When AWS_REQUEST_ID is set and not empty,
    [requestId] is that value, whatever meta holds. *)
Theorem fhirOperation_entry lvl env now operation t rid meta entry :
  Log.fhirOperation lvl env now operation t rid meta = Some entry →
  entry !! "resourceId"
    = match default ∅ meta !! "resourceId" with
      | Some v => Some v
      | None => JStr <$> Log.masked rid
      end ∧
  (Js.truthy (Log.AWS_REQUEST_ID env) = true →
     entry !! "requestId" = JStr <$> Log.AWS_REQUEST_ID env).
Proof.
  unfold Log.fhirOperation, Log.info. intros Hlog. split.
  - rewrite (log_lookup _ _ _ _ _ _ _ _ "resourceId" Hlog) by done.
    change (default ∅ (Some ?m)) with m.
    generalize (default ∅ meta). intros m.
    rewrite !lookup_union.
    rewrite lookup_singleton_ne by done.
    rewrite !lookup_insert_ne by done. rewrite lookup_singleton_ne by done.
    destruct (m !! "resourceId") as [v|] eqn:Hm.
    + by destruct (Log.member _ _ !! _).
    + unfold Log.member. destruct (Log.masked rid) as [x|]; cbn [fmap option_fmap option_map].
      * by rewrite lookup_singleton_eq.
      * by rewrite lookup_empty.
  - by eapply log_requestId.
Qed.

Lemma fhirOperation_entry_witness :
  let env := Log.mkEnv None (Some "req-9") None in
  let entry :=
    default ∅ (Log.fhirOperation Log.INFO env Scenario.t1 "READ" "Patient"
                 (Some "123e4567-e89b") None) in
  entry !! "resourceId" = Some (JStr "123e***") ∧
  entry !! "requestId" = Some (JStr "req-9").
Proof.
  intros env entry.
  destruct (fhirOperation_entry Log.INFO env Scenario.t1 "READ" "Patient"
              (Some "123e4567-e89b") None entry) as [H1 H2].
  - reflexivity.
  - split.
    + rewrite H1. reflexivity.
    + rewrite H2; reflexivity.
Defined.

(** X25.  What an audit entry holds.  When an entry is printed and the
    caller's meta has no member of these names, its [timestamp] is the
    time [auditLog] read, which replaces the one [log] stamps, its
    [resourceId] is the masked id, and [userId] is copied as it is. *)
Theorem auditLog_entry lvl env now audit_time event userId t rid meta entry :
  Log.auditLog lvl env now audit_time event userId t rid meta = Some entry →
  default ∅ meta !! "timestamp" = None →
  default ∅ meta !! "resourceId" = None →
  default ∅ meta !! "userId" = None →
  entry !! "timestamp" = Some (JStr audit_time) ∧
  entry !! "resourceId" = JStr <$> Log.masked rid ∧
  entry !! "userId" = JStr <$> userId.
Proof.
  unfold Log.auditLog, Log.info. intros Hlog.
  rewrite !(log_lookup _ _ _ _ _ _ _ _ _ Hlog) by done.
  change (default ∅ (Some ?m)) with m.
  generalize (default ∅ meta). intros m Ht Hr Hu.
  rewrite !lookup_union, Ht, Hr, Hu.
  assert (Hmem : ∀ key key' value, key ≠ key' → Log.member key value !! key' = None).
  { intros key key' value Hne. unfold Log.member.
    destruct value; [by rewrite lookup_singleton_ne | by rewrite lookup_empty]. }
  assert (Hown : ∀ key value, Log.member key value !! key = JStr <$> value).
  { intros key value. unfold Log.member.
    destruct value; [by rewrite lookup_singleton_eq | by rewrite lookup_empty]. }
  rewrite !Hown. rewrite !Hmem by done.
  split; [|split].
  - rewrite lookup_insert_ne by done. by rewrite lookup_singleton_eq.
  - rewrite !lookup_insert_ne by done. rewrite !lookup_singleton_ne by done.
    by destruct (Log.masked rid).
  - rewrite !lookup_insert_ne by done. rewrite !lookup_singleton_ne by done.
    by destruct userId.
Qed.

Lemma auditLog_entry_witness :
  let env := Log.mkEnv None None None in
  let entry :=
    default ∅ (Log.auditLog Log.INFO env Scenario.t2 Scenario.t1 "PHI_ACCESS"
                 (Some "user-1") (Some "Patient") (Some "123e4567-e89b") None) in
  entry !! "timestamp" = Some (JStr Scenario.t1) ∧
  entry !! "resourceId" = Some (JStr "123e***") ∧
  entry !! "userId" = Some (JStr "user-1").
Proof.
  intros env entry.
  apply (auditLog_entry Log.INFO env Scenario.t2 Scenario.t1 "PHI_ACCESS"
           (Some "user-1") (Some "Patient") (Some "123e4567-e89b") None entry).
  - reflexivity.
  - reflexivity.
  - reflexivity.
  - reflexivity.
Defined.
